(** * mem0-selfhost: the local assistant (app/local_assistant.py)

    A shallow embedding of the memory-augmented dialogue loop of
    [app/local_assistant.py] and of the properties its specification
    states about it.

    Conventions of the embedding.
    - A Python [str] is a Rocq [string]; a character is identified with
      its code point, and the model covers the code points below 256.
      On that range [str.lower], [str.isspace], [str.strip] and
      [str.split] are modelled exactly as CPython computes them.
    - A value decoded from a memory-store response ([resp.json()] or
      [resp.text]) is a [value]: None, bool, int, float, str, list, or a
      dict with string keys kept in insertion order.
    - A function that can raise returns a [result]; code that reads or
      writes the module globals, prints, or calls a collaborator lives in
      the monad [M] over [state].
    - The collaborators ([mem_client], [oa_client]) are parameters: they
      answer each call with a result or an exception, as a function of the
      calls made so far. *)

From Stdlib Require Import Bool Arith ZArith NArith Lia List.
From Stdlib Require Import Ascii String.
From Stdlib Require Import Floats.PrimFloat.
Import ListNotations.

Local Open Scope list_scope.
Local Open Scope string_scope.

(** ** Python strings *)

Module PyStr.

(** [str.isspace] on one character, for code points below 256: the ASCII
    white space (TAB, LF, VT, FF, CR, space), the separators FS, GS, RS,
    US, and NEL (0x85) and NBSP (0xA0). *)
Definition isspace (c : ascii) : bool :=
  let n := N_of_ascii c in
  ((9 <=? n) && (n <=? 13) || (28 <=? n) && (n <=? 32)
   || (n =? 133) || (n =? 160))%N.

(** [str.lower] on one character, for code points below 256: A-Z and the
    Latin-1 capitals 0xC0-0xDE (the multiplication sign 0xD7 apart) move
    up by 32. *)
Definition lower_char (c : ascii) : ascii :=
  let n := N_of_ascii c in
  if ((65 <=? n) && (n <=? 90)
      || (192 <=? n) && (n <=? 222) && negb (n =? 215))%N
  then ascii_of_N (n + 32) else c.

(** [s.lower()] *)
Fixpoint lower (s : string) : string :=
  match s with
  | EmptyString => EmptyString
  | String c s' => String (lower_char c) (lower s')
  end.

(** [not s]: the empty string is the only falsy one. *)
Definition is_empty (s : string) : bool :=
  match s with EmptyString => true | _ => false end.

(** [s.startswith(p)] *)
Fixpoint startswith (p s : string) : bool :=
  match p, s with
  | EmptyString, _ => true
  | String a p', String b s' => Ascii.eqb a b && startswith p' s'
  | String _ _, EmptyString => false
  end.

(** [k in s]: [k] occurs in [s] at some position. *)
Fixpoint contains (s k : string) : bool :=
  startswith k s
  || match s with
     | EmptyString => false
     | String _ s' => contains s' k
     end.

(** [sep.join(l)] for a list of strings. *)
Fixpoint join (sep : string) (l : list string) : string :=
  match l with
  | [] => ""
  | [x] => x
  | x :: rest => x ++ sep ++ join sep rest
  end.

(** [s.lstrip()] *)
Fixpoint lstrip (s : string) : string :=
  match s with
  | String c s' => if isspace c then lstrip s' else s
  | EmptyString => EmptyString
  end.

(** [s.rstrip()] *)
Fixpoint rstrip (s : string) : string :=
  match s with
  | EmptyString => EmptyString
  | String c s' =>
      let r := rstrip s' in
      if is_empty r && isspace c then EmptyString else String c r
  end.

(** [s.strip()] *)
Definition strip (s : string) : string := rstrip (lstrip s).

(** The longest prefix without white space, and what follows it. *)
Fixpoint span_word (s : string) : string * string :=
  match s with
  | EmptyString => (EmptyString, EmptyString)
  | String c s' =>
      if isspace c then (EmptyString, s)
      else let (w, r) := span_word s' in (String c w, r)
  end.

(** [s.split(maxsplit=k)] with no separator and [k >= 0]: CPython's
    split_whitespace. While splits remain, skip white space, stop at
    the end of the string, otherwise cut one word. When the [k] splits
    are done, what is left after the white space is one last item, kept
    up to the end of the string. *)
Fixpoint split (s : string) (maxsplit : nat) : list string :=
  let r := lstrip s in
  match maxsplit with
  | O => if is_empty r then [] else [r]
  | S k =>
      if is_empty r then []
      else let (w, rest) := span_word r in w :: split rest k
  end.

End PyStr.

(** ** Python values, exceptions and results *)

(** A value as [resp.json()] or [resp.text] gives it. A dict keeps its
    items in insertion order; a key is looked up at its first binding. *)
#[warnings="-register-all"]
Inductive value : Type :=
| VNone
| VBool (b : bool)
| VInt (z : Z)
| VFloat (f : float)
| VStr (s : string)
| VList (l : list value)
| VDict (d : list (string * value)).

(** An exception object, an instance of [Exception]: its class and the
    text [str(e)] gives. *)
Record exn : Type := Exn { exn_class : string; exn_str : string }.

Inductive result (A : Type) : Type :=
| Ok (a : A)
| Raise (e : exn).
Arguments Ok {A} a.
Arguments Raise {A} e.

Definition rbind {A B} (r : result A) (k : A -> result B) : result B :=
  match r with
  | Ok a => k a
  | Raise e => Raise e
  end.

Declare Scope result_scope.
Delimit Scope result_scope with result.
Notation "x <- r ;; k" := (rbind r (fun x => k))
  (at level 61, r at next level, right associativity) : result_scope.

(** The line feed and the double quote, which a literal cannot hold. *)
Definition nl : string := String (ascii_of_nat 10) "".
Definition dquote : string := String (ascii_of_nat 34) "".

(** [bool(v)] *)
Definition truthy (v : value) : bool :=
  match v with
  | VNone => false
  | VBool b => b
  | VInt z => negb (z =? 0)%Z
  | VFloat f => negb (PrimFloat.eqb f 0%float)
  | VStr s => negb (PyStr.is_empty s)
  | VList l => match l with [] => false | _ => true end
  | VDict d => match d with [] => false | _ => true end
  end.

(** [a or b], both operands already evaluated. *)
Definition py_or (a b : value) : value := if truthy a then a else b.

(** [type(v).__name__] *)
Definition type_name (v : value) : string :=
  match v with
  | VNone => "NoneType"
  | VBool _ => "bool"
  | VInt _ => "int"
  | VFloat _ => "float"
  | VStr _ => "str"
  | VList _ => "list"
  | VDict _ => "dict"
  end.

(** [k in d] and [d[k]] on the items of a dict. *)
Fixpoint dict_lookup (d : list (string * value)) (k : string) : option value :=
  match d with
  | [] => None
  | (k', v) :: d' => if String.eqb k' k then Some v else dict_lookup d' k
  end.

(** [d.get(k, default)] and [d.get(k)] *)
Definition dict_get_default (d : list (string * value)) (k : string)
    (default : value) : value :=
  match dict_lookup d k with
  | Some v => v
  | None => default
  end.

Definition dict_get (d : list (string * value)) (k : string) : value :=
  dict_get_default d k VNone.

(** [v.get(k)] on a value of any type: only a dict has the method. *)
Definition value_get (v : value) (k : string) : result value :=
  match v with
  | VDict d => Ok (dict_get d k)
  | _ => Raise (Exn "AttributeError"
                  ("'" ++ type_name v ++ "' object has no attribute 'get'"))
  end.

(** [l[i]] on a list, for [i >= 0]. *)
Definition list_index {A} (l : list A) (i : nat) : result A :=
  match nth_error l i with
  | Some a => Ok a
  | None => Raise (Exn "IndexError" "list index out of range")
  end.

(** [l[:stop]]: a negative [stop] counts from the end. *)
Definition slice_to {A} (l : list A) (stop : Z) : list A :=
  if (stop <? 0)%Z
  then firstn (Z.to_nat (Z.max 0 (Z.of_nat (List.length l) + stop))) l
  else firstn (Z.to_nat stop) l.

(** Decimal digits of a position in a list, for the message of [join]. *)
Fixpoint digits (fuel n : nat) (acc : string) : string :=
  match fuel with
  | O => acc
  | S fuel' =>
      let acc' := String (ascii_of_nat (48 + n mod 10)) acc in
      if Nat.eqb (n / 10) 0 then acc' else digits fuel' (n / 10) acc'
  end.

Definition str_of_nat (n : nat) : string := digits (S n) n "".

(** [sep.join(l)] on a list of values: every item must be a [str]. *)
Fixpoint join_values_from (i : nat) (l : list value) : result (list string) :=
  match l with
  | [] => Ok []
  | VStr s :: rest =>
      (ss <- join_values_from (S i) rest ;; Ok (s :: ss))%result
  | v :: _ =>
      Raise (Exn "TypeError"
               ("sequence item " ++ str_of_nat i ++ ": expected str instance, "
                ++ type_name v ++ " found"))
  end.

Definition join_values (sep : string) (l : list value) : result string :=
  (ss <- join_values_from 0 l ;; Ok (PyStr.join sep ss))%result.

(** ** Memory formatting helpers *)

Section Formatting.

(** [repr(v)] for a value that is not a [str]: Python's, not this
    repository's. *)
Variable py_repr : value -> string.

(** [str(v)], which is also what an f-string field [{v}] renders. *)
Definition py_str (v : value) : string :=
  match v with
  | VStr s => s
  | _ => py_repr v
  end.

Definition _normalize_mem_items (obj : value) : list value :=
  match obj with
  | VNone => []
  | VList l => l
  | VDict d =>
      match dict_lookup d "results" with
      | Some (VList l) => l
      | _ => [obj]
      end
  | _ => [obj]
  end.

(** The body of the loop of [format_memories] for an item that is a
    dict: the line it appends. The operands of each [or] are evaluated
    left to right, and only while the ones before are falsy. *)
Definition format_record (d : list (string * value)) : result string :=
  (let m := VDict d in
   let memory_id := py_or (dict_get d "id") (py_or (dict_get d "_id") (VStr "?")) in
   text <- (if truthy (dict_get d "text") then Ok (dict_get d "text")
            else if truthy (dict_get d "memory") then Ok (dict_get d "memory")
            else
              nested <- value_get (dict_get_default d "data" (VDict [])) "memory" ;;
              Ok (py_or nested (VStr (py_str m)))) ;;
   let meta := py_or (dict_get d "metadata") (py_or (dict_get d "meta") (VDict [])) in
   src <- value_get meta "source" ;;
   let source := py_or src (VStr "") in
   important <- value_get meta "important" ;;
   let flags := [] in
   let flags := if truthy source then (flags ++ [source])%list else flags in
   let flags := if truthy important then (flags ++ [VStr "important"])%list else flags in
   let prefix := "[" ++ py_str memory_id ++ "]" in
   prefix <- (if truthy (VList flags)
              then joined <- join_values ", " flags ;;
                   Ok (prefix ++ " (" ++ joined ++ ")")
              else Ok prefix) ;;
   Ok (prefix ++ " " ++ py_str text))%result.

(** The loop [for m in items[:limit]], with [lines] as it stands. *)
Fixpoint format_loop (items : list value) (lines : list string)
    : result (list string) :=
  match items with
  | [] => Ok lines
  | m :: rest =>
      match m with
      | VDict d =>
          (line <- format_record d ;; format_loop rest (lines ++ [line])%list)%result
      | _ => format_loop rest (lines ++ [py_str m])%list
      end
  end.

Definition format_memories (memories : value) (limit : Z) : result string :=
  let items := _normalize_mem_items memories in
  if negb (truthy (VList items)) then Ok "No memories found."
  else (lines <- format_loop (slice_to items limit) [] ;;
        Ok (PyStr.join nl lines))%result.

End Formatting.

(** ** Importance / storage heuristics *)

Definition keywords : list string :=
  [ "remember"; "note this"; "important"; "permanent"; "preference";
    "goal"; "target"; "schedule"; "budget" ].

Definition should_store_memory (user_input answer : string) : bool :=
  let text := PyStr.lower (user_input ++ " " ++ answer) in
  if existsb (fun k => PyStr.contains text k) keywords then true
  else if Nat.ltb 140 (String.length user_input) then true
  else false.

(** ** Global state and collaborators *)

(** One message of a chat or of a stored turn: [{"role": r, "content": c}]. *)
Record message : Type := Message { role : string; content : string }.

(** The calls [local_assistant] makes on [mem_client], with the keyword
    arguments it passes. *)
Module Mem0Client.

Inductive call : Type :=
| search (query : string) (agent_id : string)
| add_memories (messages : list message) (agent_id : string)
    (metadata : list (string * value))
| list_memories (agent_id : string)
| get_memory (memory_id : string)
| delete_memory (memory_id : string)
| delete_all (agent_id : string).

End Mem0Client.

(** The arguments of [oa_client.chat.completions.create]. *)
Record chat_request : Type := ChatRequest {
  model : string;
  messages : list message;
  temperature : float
}.

(** A call on a collaborator, as the history records it. *)
Inductive event : Type :=
| EMem (c : Mem0Client.call)
| EChat (r : chat_request).

(** The module globals the functions read and write, the lines printed
    so far and the collaborator calls made so far. *)
Record state : Type := State {
  CURRENT_AGENT_ID : string;
  stdout : list string;
  calls : list event
}.

(** Computations over the state that return or raise. What a
    computation did before it raised stays done. *)
Definition M (A : Type) : Type := state -> result A * state.

Definition ret {A} (a : A) : M A := fun st => (Ok a, st).

Definition bind {A B} (m : M A) (k : A -> M B) : M B :=
  fun st =>
    match m st with
    | (Ok a, st') => k a st'
    | (Raise e, st') => (Raise e, st')
    end.

Declare Scope M_scope.
Delimit Scope M_scope with M.
Notation "x <- m ;; k" := (bind m (fun x => k))
  (at level 61, m at next level, right associativity) : M_scope.
Notation "m ;;; k" := (bind m (fun _ => k))
  (at level 61, right associativity) : M_scope.

(** A pure computation that may raise, run in [M]. *)
Definition lift {A} (r : result A) : M A := fun st => (r, st).

(** [try: body / except Exception as e: handler e] *)
Definition try_except {A} (body : M A) (handler : exn -> M A) : M A :=
  fun st =>
    match body st with
    | (Ok a, st') => (Ok a, st')
    | (Raise e, st') => handler e st'
    end.

(** [try: x = body / except Exception as e: ...], the outcome handed to
    the code that follows. *)
Definition attempt {A} (body : M A) : M (result A) :=
  fun st => let (r, st') := body st in (Ok r, st').

Definition print (line : string) : M unit :=
  fun st =>
    (Ok tt, State (CURRENT_AGENT_ID st) (stdout st ++ [line])%list (calls st)).

Definition get_CURRENT_AGENT_ID : M string :=
  fun st => (Ok (CURRENT_AGENT_ID st), st).

Definition set_CURRENT_AGENT_ID (a : string) : M unit :=
  fun st => (Ok tt, State a (stdout st) (calls st)).

Definition SYSTEM_PROMPT : string :=
  "You are Jose's personal assistant." ++ nl ++
  "You have access to an external long-term memory system." ++ nl ++
  "Use the provided memories as context, but do NOT mention the memory system by name." ++ nl ++
  "Always keep answers short, direct, and practical." ++ nl.

#[warnings="-inexact-float"]
Definition temperature_0_4 : float := 0.4%float.

Section Assistant.

Variable py_repr : value -> string.

(** [mem_client] and [oa_client]: what a call returns or raises, given
    the calls made before it. A chat completion returns the [content]
    of the message of each of its choices, [None] or a [str]. *)
Variable mem_client : list event -> Mem0Client.call -> result value.
Variable oa_client : list event -> chat_request -> result (list (option string)).

Definition call_mem (c : Mem0Client.call) : M value :=
  fun st =>
    (mem_client (calls st) c,
     State (CURRENT_AGENT_ID st) (stdout st) (calls st ++ [EMem c])%list).

Definition call_chat (r : chat_request) : M (list (option string)) :=
  fun st =>
    (oa_client (calls st) r,
     State (CURRENT_AGENT_ID st) (stdout st) (calls st ++ [EChat r])%list).

Local Open Scope M_scope.

(** ** Core chat loop *)

(** What [user_input + " " + answer] raises in [should_store_memory]
    when the content of the first choice is None. *)
Definition concat_none_error : exn :=
  Exn "TypeError"
    ("can only concatenate str (not " ++ dquote ++ "NoneType" ++ dquote
     ++ ") to str").

(** Step 1 of [chat_once]: search memories relevant to the input. *)
Definition search_memories (user_input : string) : M value :=
  try_except
    (agent <- get_CURRENT_AGENT_ID ;;
     res <- call_mem (Mem0Client.search user_input agent) ;;
     ret (py_or res (VList [])))
    (fun e =>
       print ("[mem0 search error] " ++ exn_str e) ;;;
       ret (VList [])).

(** Step 2: the prompt with the memory context. *)
Definition build_messages (agent memory_block user_input : string)
    : list message :=
  [ Message "system" SYSTEM_PROMPT;
    Message "system" ("Current agent: " ++ agent);
    Message "system" ("Relevant prior memories:" ++ nl ++ memory_block);
    Message "user" user_input ].

Definition completion_request (agent memory_block user_input : string)
    : chat_request :=
  ChatRequest "gpt-4.1-mini"
    (build_messages agent memory_block user_input) temperature_0_4.

(** Step 4: store this turn back into Mem0. [answer] is the content of
    the first choice, None or a [str]; on None [should_store_memory]
    raises before anything is stored. *)
Definition store_turn (user_input : string) (answer : option string) : M unit :=
  try_except
    (match answer with
     | None => lift (Raise concat_none_error)
     | Some a =>
         let important := should_store_memory user_input a in
         agent <- get_CURRENT_AGENT_ID ;;
         _ <- call_mem
                (Mem0Client.add_memories
                   [ Message "user" user_input; Message "assistant" a ]
                   agent
                   [ ("source", VStr "local_assistant");
                     ("important", VBool important) ]) ;;
         ret tt
     end)
    (fun e => print ("[mem0 add error] " ++ exn_str e)).

Definition chat_once (user_input : string) : M (option string) :=
  search_results <- search_memories user_input ;;
  memory_block <- lift (format_memories py_repr search_results 8) ;;
  agent <- get_CURRENT_AGENT_ID ;;
  choices <- call_chat (completion_request agent memory_block user_input) ;;
  answer <- lift (list_index choices 0) ;;
  store_turn user_input answer ;;;
  ret answer.

(** ** /mem commands *)

Definition mem_usage : string :=
  "Unknown /mem command. Use:" ++ nl ++
  "/mem" ++ nl ++
  "/mem search <query>" ++ nl ++
  "/mem show <id>" ++ nl ++
  "/mem delete <id>" ++ nl ++
  "/mem clear".

Definition handle_mem_command (cmd : string) : M string :=
  let parts := PyStr.split (PyStr.strip cmd) 2 in
  (* just "/mem" *)
  if Nat.eqb (List.length parts) 1 then
    r <- attempt (agent <- get_CURRENT_AGENT_ID ;;
                  call_mem (Mem0Client.list_memories agent)) ;;
    match r with
    | Raise e => ret ("[mem0 list error] " ++ exn_str e)
    | Ok res => lift (format_memories py_repr res 30)
    end
  else
    sub <- (if Nat.leb 2 (List.length parts)
            then p1 <- lift (list_index parts 1) ;; ret (PyStr.lower p1)
            else ret "") ;;
    if String.eqb sub "search" then
      if Nat.eqb (List.length parts) 2 then ret "Usage: /mem search <query>"
      else
        query <- lift (list_index parts 2) ;;
        r <- attempt (agent <- get_CURRENT_AGENT_ID ;;
                      call_mem (Mem0Client.search query agent)) ;;
        match r with
        | Raise e => ret ("[mem0 search error] " ++ exn_str e)
        | Ok res => lift (format_memories py_repr res 30)
        end
    else if String.eqb sub "show" then
      if Nat.eqb (List.length parts) 2 then ret "Usage: /mem show <memory_id>"
      else
        memory_id <- lift (list_index parts 2) ;;
        r <- attempt (call_mem (Mem0Client.get_memory memory_id)) ;;
        match r with
        | Raise e => ret ("[mem0 get error] " ++ exn_str e)
        | Ok m => lift (format_memories py_repr m 1)
        end
    else if String.eqb sub "delete" then
      if Nat.eqb (List.length parts) 2 then ret "Usage: /mem delete <memory_id>"
      else
        memory_id <- lift (list_index parts 2) ;;
        r <- attempt (call_mem (Mem0Client.delete_memory memory_id)) ;;
        match r with
        | Raise e => ret ("[mem0 delete error] " ++ exn_str e)
        | Ok res =>
            ret ("Deleted memory " ++ memory_id ++ ": " ++ py_str py_repr res)
        end
    else if String.eqb sub "clear" then
      r <- attempt (agent <- get_CURRENT_AGENT_ID ;;
                    call_mem (Mem0Client.delete_all agent)) ;;
      match r with
      | Raise e => ret ("[mem0 clear error] " ++ exn_str e)
      | Ok res =>
          agent <- get_CURRENT_AGENT_ID ;;
          ret ("Cleared all memories for agent '" ++ agent ++ "': "
               ++ py_str py_repr res)
      end
    else ret mem_usage.

(** ** /agent commands (multi-agent memory) *)

Definition handle_agent_command (cmd : string) : M string :=
  let parts := PyStr.split (PyStr.strip cmd) 1 in
  (* just "/agent" *)
  if Nat.eqb (List.length parts) 1 then
    agent <- get_CURRENT_AGENT_ID ;;
    ret ("Current agent: " ++ agent)
  else
    p1 <- lift (list_index parts 1) ;;
    let new_agent := PyStr.strip p1 in
    if PyStr.is_empty new_agent then ret "Usage: /agent <name>"
    else
      set_CURRENT_AGENT_ID new_agent ;;;
      agent <- get_CURRENT_AGENT_ID ;;
      ret ("Switched agent to: " ++ agent).

End Assistant.

(** ** The specification's reading of the helpers *)

(** [k] occurs in [s] as a substring. *)
Definition occurs_in (k s : string) : Prop :=
  exists pre post, s = pre ++ k ++ post.

(** The importance heuristic as the specification words it: a keyword
    of the fixed set occurs in the lower-cased concatenation of the
    input, one space and the answer, or the input is longer than 140
    characters. *)
Definition is_important_spec (user_input answer : string) : Prop :=
  (exists k, In k keywords
             /\ occurs_in k (PyStr.lower (user_input ++ " " ++ answer)))
  \/ 140 < String.length user_input.

Definition is_dict (v : value) : bool :=
  match v with VDict _ => true | _ => false end.

Definition is_list (v : value) : bool :=
  match v with VList _ => true | _ => false end.

Definition is_str (v : value) : bool :=
  match v with VStr _ => true | _ => false end.

(** The first truthy candidate, in order, or the fallback. *)
Fixpoint first_truthy (candidates : list value) (fallback : value) : value :=
  match candidates with
  | [] => fallback
  | v :: rest => if truthy v then v else first_truthy rest fallback
  end.

(** A field of a nested mapping; absent when the value is no mapping. *)
Definition field_of (v : value) (k : string) : value :=
  match v with
  | VDict d => dict_get d k
  | _ => VNone
  end.

Section FormatterSpec.

Variable py_repr : value -> string.

Definition record_id (d : list (string * value)) : value :=
  first_truthy [dict_get d "id"; dict_get d "_id"] (VStr "?").

Definition record_text (d : list (string * value)) : value :=
  first_truthy
    [dict_get d "text"; dict_get d "memory";
     field_of (dict_get d "data") "memory"]
    (VStr (py_str py_repr (VDict d))).

Definition record_metadata (d : list (string * value)) : value :=
  first_truthy [dict_get d "metadata"; dict_get d "meta"] (VDict []).

(** The flag list: the source, when it is a non-empty string, then
    the word important when the flag of that name is truthy. *)
Definition record_flags (d : list (string * value)) : list string :=
  let meta := record_metadata d in
  ((match field_of meta "source" with
    | VStr s => if PyStr.is_empty s then [] else [s]
    | _ => []
    end)
   ++ (if truthy (field_of meta "important") then ["important"] else []))%list.

(** The line format of the specification. *)
Definition line_format (id : string) (flags : list string) (text : string)
    : string :=
  match flags with
  | [] => "[" ++ id ++ "] " ++ text
  | _ => "[" ++ id ++ "] (" ++ PyStr.join ", " flags ++ ") " ++ text
  end.

(** The line of one item: a record in the line format, any other
    value in its plain string form. *)
Definition rendered_line (m : value) : string :=
  match m with
  | VDict d =>
      line_format (py_str py_repr (record_id d)) (record_flags d)
        (py_str py_repr (record_text d))
  | _ => py_str py_repr m
  end.

End FormatterSpec.

(** A record of the documented shape: [data], when the text has to be
    looked up in it, is absent or a mapping; the metadata is falsy or a
    mapping; its source is falsy or a string. *)
Definition well_formed_record (d : list (string * value)) : bool :=
  (truthy (dict_get d "text") || truthy (dict_get d "memory")
   || is_dict (dict_get_default d "data" (VDict [])))
  && is_dict (record_metadata d)
  && (let src := field_of (record_metadata d) "source" in
      negb (truthy src) || is_str src).

Definition well_formed_item (m : value) : bool :=
  match m with
  | VDict d => well_formed_record d
  | _ => true
  end.

(** Strings made of white space only, and strings without any. *)
Fixpoint all_space (s : string) : bool :=
  match s with
  | EmptyString => true
  | String c s' => PyStr.isspace c && all_space s'
  end.

Fixpoint no_space (s : string) : bool :=
  match s with
  | EmptyString => true
  | String c s' => negb (PyStr.isspace c) && no_space s'
  end.

(** A string that is empty or starts with white space: what may follow
    a word. *)
Definition word_end (s : string) : Prop :=
  s = "" \/ exists c r, s = String c r /\ PyStr.isspace c = true.

(** A computation that leaves [CURRENT_AGENT_ID] as it found it,
    whether it returns or raises. *)
Definition keeps_agent {A} (m : M A) : Prop :=
  forall st, CURRENT_AGENT_ID (snd (m st)) = CURRENT_AGENT_ID st.

(** The turn [chat_once] stores: the two messages and the metadata. *)
Definition stored_turn (user_input answer agent : string) (important : bool)
    : Mem0Client.call :=
  Mem0Client.add_memories
    [ Message "user" user_input; Message "assistant" answer ]
    agent
    [ ("source", VStr "local_assistant"); ("important", VBool important) ].

(** The state once a completion request has been made. *)
Definition chat_event (st : state) (request : chat_request) : state :=
  State (CURRENT_AGENT_ID st) (stdout st) (calls st ++ [EChat request])%list.

(** ** The heuristic on strings whose lower-casing changes their length *)

(** [str.lower] does not keep the length of every string: U+0130, the
    capital I with a dot above, lowers to the two code points "i" and
    U+0307, the combining dot above. The strings of this module are
    over the code points below 256 and these two; on them [lower] is
    again what CPython computes. *)
Module UStr.

Inductive uchar : Type :=
| Latin (c : ascii)
| CapitalIDot
| CombiningDot.

Definition ustring : Type := list uchar.

(** A string of the narrower alphabet as one of this one. *)
Fixpoint of_string (s : string) : ustring :=
  match s with
  | EmptyString => []
  | String c s' => Latin c :: of_string s'
  end.

Definition eqb (a b : uchar) : bool :=
  match a, b with
  | Latin x, Latin y => Ascii.eqb x y
  | CapitalIDot, CapitalIDot => true
  | CombiningDot, CombiningDot => true
  | _, _ => false
  end.

(** The lower-case mapping of one character, one or two characters. *)
Definition lower_char (c : uchar) : ustring :=
  match c with
  | Latin a => [Latin (PyStr.lower_char a)]
  | CapitalIDot => [Latin "i"%char; CombiningDot]
  | CombiningDot => [CombiningDot]
  end.

(** [s.lower()] *)
Definition lower (s : ustring) : ustring := flat_map lower_char s.

(** [s.startswith(p)] *)
Fixpoint startswith (p s : ustring) : bool :=
  match p, s with
  | [], _ => true
  | a :: p', b :: s' => eqb a b && startswith p' s'
  | _ :: _, [] => false
  end.

(** [k in s] *)
Fixpoint contains (s k : ustring) : bool :=
  startswith k s
  || match s with
     | [] => false
     | _ :: s' => contains s' k
     end.

(** [should_store_memory], on these strings. *)
Definition should_store_memory (user_input answer : ustring) : bool :=
  let text := lower (user_input ++ of_string " " ++ answer)%list in
  if existsb (fun k => contains text (of_string k)) keywords then true
  else if Nat.ltb 140 (List.length user_input) then true
  else false.

(** The heuristic as the specification words it, on these strings. *)
Definition is_important_spec (user_input answer : ustring) : Prop :=
  (exists k pre post,
     In k keywords
     /\ lower (user_input ++ of_string " " ++ answer)%list
        = (pre ++ of_string k ++ post)%list)
  \/ 140 < List.length user_input.

End UStr.

(** ** Concrete collaborators and states for the examples *)

(** A stand-in for [repr], for inputs on which no value but a [str]
    is rendered. *)
Definition repr_type_only (v : value) : string := "<" ++ type_name v ++ ">".

(** The record of the specification's formatter example. *)
Definition example_record : value :=
  VDict [ ("id", VStr "m1"); ("text", VStr "likes ETFs");
          ("metadata", VDict [ ("source", VStr "chat");
                               ("important", VBool true) ]) ].

(** The state at process start. *)
Definition initial_state : state := State "vera" [] [].

Definition connection_error : exn :=
  Exn "ConnectionError" "connection refused".

(** A memory store that is down, and one that answers every call with
    an empty result list. *)
Definition mem_down : list event -> Mem0Client.call -> result value :=
  fun _ _ => Raise connection_error.

Definition mem_empty : list event -> Mem0Client.call -> result value :=
  fun _ _ => Ok (VDict [("results", VList [])]).

(** A memory store that serves searches and fails on everything else. *)
Definition mem_read_only : list event -> Mem0Client.call -> result value :=
  fun _ c =>
    match c with
    | Mem0Client.search _ _ => Ok (VDict [("results", VList [])])
    | _ => Raise connection_error
    end.

(** A completion service that always answers with one choice, and one
    that is down. *)
Definition oa_says (answer : string)
    : list event -> chat_request -> result (list (option string)) :=
  fun _ _ => Ok [Some answer].

Definition oa_down
    : list event -> chat_request -> result (list (option string)) :=
  fun _ _ => Raise (Exn "APIConnectionError" "Connection error.").

(** ** The memory-store client (app/mem0_client.py) *)

(** [s.rstrip(chars)]: the characters of [chars] are taken off the end. *)
Fixpoint char_in (c : ascii) (chars : string) : bool :=
  match chars with
  | EmptyString => false
  | String x chars' => Ascii.eqb x c || char_in c chars'
  end.

Fixpoint rstrip_chars (s chars : string) : string :=
  match s with
  | EmptyString => EmptyString
  | String c s' =>
      let r := rstrip_chars s' chars in
      if PyStr.is_empty r && char_in c chars then EmptyString else String c r
  end.

(** [d[k] = v] on the items of a dict: the value of a key that is there
    is replaced in place, a new key goes to the end. *)
Fixpoint dict_set (d : list (string * value)) (k : string) (v : value)
    : list (string * value) :=
  match d with
  | [] => [(k, v)]
  | (k', v') :: d' =>
      if String.eqb k' k then (k', v) :: d' else (k', v') :: dict_set d' k v
  end.

(** An [Optional[str]] argument: [bool(o)] and [a or b]. *)
Definition opt_truthy (o : option string) : bool :=
  match o with
  | Some s => negb (PyStr.is_empty s)
  | None => false
  end.

Definition opt_or (a b : option string) : option string :=
  if opt_truthy a then a else b.

Definition opt_value (o : option string) : value :=
  match o with
  | Some s => VStr s
  | None => VNone
  end.

(** An [Optional[Dict]] argument: [bool(o)]. *)
Definition opt_dict_truthy (o : option (list (string * value))) : bool :=
  match o with
  | Some (_ :: _) => true
  | _ => false
  end.

Definition opt_dict_value (o : option (list (string * value))) : value :=
  match o with
  | Some d => VDict d
  | None => VNone
  end.

(** A message as the dict it is in a request body. *)
Definition message_value (m : message) : value :=
  VDict [("role", VStr (role m)); ("content", VStr (content m))].

Inductive http_method : Type := GET | POST | PUT | DELETE.

(** The arguments of one call of [requests.get], [.post], [.put] or
    [.delete]: the URL and the keyword arguments [json], [params] and
    [timeout], [None] when the call does not pass them. *)
Record http_request : Type := HttpRequest {
  http_verb : http_method;
  http_url : string;
  http_json : option value;
  http_params : option (list (string * value));
  http_timeout : nat
}.

(** What the client reads of a [requests.Response]. The headers are
    those of a case-insensitive dict. *)
Record http_response : Type := HttpResponse {
  status_code : nat;
  reason : string;
  response_url : string;
  headers : list (string * string);
  text : string
}.

(** [resp.headers.get(name, default)] *)
Fixpoint header_get (hs : list (string * string)) (name default : string)
    : string :=
  match hs with
  | [] => default
  | (k, v) :: hs' =>
      if String.eqb (PyStr.lower k) (PyStr.lower name) then v
      else header_get hs' name default
  end.

(** [resp.raise_for_status()]: an [HTTPError] for a status from 400
    to 599, with the message [requests] gives it. *)
Definition raise_for_status (resp : http_response) : result unit :=
  let code := status_code resp in
  let message kind :=
    str_of_nat code ++ " " ++ kind ++ " Error: " ++ reason resp
    ++ " for url: " ++ response_url resp in
  if Nat.leb 400 code && Nat.ltb code 500
  then Raise (Exn "HTTPError" (message "Client"))
  else if Nat.leb 500 code && Nat.ltb code 600
  then Raise (Exn "HTTPError" (message "Server"))
  else Ok tt.

(** The requests sent and the lines printed so far. *)
Record io : Type := IO {
  sent : list http_request;
  printed : list string
}.

(** Computations that send requests and print, and return or raise. *)
Definition H (A : Type) : Type := io -> result A * io.

Definition hret {A} (a : A) : H A := fun w => (Ok a, w).

Definition hbind {A B} (m : H A) (k : A -> H B) : H B :=
  fun w =>
    match m w with
    | (Ok a, w') => k a w'
    | (Raise e, w') => (Raise e, w')
    end.

Declare Scope H_scope.
Delimit Scope H_scope with H.
Notation "x <- m ;; k" := (hbind m (fun x => k))
  (at level 61, m at next level, right associativity) : H_scope.

Definition hlift {A} (r : result A) : H A := fun w => (r, w).

Definition hprint (line : string) : H unit :=
  fun w => (Ok tt, IO (sent w) (printed w ++ [line])%list).

(** The configuration of a [Mem0Client] object. *)
Record client : Type := Client {
  base_url : string;
  default_user_id : option string;
  default_agent_id : option string
}.

Section Mem0ClientMethods.

(** The process environment, for [os.getenv]. *)
Variable environ : string -> option string.

(** [requests]: what a call returns or raises, given the requests sent
    before it; and [resp.json()] as a function of the body. *)
Variable transport : list http_request -> http_request -> result http_response.
Variable json_loads : string -> result value.

Definition MEM0_BASE_URL : string :=
  match environ "MEM0_BASE_URL" with
  | Some v => v
  | None => "http://127.0.0.1:8000"
  end.

Definition DEFAULT_USER_ID : option string := environ "MEM0_DEFAULT_USER_ID".

Definition DEFAULT_AGENT_ID : option string := environ "MEM0_DEFAULT_AGENT_ID".

(** [Mem0Client(base_url, default_user_id, default_agent_id)], every
    argument given. A caller that leaves one out gets [None],
    [DEFAULT_USER_ID] and [DEFAULT_AGENT_ID] in its place. *)
Definition __init__ (base_url : option string)
    (default_user_id default_agent_id : option string) : client :=
  Client (if opt_truthy base_url
          then match base_url with Some b => b | None => MEM0_BASE_URL end
          else MEM0_BASE_URL)
    default_user_id default_agent_id.

Definition send (req : http_request) : H http_response :=
  fun w => (transport (sent w) req, IO (sent w ++ [req])%list (printed w)).

(** *** Core helpers *)

Definition _url (self : client) (path : string) : string :=
  rstrip_chars (base_url self) "/" ++ path.

Definition _handle (resp : http_response) : result value :=
  (_ <- raise_for_status resp ;;
   if PyStr.startswith "application/json"
        (header_get (headers resp) "content-type" "")
   then json_loads (text resp)
   else Ok (VStr (text resp)))%result.

(** *** API methods *)

Local Open Scope H_scope.

(** POST /memories *)
Definition add_memories_request (self : client) (messages : list message)
    (user_id agent_id run_id : option string)
    (metadata : option (list (string * value))) : http_request :=
  let payload := [("messages", VList (map message_value messages))] in
  let payload :=
    if opt_truthy user_id || opt_truthy (default_user_id self)
    then dict_set payload "user_id"
           (opt_value (opt_or user_id (default_user_id self)))
    else payload in
  let payload :=
    if opt_truthy agent_id || opt_truthy (default_agent_id self)
    then dict_set payload "agent_id"
           (opt_value (opt_or agent_id (default_agent_id self)))
    else payload in
  let payload :=
    if opt_truthy run_id then dict_set payload "run_id" (opt_value run_id)
    else payload in
  let payload :=
    if opt_dict_truthy metadata
    then dict_set payload "metadata" (opt_dict_value metadata)
    else payload in
  HttpRequest POST (_url self "/memories") (Some (VDict payload)) None 30.

Definition add_memories (self : client) (messages : list message)
    (user_id agent_id run_id : option string)
    (metadata : option (list (string * value))) : H value :=
  resp <- send (add_memories_request self messages user_id agent_id run_id
                  metadata) ;;
  hlift (_handle resp).

(** GET /memories *)
Definition list_memories_request (self : client)
    (user_id agent_id run_id : option string) : http_request :=
  let params := [] in
  let params :=
    if opt_truthy user_id || opt_truthy (default_user_id self)
    then dict_set params "user_id"
           (opt_value (opt_or user_id (default_user_id self)))
    else params in
  let params :=
    if opt_truthy agent_id || opt_truthy (default_agent_id self)
    then dict_set params "agent_id"
           (opt_value (opt_or agent_id (default_agent_id self)))
    else params in
  let params :=
    if opt_truthy run_id then dict_set params "run_id" (opt_value run_id)
    else params in
  HttpRequest GET (_url self "/memories") None (Some params) 30.

Definition list_memories (self : client)
    (user_id agent_id run_id : option string) : H value :=
  resp <- send (list_memories_request self user_id agent_id run_id) ;;
  hlift (_handle resp).

(** GET /memories/{memory_id} *)
Definition get_memory_request (self : client) (memory_id : string)
    : http_request :=
  HttpRequest GET (_url self ("/memories/" ++ memory_id)) None None 30.

Definition get_memory (self : client) (memory_id : string) : H value :=
  resp <- send (get_memory_request self memory_id) ;;
  hlift (_handle resp).

(** PUT /memories/{memory_id} *)
Definition update_memory_request (self : client) (memory_id : string)
    (data : list (string * value)) : http_request :=
  HttpRequest PUT (_url self ("/memories/" ++ memory_id)) (Some (VDict data))
    None 30.

Definition update_memory (self : client) (memory_id : string)
    (data : list (string * value)) : H value :=
  resp <- send (update_memory_request self memory_id data) ;;
  hlift (_handle resp).

(** DELETE /memories/{memory_id} *)
Definition delete_memory_request (self : client) (memory_id : string)
    : http_request :=
  HttpRequest DELETE (_url self ("/memories/" ++ memory_id)) None None 30.

Definition delete_memory (self : client) (memory_id : string) : H value :=
  resp <- send (delete_memory_request self memory_id) ;;
  hlift (_handle resp).

(** DELETE /memories (all for a given identifier) *)
Definition delete_all_request (self : client)
    (user_id agent_id run_id : option string) : http_request :=
  let params := [] in
  let params :=
    if opt_truthy user_id || opt_truthy (default_user_id self)
    then dict_set params "user_id"
           (opt_value (opt_or user_id (default_user_id self)))
    else params in
  let params :=
    if opt_truthy agent_id || opt_truthy (default_agent_id self)
    then dict_set params "agent_id"
           (opt_value (opt_or agent_id (default_agent_id self)))
    else params in
  let params :=
    if opt_truthy run_id then dict_set params "run_id" (opt_value run_id)
    else params in
  HttpRequest DELETE (_url self "/memories") None (Some params) 30.

Definition delete_all (self : client)
    (user_id agent_id run_id : option string) : H value :=
  resp <- send (delete_all_request self user_id agent_id run_id) ;;
  hlift (_handle resp).

(** POST /search *)
Definition search_request (self : client) (query : string)
    (user_id agent_id run_id : option string)
    (filters : option (list (string * value))) : http_request :=
  let payload := [("query", VStr query)] in
  let payload :=
    if opt_truthy user_id || opt_truthy (default_user_id self)
    then dict_set payload "user_id"
           (opt_value (opt_or user_id (default_user_id self)))
    else payload in
  let payload :=
    if opt_truthy agent_id || opt_truthy (default_agent_id self)
    then dict_set payload "agent_id"
           (opt_value (opt_or agent_id (default_agent_id self)))
    else payload in
  let payload :=
    if opt_truthy run_id then dict_set payload "run_id" (opt_value run_id)
    else payload in
  let payload :=
    if opt_dict_truthy filters
    then dict_set payload "filters" (opt_dict_value filters)
    else payload in
  HttpRequest POST (_url self "/search") (Some (VDict payload)) None 60.

Definition search (self : client) (query : string)
    (user_id agent_id run_id : option string)
    (filters : option (list (string * value))) : H value :=
  resp <- send (search_request self query user_id agent_id run_id filters) ;;
  hlift (_handle resp).

(** POST /reset *)
Definition reset_request (self : client) : http_request :=
  HttpRequest POST (_url self "/reset") None None 60.

Definition reset (self : client) : H value :=
  resp <- send (reset_request self) ;;
  hlift (_handle resp).

End Mem0ClientMethods.

(** ** The assistant's client, and the calls as the requests it sends *)

Section AssistantClient.

Variable environ : string -> option string.
Variable transport : list http_request -> http_request -> result http_response.
Variable json_loads : string -> result value.

(** [mem_client = Mem0Client(default_user_id="jose", default_agent_id=None)] *)
Definition mem_client_object : client :=
  __init__ environ None (Some "jose") None.

(** A call of [local_assistant] on [mem_client], with the keyword
    arguments it passes and the others at their defaults. *)
Definition call_method (self : client) (c : Mem0Client.call) : H value :=
  match c with
  | Mem0Client.search query agent_id =>
      search transport json_loads self query None (Some agent_id) None None
  | Mem0Client.add_memories messages agent_id metadata =>
      add_memories transport json_loads self messages None (Some agent_id) None
        (Some metadata)
  | Mem0Client.list_memories agent_id =>
      list_memories transport json_loads self None (Some agent_id) None
  | Mem0Client.get_memory memory_id =>
      get_memory transport json_loads self memory_id
  | Mem0Client.delete_memory memory_id =>
      delete_memory transport json_loads self memory_id
  | Mem0Client.delete_all agent_id =>
      delete_all transport json_loads self None (Some agent_id) None
  end.

(** The request a call sends. *)
Definition call_request (self : client) (c : Mem0Client.call) : http_request :=
  match c with
  | Mem0Client.search query agent_id =>
      search_request self query None (Some agent_id) None None
  | Mem0Client.add_memories messages agent_id metadata =>
      add_memories_request self messages None (Some agent_id) None
        (Some metadata)
  | Mem0Client.list_memories agent_id =>
      list_memories_request self None (Some agent_id) None
  | Mem0Client.get_memory memory_id => get_memory_request self memory_id
  | Mem0Client.delete_memory memory_id => delete_memory_request self memory_id
  | Mem0Client.delete_all agent_id =>
      delete_all_request self None (Some agent_id) None
  end.

(** The requests the memory store has received, from the calls made. *)
Definition requests_of (self : client) (events : list event)
    : list http_request :=
  flat_map
    (fun ev =>
       match ev with
       | EMem c => [call_request self c]
       | EChat _ => []
       end)
    events.

(** [mem_client] as [local_assistant] has it: each call runs the method
    of the client object over the transport. *)
Definition mem_client_over_http : list event -> Mem0Client.call -> result value :=
  fun events c =>
    fst (call_method mem_client_object c
           (IO (requests_of mem_client_object events) [])).

End AssistantClient.

(** The fields of a request: the JSON body when it is a dict, else the
    query parameters. *)
Definition request_fields (req : http_request) : list (string * value) :=
  match http_json req, http_params req with
  | Some (VDict d), _ => d
  | _, Some p => p
  | _, _ => []
  end.

(** The first of two optional strings that is neither None nor empty. *)
Definition first_nonempty (a b : option string) : option string :=
  match a with
  | Some (String c s) => Some (String c s)
  | _ =>
      match b with
      | Some (String c s) => Some (String c s)
      | _ => None
      end
  end.

(** The identifier fields of the four requests that carry them. *)
Definition identifiers_resolved (self : client)
    (user_id agent_id run_id : option string) (req : http_request) : Prop :=
  dict_lookup (request_fields req) "user_id"
  = option_map VStr (first_nonempty user_id (default_user_id self))
  /\ dict_lookup (request_fields req) "agent_id"
     = option_map VStr (first_nonempty agent_id (default_agent_id self))
  /\ dict_lookup (request_fields req) "run_id"
     = option_map VStr (first_nonempty run_id None).

(** A store that fails on a request: it cannot be reached, or it
    answers with a status from 400 to 599. *)
Definition store_fails
    (transport : list http_request -> http_request -> result http_response)
    : Prop :=
  forall h req,
    (exists e, transport h req = Raise e)
    \/ (exists resp,
          transport h req = Ok resp /\ 400 <= status_code resp < 600).

(** ** The smoke test (app/test_mem0_client.py) *)

Section SmokeTest.

Variable py_repr : value -> string.
Variable environ : string -> option string.
Variable transport : list http_request -> http_request -> result http_response.
Variable json_loads : string -> result value.

Local Open Scope H_scope.

Definition test_messages : list message :=
  [ Message "user" "My name is Jose and I like high-yield ETFs.";
    Message "assistant" "Noted your preference for high-yield dividend ETFs." ].

Definition test_query : string := "What does the user like to invest in?".

(** [main] of the test script; [print(a, b)] writes [a], a space and
    [str(b)]. *)
Definition test_main : H unit :=
  let client := __init__ environ None (Some "jose") (Some "vera") in
  (* 1) Add a memory *)
  add_result <- add_memories transport json_loads client test_messages
                  None None None None ;;
  _ <- hprint ("ADD RESULT: " ++ py_str py_repr add_result) ;;
  (* 2) Search it back *)
  search_result <- search transport json_loads client test_query
                     None None None None ;;
  hprint ("SEARCH RESULT: " ++ py_str py_repr search_result).

End SmokeTest.

(** ** Main loop *)

Section MainLoop.

Variable py_repr : value -> string.
Variable mem_client : list event -> Mem0Client.call -> result value.
Variable oa_client : list event -> chat_request -> result (list (option string)).

(** [textwrap.fill(reply, width)], on the reply [chat_once] returned,
    [None] or a [str]: the library's, it returns the filled text or
    raises. *)
Variable textwrap_fill : option string -> nat -> result string.

Local Open Scope M_scope.

(** [x in {"exit", "quit"}] *)
Definition is_exit_word (x : string) : bool :=
  String.eqb x "exit" || String.eqb x "quit".

(** What [input] writes before it reads: the prompt, recorded in
    [stdout] like a printed line. *)
Definition write_prompt : M unit := print (nl ++ "You: ").

(** The [while True] loop of [main]. [inputs] are the lines [input]
    returns, in order; when they run out [input] raises [EOFError]. *)
Fixpoint main_loop (inputs : list string) : M unit :=
  match inputs with
  | [] =>
      write_prompt ;;;
      print (nl ++ "Bye.")
  | line :: rest =>
      write_prompt ;;;
      let user_input := PyStr.strip line in
      if is_exit_word (PyStr.lower user_input) then print "Bye."
      (* /mem commands *)
      else if PyStr.startswith "/mem" user_input then
        out <- handle_mem_command py_repr mem_client user_input ;;
        print (nl ++ "[MEMORIES]") ;;;
        print out ;;;
        main_loop rest
      (* /agent commands *)
      else if PyStr.startswith "/agent" user_input then
        out <- handle_agent_command user_input ;;
        print (nl ++ "[AGENT]") ;;;
        print out ;;;
        main_loop rest
      (* normal chat *)
      else
        reply <- chat_once py_repr mem_client oa_client user_input ;;
        print (nl ++ "Assistant:") ;;;
        filled <- lift (textwrap_fill reply 100) ;;
        print filled ;;;
        main_loop rest
  end.

Definition main (inputs : list string) : M unit :=
  print "Local assistant wired to Mem0." ;;;
  print "Type 'exit' to quit." ;;;
  print "Commands:" ;;;
  print "  /mem, /mem search <q>, /mem show <id>, /mem delete <id>, /mem clear" ;;;
  print "  /agent, /agent <name>" ;;;
  main_loop inputs.

End MainLoop.

(** ** Notions the further properties are stated with *)

(** The calls on the completion service among the events. *)
Definition is_chat_event (ev : event) : bool :=
  match ev with EChat _ => true | EMem _ => false end.

(** A state in which the active agent is named. *)
Definition agent_named (st : state) : Prop := CURRENT_AGENT_ID st <> "".

(** A computation whose final state is related to its initial one,
    whether it returns or raises. *)
Definition preserves (R : state -> state -> Prop) {A} (m : M A) : Prop :=
  forall st, R st (snd (m st)).

(** The later state has the output and the history of the earlier one,
    and more. *)
Definition extends (st st' : state) : Prop :=
  exists out cs,
    stdout st' = (stdout st ++ out)%list /\ calls st' = (calls st ++ cs)%list.

(** The agent stays named. *)
Definition stays_named (st st' : state) : Prop :=
  agent_named st -> agent_named st'.

(** No call on the completion service in between. *)
Definition same_chats (st st' : state) : Prop :=
  filter is_chat_event (calls st') = filter is_chat_event (calls st).

(** A line that [main] does not send to [chat_once]. *)
Definition is_command_line (line : string) : bool :=
  let user_input := PyStr.strip line in
  is_exit_word (PyStr.lower user_input)
  || PyStr.startswith "/mem" user_input
  || PyStr.startswith "/agent" user_input.

(** The farewell lines of [main]. *)
Definition is_farewell (line : string) : Prop :=
  line = "Bye." \/ line = nl ++ "Bye.".

(** A computation that, when it returns, leaves a farewell as the last
    line printed. *)
Definition ends_with_farewell (m : M unit) : Prop :=
  forall st,
    fst (m st) = Ok tt ->
    exists out bye,
      stdout (snd (m st)) = (stdout st ++ out ++ [bye])%list
      /\ is_farewell bye.

(** A transport on which every request is answered with status 200 and
    the body "pong" as text. *)
Definition transport_pong
    : list http_request -> http_request -> result http_response :=
  fun _ req => Ok (HttpResponse 200 "OK" (http_url req)
                     [("Content-Type", "text/plain")] "pong").

(** A transport that answers every request with 500 and a JSON body. *)
Definition transport_500
    : list http_request -> http_request -> result http_response :=
  fun _ req => Ok (HttpResponse 500 "Internal Server Error" (http_url req)
                     [("content-type", "application/json")] "{}").

(** A memory store whose records have a metadata that is no mapping,
    and completions without a choice and without a text. *)
Definition mem_malformed : list event -> Mem0Client.call -> result value :=
  fun _ _ => Ok (VList [VDict [("id", VStr "m1"); ("metadata", VStr "chat")]]).

Definition oa_no_choice
    : list event -> chat_request -> result (list (option string)) :=
  fun _ _ => Ok [].

Definition oa_no_text
    : list event -> chat_request -> result (list (option string)) :=
  fun _ _ => Ok [None].

(** An environment with no variable set, and a JSON decoder that
    knows the empty object only. *)
Definition environ_empty : string -> option string := fun _ => None.

Definition json_loads_stub : string -> result value :=
  fun s =>
    if String.eqb s "{}" then Ok (VDict [])
    else Raise (Exn "JSONDecodeError" "Expecting value").

(** A [textwrap.fill] that leaves a short text as it is. *)
Definition fill_short : option string -> nat -> result string :=
  fun reply _ =>
    match reply with
    | Some r => Ok r
    | None => Raise (Exn "AttributeError"
                       "'NoneType' object has no attribute 'expandtabs'")
    end.

(** * Properties *)

(** ** Facts about strings *)

Section StringFacts.

Import PyStr.

Lemma append_nil_r (s : string) : s ++ "" = s.
Proof. induction s as [|c s IH]; simpl; [reflexivity | now rewrite IH]. Qed.

Lemma append_assoc (a b c : string) : (a ++ b) ++ c = a ++ (b ++ c).
Proof. induction a as [|x a IH]; simpl; [reflexivity | now rewrite IH]. Qed.

Lemma length_append (a b : string) :
  String.length (a ++ b) = String.length a + String.length b.
Proof. induction a as [|x a IH]; simpl; [reflexivity | now rewrite IH]. Qed.

Lemma is_empty_true (s : string) : is_empty s = true <-> s = "".
Proof. destruct s; simpl; split; congruence. Qed.

Lemma is_empty_false (s : string) : is_empty s = false <-> s <> "".
Proof. destruct s; simpl; split; congruence. Qed.

(** Lower-casing never turns a character into white space or white
    space into something else, and it is idempotent. *)
Lemma isspace_lower_char (c : ascii) : isspace (lower_char c) = isspace c.
Proof.
  destruct c as [b0 b1 b2 b3 b4 b5 b6 b7].
  destruct b0, b1, b2, b3, b4, b5, b6, b7; reflexivity.
Qed.

Lemma lower_char_idem (c : ascii) : lower_char (lower_char c) = lower_char c.
Proof.
  destruct c as [b0 b1 b2 b3 b4 b5 b6 b7].
  destruct b0, b1, b2, b3, b4, b5, b6, b7; reflexivity.
Qed.

Lemma lower_idem (s : string) : lower (lower s) = lower s.
Proof.
  induction s as [|c s IH]; simpl; [reflexivity|].
  now rewrite lower_char_idem, IH.
Qed.

Lemma lower_append (a b : string) : lower (a ++ b) = lower a ++ lower b.
Proof. induction a as [|x a IH]; simpl; [reflexivity | now rewrite IH]. Qed.

Lemma length_lower (s : string) : String.length (lower s) = String.length s.
Proof. induction s as [|c s IH]; simpl; [reflexivity | now rewrite IH]. Qed.

(** [startswith] and [contains] decide the prefix and the substring
    relations. *)
Lemma startswith_spec (p s : string) :
  startswith p s = true <-> exists post, s = p ++ post.
Proof.
  revert s; induction p as [|a p IH]; intros s; simpl.
  - split; [intros _; now exists s | reflexivity].
  - destruct s as [|b s].
    + split; [discriminate | intros [post H]; discriminate].
    + rewrite andb_true_iff, IH, Ascii.eqb_eq. split.
      * intros [-> [post ->]]. now exists post.
      * intros [post H]. injection H as -> ->. split; [reflexivity | now exists post].
Qed.

Lemma contains_spec (s k : string) :
  contains s k = true <-> exists pre post, s = pre ++ k ++ post.
Proof.
  induction s as [|c s IH].
  - simpl. rewrite orb_false_r, startswith_spec. split.
    + intros [post H]. now exists "", post.
    + intros [pre [post H]]. destruct pre; [now exists post | discriminate].
  - cbn [contains]. rewrite orb_true_iff, startswith_spec, IH. split.
    + intros [[post H] | [pre [post H]]].
      * now exists "", post.
      * exists (String c pre), post. simpl. now rewrite H.
    + intros [pre [post H]]. destruct pre as [|x pre].
      * left. now exists post.
      * right. injection H as _ H. now exists pre, post.
Qed.

(** Stripping. *)
Lemma lstrip_all_space (w s : string) :
  all_space w = true -> lstrip (w ++ s) = lstrip s.
Proof.
  induction w as [|c w IH]; simpl; [reflexivity|].
  intros H. apply andb_true_iff in H as [Hc Hw]. now rewrite Hc, IH.
Qed.

Lemma lstrip_head (c : ascii) (s : string) :
  isspace c = false -> lstrip (String c s) = String c s.
Proof. intros H. simpl. now rewrite H. Qed.

Lemma lstrip_nonempty_head (s : string) :
  lstrip s <> "" -> exists c r, lstrip s = String c r /\ isspace c = false.
Proof.
  induction s as [|c s IH]; simpl; [congruence|].
  destruct (isspace c) eqn:E; [exact IH|].
  intros _. now exists c, s.
Qed.

Lemma lstrip_idem (s : string) : lstrip (lstrip s) = lstrip s.
Proof.
  induction s as [|c s IH]; simpl; [reflexivity|].
  destruct (isspace c) eqn:E; [exact IH|]. simpl. now rewrite E.
Qed.

Lemma length_lstrip (s : string) : String.length (lstrip s) <= String.length s.
Proof.
  induction s as [|c s IH]; simpl; [lia|].
  destruct (isspace c); simpl; lia.
Qed.

Lemma lstrip_same_length (s : string) :
  String.length (lstrip s) = String.length s -> lstrip s = s.
Proof.
  destruct s as [|c s]; simpl; [reflexivity|].
  destruct (isspace c); [|reflexivity].
  intros H. pose proof (length_lstrip s). lia.
Qed.

Lemma length_rstrip (s : string) : String.length (rstrip s) <= String.length s.
Proof.
  induction s as [|c s IH]; simpl; [lia|].
  destruct (is_empty (rstrip s) && isspace c); simpl; lia.
Qed.

Lemma rstrip_head (c : ascii) (s : string) :
  isspace c = false -> rstrip (String c s) = String c (rstrip s).
Proof. intros H. simpl. now rewrite H, andb_false_r. Qed.

Lemma rstrip_append (a b : string) :
  rstrip (a ++ b) = if is_empty (rstrip b) then rstrip a else a ++ rstrip b.
Proof.
  induction a as [|c a IH]; simpl.
  - destruct (rstrip b); reflexivity.
  - rewrite IH. destruct (is_empty (rstrip b)) eqn:E; [reflexivity|].
    destruct (a ++ rstrip b) eqn:Ea; [|reflexivity].
    destruct a; simpl in Ea; [|discriminate].
    rewrite Ea in E. discriminate.
Qed.

Lemma rstrip_all_space (w : string) : all_space w = true -> rstrip w = "".
Proof.
  induction w as [|c w IH]; simpl; [reflexivity|].
  intros H. apply andb_true_iff in H as [Hc Hw]. now rewrite IH, Hc.
Qed.

Lemma rstrip_no_space (s : string) : no_space s = true -> rstrip s = s.
Proof.
  induction s as [|c s IH]; simpl; [reflexivity|].
  intros H. apply andb_true_iff in H as [Hc Hs].
  apply negb_true_iff in Hc. now rewrite IH, Hc, andb_false_r.
Qed.

Lemma rstrip_idem (s : string) : rstrip (rstrip s) = rstrip s.
Proof.
  induction s as [|c s IH]; simpl; [reflexivity|].
  destruct (is_empty (rstrip s) && isspace c) eqn:E; [reflexivity|].
  simpl. now rewrite IH, E.
Qed.

Lemma lstrip_rstrip (s : string) : lstrip (rstrip s) = rstrip (lstrip s).
Proof.
  induction s as [|c s IH]; simpl; [reflexivity|].
  destruct (isspace c) eqn:Ec.
  - rewrite andb_true_r. destruct (is_empty (rstrip s)) eqn:E.
    + rewrite <- IH. apply is_empty_true in E. now rewrite E.
    + simpl. now rewrite Ec.
  - rewrite andb_false_r. simpl. now rewrite Ec, andb_false_r.
Qed.

Lemma strip_fixed (q : string) :
  strip q = q -> lstrip q = q /\ rstrip q = q.
Proof.
  unfold strip. intros H.
  assert (Hl : lstrip q = q).
  { apply lstrip_same_length.
    pose proof (length_lstrip q). pose proof (length_rstrip (lstrip q)).
    rewrite H in *. lia. }
  split; [exact Hl | now rewrite Hl in H].
Qed.

Lemma strip_idem (s : string) : strip (strip s) = strip s.
Proof.
  unfold strip. now rewrite lstrip_rstrip, lstrip_idem, rstrip_idem.
Qed.

(** Cutting one word. *)
Lemma span_word_append (a b : string) :
  no_space a = true ->
  (b = "" \/ exists c r, b = String c r /\ isspace c = true) ->
  span_word (a ++ b) = (a, b).
Proof.
  intros Ha Hb. induction a as [|x a IH]; simpl.
  - destruct Hb as [-> | [c [r [-> Hc]]]]; simpl; [reflexivity | now rewrite Hc].
  - simpl in Ha. apply andb_true_iff in Ha as [Hx Ha].
    apply negb_true_iff in Hx. now rewrite Hx, IH.
Qed.

End StringFacts.

(** ** The importance heuristic *)

(** On the code points below 256 [should_store_memory] is the
    disjunction of the specification. *)
Lemma should_store_memory_iff (user_input answer : string) :
  should_store_memory user_input answer = true
  <-> is_important_spec user_input answer.
Proof.
  unfold should_store_memory, is_important_spec, occurs_in.
  destruct (existsb _ keywords) eqn:Ek.
  - split; [intros _ | reflexivity]. left.
    apply existsb_exists in Ek as [k [Hin Hk]].
    exists k. split; [exact Hin | now apply contains_spec].
  - destruct (Nat.ltb 140 (String.length user_input)) eqn:El.
    + split; [intros _ | reflexivity]. right. now apply Nat.ltb_lt.
    + split; [discriminate|]. intros [[k [Hin Hk]] | Hl].
      * assert (existsb
                  (fun k => PyStr.contains
                              (PyStr.lower (user_input ++ " " ++ answer)) k)
                  keywords = true) as Hex.
        { apply existsb_exists. exists k.
          split; [exact Hin | now apply contains_spec]. }
        congruence.
      * apply Nat.ltb_lt in Hl. congruence.
Qed.

Section UStrFacts.

Lemma uchar_eqb_eq (a b : UStr.uchar) : UStr.eqb a b = true <-> a = b.
Proof.
  destruct a as [x| |], b as [y| |]; cbn; try (split; congruence).
  rewrite Ascii.eqb_eq. split; congruence.
Qed.

Lemma ustartswith_spec (p s : UStr.ustring) :
  UStr.startswith p s = true <-> exists post, s = (p ++ post)%list.
Proof.
  revert s; induction p as [|a p IH]; intros s; cbn [UStr.startswith].
  - split; [intros _; now exists s | reflexivity].
  - destruct s as [|b s].
    + split; [discriminate | intros [post H]; discriminate].
    + rewrite andb_true_iff, IH, uchar_eqb_eq. split.
      * intros [-> [post ->]]. now exists post.
      * intros [post H]. injection H as -> ->.
        split; [reflexivity | now exists post].
Qed.

Lemma ucontains_spec (s k : UStr.ustring) :
  UStr.contains s k = true <-> exists pre post, s = (pre ++ k ++ post)%list.
Proof.
  induction s as [|c s IH].
  - cbn [UStr.contains]. rewrite orb_false_r, ustartswith_spec. split.
    + intros [post H]. now exists [], post.
    + intros [pre [post H]]. destruct pre; [now exists post | discriminate].
  - cbn [UStr.contains]. rewrite orb_true_iff, ustartswith_spec, IH. split.
    + intros [[post H] | [pre [post H]]].
      * now exists [], post.
      * exists (c :: pre), post. cbn. now rewrite H.
    + intros [pre [post H]]. destruct pre as [|x pre].
      * left. now exists post.
      * right. injection H as _ H. now exists pre, post.
Qed.

Lemma ulower_app (a b : UStr.ustring) :
  UStr.lower (a ++ b)%list = (UStr.lower a ++ UStr.lower b)%list.
Proof. apply flat_map_app. Qed.

(** The strings of the narrower alphabet, and the functions on them,
    inside the wider one. *)
Lemma of_string_append (a b : string) :
  UStr.of_string (a ++ b) = (UStr.of_string a ++ UStr.of_string b)%list.
Proof. induction a as [|c a IH]; cbn; [reflexivity | now rewrite IH]. Qed.

Lemma of_string_length (s : string) :
  List.length (UStr.of_string s) = String.length s.
Proof. induction s as [|c s IH]; cbn; [reflexivity | now rewrite IH]. Qed.

Lemma of_string_lower (s : string) :
  UStr.lower (UStr.of_string s) = UStr.of_string (PyStr.lower s).
Proof. induction s as [|c s IH]; cbn; [reflexivity | now rewrite <- IH]. Qed.

Lemma of_string_startswith (p s : string) :
  UStr.startswith (UStr.of_string p) (UStr.of_string s) = PyStr.startswith p s.
Proof.
  revert s; induction p as [|a p IH]; intros s; [reflexivity|].
  destruct s as [|b s]; [reflexivity|]. cbn. now rewrite IH.
Qed.

Lemma of_string_contains (s k : string) :
  UStr.contains (UStr.of_string s) (UStr.of_string k) = PyStr.contains s k.
Proof.
  induction s as [|c s IH].
  - cbn [UStr.of_string UStr.contains PyStr.contains].
    change [] with (UStr.of_string ""). now rewrite of_string_startswith.
  - cbn [UStr.of_string UStr.contains PyStr.contains]. rewrite IH.
    change (UStr.Latin c :: UStr.of_string s) with (UStr.of_string (String c s)).
    now rewrite of_string_startswith.
Qed.

(** On the code points below 256 the heuristic of this module is the
    one of the rest of the development. *)
Lemma should_store_memory_of_string (user_input answer : string) :
  UStr.should_store_memory (UStr.of_string user_input) (UStr.of_string answer)
  = should_store_memory user_input answer.
Proof.
  unfold UStr.should_store_memory, should_store_memory. cbv zeta.
  rewrite <- !of_string_append, of_string_lower, of_string_length.
  assert (Hk : forall ks,
    existsb
      (fun k =>
         UStr.contains
           (UStr.of_string (PyStr.lower (user_input ++ " " ++ answer)))
           (UStr.of_string k)) ks
    = existsb
        (fun k => PyStr.contains (PyStr.lower (user_input ++ " " ++ answer)) k)
        ks).
  { induction ks as [|k ks IH]; cbn [existsb]; [reflexivity|].
    now rewrite of_string_contains, IH. }
  now rewrite Hk.
Qed.

End UStrFacts.

(** C3, as the code has it. [should_store_memory] returns true exactly
    when a keyword of the fixed set occurs as a substring of the
    lower-cased text [user_input + " " + answer], or [user_input] has
    more than 140 characters. It is a function of its two arguments
    alone. The keyword test is case-insensitive, the length test is on
    the input as typed: two pairs of arguments that agree once
    lower-cased get the same verdict when the two inputs have the same
    length. *)
Theorem should_store_memory_unicode_spec (user_input answer : UStr.ustring) :
  (UStr.should_store_memory user_input answer = true
   <-> UStr.is_important_spec user_input answer)
  /\ (forall user_input' answer',
        UStr.lower user_input' = UStr.lower user_input ->
        UStr.lower answer' = UStr.lower answer ->
        List.length user_input' = List.length user_input ->
        UStr.should_store_memory user_input' answer'
        = UStr.should_store_memory user_input answer).
Proof.
  split.
  - unfold UStr.should_store_memory, UStr.is_important_spec. cbv zeta.
    destruct (existsb _ keywords) eqn:Ek.
    + split; [intros _ | reflexivity]. left.
      apply existsb_exists in Ek as [k [Hin Hk]].
      apply ucontains_spec in Hk as [pre [post Hk]].
      now exists k, pre, post.
    + destruct (Nat.ltb 140 (List.length user_input)) eqn:El.
      * split; [intros _ | reflexivity]. right. now apply Nat.ltb_lt.
      * split; [discriminate|]. intros [[k [pre [post [Hin Hk]]]] | Hl].
        -- assert (existsb
                     (fun k =>
                        UStr.contains
                          (UStr.lower
                             (user_input ++ UStr.of_string " " ++ answer)%list)
                          (UStr.of_string k))
                     keywords = true) as Hex.
           { apply existsb_exists. exists k. split; [exact Hin|].
             apply ucontains_spec. now exists pre, post. }
           congruence.
        -- apply Nat.ltb_lt in Hl. congruence.
  - intros u' a' Hu Ha Hl. unfold UStr.should_store_memory. cbv zeta.
    rewrite !ulower_app, Hu, Ha, Hl. reflexivity.
Qed.

Lemma should_store_memory_unicode_spec_witness :
  UStr.should_store_memory
    (UStr.of_string "REMEMBER this") (UStr.of_string "Ok")
  = UStr.should_store_memory
      (UStr.of_string "remember THIS") (UStr.of_string "oK").
Proof.
  apply (proj2 (should_store_memory_unicode_spec
                  (UStr.of_string "remember THIS") (UStr.of_string "oK")));
    reflexivity.
Defined.

(** C3 as it is stated fails: 71 times U+0130 and its lower-cased
    form, 142 code points long, agree once lower-cased, and with the
    answer "ok" the first is not important and the second is. *)
Lemma should_store_memory_case_counterexample :
  let user_input := repeat UStr.CapitalIDot 71 in
  let lowered := UStr.lower user_input in
  UStr.lower lowered = UStr.lower user_input
  /\ List.length user_input = 71
  /\ List.length lowered = 142
  /\ UStr.should_store_memory user_input (UStr.of_string "ok") = false
  /\ UStr.should_store_memory lowered (UStr.of_string "ok") = true.
Proof. cbv zeta. repeat split; vm_compute; reflexivity. Qed.

Example should_store_memory_examples :
  should_store_memory "remember this" "ok" = true
  /\ should_store_memory (PyStr.join "" (repeat "x" 141)) "ok" = true
  /\ should_store_memory (PyStr.join "" (repeat "x" 140)) "ok" = false
  /\ should_store_memory "hi" "ok" = false
  /\ should_store_memory "REMEMBER" "ok" = true
  /\ should_store_memory "hi" "your budget is fine" = true.
Proof. repeat split; vm_compute; reflexivity. Qed.

(** ** The normalizer *)

(** C4. [_normalize_mem_items]: None gives the empty list; a list is
    returned as it is; a dict whose key "results" holds a list gives
    that list; any other dict, and any other value that is not None,
    gives the one-element list holding it. *)
Theorem normalize_mem_items_cases :
  _normalize_mem_items VNone = []
  /\ (forall l, _normalize_mem_items (VList l) = l)
  /\ (forall d l,
        dict_lookup d "results" = Some (VList l) ->
        _normalize_mem_items (VDict d) = l)
  /\ (forall d,
        (forall l, dict_lookup d "results" <> Some (VList l)) ->
        _normalize_mem_items (VDict d) = [VDict d])
  /\ (forall v,
        v <> VNone -> is_list v = false -> is_dict v = false ->
        _normalize_mem_items v = [v]).
Proof.
  split; [reflexivity|]. split; [reflexivity|]. split; [|split].
  - intros d l H. simpl. now rewrite H.
  - intros d H. simpl.
    destruct (dict_lookup d "results") as [[| | | | |l|]|] eqn:E;
      try reflexivity.
    now destruct (H l).
  - intros v Hn Hl Hd. destruct v; simpl in *; congruence.
Qed.

Lemma normalize_mem_items_cases_witness :
  _normalize_mem_items (VDict [("results", VList [VInt 7])]) = [VInt 7]
  /\ _normalize_mem_items (VDict [("a", VInt 1)]) = [VDict [("a", VInt 1)]]
  /\ _normalize_mem_items (VDict [("results", VStr "none")])
     = [VDict [("results", VStr "none")]]
  /\ _normalize_mem_items (VInt 42) = [VInt 42].
Proof.
  pose proof normalize_mem_items_cases
    as [_ [_ [Hres [Hdict Hother]]]].
  split; [|split; [|split]].
  - apply Hres. reflexivity.
  - apply Hdict. intros l. simpl. discriminate.
  - apply Hdict. intros l. simpl. discriminate.
  - apply Hother; [discriminate | reflexivity | reflexivity].
Defined.

(** ** The formatter *)

Section FormatterFacts.

Variable py_repr : value -> string.

Lemma join_values_from_strs (i : nat) (fs : list string) :
  join_values_from i (map VStr fs) = Ok fs.
Proof.
  revert i; induction fs as [|f fs IH]; intros i; simpl; [reflexivity|].
  now rewrite IH.
Qed.

Lemma join_values_strs (sep : string) (fs : list string) :
  join_values sep (map VStr fs) = Ok (PyStr.join sep fs).
Proof. unfold join_values. now rewrite join_values_from_strs. Qed.

(** The end of the loop body, from the flag list on, for a source
    that is falsy or a string. *)
Lemma format_flags_ok (id text : string) (src important : value) :
  negb (truthy src) || is_str src = true ->
  (let source := py_or src (VStr "") in
   let flags := [] in
   let flags := if truthy source then (flags ++ [source])%list else flags in
   let flags :=
     if truthy important then (flags ++ [VStr "important"])%list else flags in
   let prefix := "[" ++ id ++ "]" in
   rbind (if truthy (VList flags)
          then rbind (join_values ", " flags)
                 (fun joined => Ok (prefix ++ " (" ++ joined ++ ")"))
          else Ok prefix)
     (fun prefix => Ok (prefix ++ " " ++ text)))
  = Ok (line_format id
          ((match src with
            | VStr s => if PyStr.is_empty s then [] else [s]
            | _ => []
            end)
           ++ (if truthy important then ["important"] else []))%list
          text).
Proof.
  intros Hsrc.
  assert (Hshape :
    forall fs : list string,
      rbind (if truthy (VList (map VStr fs))
             then rbind (join_values ", " (map VStr fs))
                    (fun joined => Ok (("[" ++ id ++ "]") ++ " (" ++ joined ++ ")"))
             else Ok ("[" ++ id ++ "]"))
        (fun prefix => Ok (prefix ++ " " ++ text))
      = Ok (line_format id fs text)).
  { intros [|f fs].
    - cbn [map truthy rbind]. unfold line_format.
      rewrite !append_assoc. reflexivity.
    - rewrite join_values_strs. cbn [map truthy rbind]. unfold line_format.
      rewrite !append_assoc. reflexivity. }
  cbv zeta. unfold py_or.
  destruct (truthy src) eqn:Es.
  - destruct src as [| | | |s| |]; try discriminate Hsrc.
    rewrite Es. destruct s as [|c s]; [discriminate Es|].
    destruct (truthy important); cbn [app PyStr.is_empty].
    + exact (Hshape [String c s; "important"]).
    + exact (Hshape [String c s]).
  - assert (Hnone :
      match src with
      | VStr s => if PyStr.is_empty s then [] else [s]
      | _ => []
      end = []).
    { destruct src as [| | | |s| |]; try reflexivity.
      destruct s; [reflexivity | discriminate Es]. }
    rewrite Hnone. cbn [truthy PyStr.is_empty negb].
    destruct (truthy important); cbn [app].
    + exact (Hshape ["important"]).
    + exact (Hshape []).
Qed.

(** On a record of the documented shape the loop body appends the
    line of the specification. *)
Lemma format_record_ok (d : list (string * value)) :
  well_formed_record d = true ->
  format_record py_repr d = Ok (rendered_line py_repr (VDict d)).
Proof.
  unfold well_formed_record. intros H.
  apply andb_true_iff in H as [H Hsrc].
  apply andb_true_iff in H as [Hdata Hmeta].
  assert (Htext :
    (if truthy (dict_get d "text") then Ok (dict_get d "text")
     else if truthy (dict_get d "memory") then Ok (dict_get d "memory")
     else rbind (value_get (dict_get_default d "data" (VDict [])) "memory")
            (fun nested =>
               Ok (py_or nested (VStr (py_str py_repr (VDict d))))))
    = Ok (record_text py_repr d)).
  { unfold record_text, first_truthy, py_or.
    destruct (truthy (dict_get d "text")); [reflexivity|].
    destruct (truthy (dict_get d "memory")); [reflexivity|].
    simpl in Hdata. unfold dict_get, dict_get_default in *.
    destruct (dict_lookup d "data") as [v|]; [|reflexivity].
    destruct v; try discriminate. reflexivity. }
  unfold format_record. rewrite Htext. cbn [rbind].
  change (py_or (dict_get d "metadata") (py_or (dict_get d "meta") (VDict [])))
    with (record_metadata d).
  change (py_or (dict_get d "id") (py_or (dict_get d "_id") (VStr "?")))
    with (record_id d).
  unfold rendered_line, record_flags.
  destruct (record_metadata d) as [| | | | | |md]; try discriminate.
  cbn [value_get rbind field_of] in *.
  exact (format_flags_ok _ _ _ _ Hsrc).
Qed.

Lemma format_loop_ok (items : list value) (lines : list string) :
  forallb well_formed_item items = true ->
  format_loop py_repr items lines
  = Ok (lines ++ map (rendered_line py_repr) items)%list.
Proof.
  revert lines; induction items as [|m items IH]; intros lines H; simpl.
  - now rewrite app_nil_r.
  - simpl in H. apply andb_true_iff in H as [Hm Hitems].
    assert (Hrest :
      format_loop py_repr items (lines ++ [rendered_line py_repr m])%list
      = Ok (lines ++ rendered_line py_repr m
                     :: map (rendered_line py_repr) items)%list).
    { rewrite IH by exact Hitems. now rewrite <- app_assoc. }
    destruct m; try exact Hrest.
    simpl in Hm. rewrite (format_record_ok _ Hm). exact Hrest.
Qed.

Lemma slice_to_nonneg {A} (l : list A) (limit : Z) :
  (0 <= limit)%Z -> slice_to l limit = firstn (Z.to_nat limit) l.
Proof.
  intros H. unfold slice_to.
  destruct (Z.ltb_spec limit 0); [lia | reflexivity].
Qed.

Lemma format_memories_empty (memories : value) (limit : Z) :
  _normalize_mem_items memories = [] ->
  format_memories py_repr memories limit = Ok "No memories found.".
Proof. unfold format_memories. now intros ->. Qed.

Lemma format_memories_ok (memories : value) (limit : Z) :
  _normalize_mem_items memories <> [] ->
  forallb well_formed_item (slice_to (_normalize_mem_items memories) limit)
  = true ->
  format_memories py_repr memories limit
  = Ok (PyStr.join nl
          (map (rendered_line py_repr)
             (slice_to (_normalize_mem_items memories) limit))).
Proof.
  intros Hne Hwf. unfold format_memories.
  destruct (_normalize_mem_items memories) as [|m items] eqn:E;
    [congruence|].
  cbn [truthy negb]. now rewrite (format_loop_ok _ [] Hwf).
Qed.

End FormatterFacts.

(** C5, as the code has it. [format_memories] returns the text
    "No memories found." whenever the normalized input is empty.
    Otherwise, when the items it renders are of the documented shape,
    it returns their lines in input order, joined by line feeds with no
    separator after the last: a record gives "[<id>] (<flags>) <text>"
    when its flag list is not empty and "[<id>] <text>" when it is,
    any other value gives its plain string form. For a limit that is
    not negative these are the first [limit] items, so at most [limit]
    lines. The record of the specification renders as
    "[m1] (chat, important) likes ETFs". *)
Theorem format_memories_lines (py_repr : value -> string)
    (memories : value) (limit : Z) :
  let items := _normalize_mem_items memories in
  (items = [] ->
   format_memories py_repr memories limit = Ok "No memories found.")
  /\ (items <> [] ->
      forallb well_formed_item (slice_to items limit) = true ->
      exists lines,
        format_memories py_repr memories limit = Ok (PyStr.join nl lines)
        /\ lines = map (rendered_line py_repr) (slice_to items limit)
        /\ ((0 <= limit)%Z ->
            lines = map (rendered_line py_repr) (firstn (Z.to_nat limit) items)
            /\ (Z.of_nat (List.length lines) <= limit)%Z))
  /\ format_memories py_repr example_record 20
     = Ok "[m1] (chat, important) likes ETFs"
  /\ format_memories py_repr (VList [example_record]) 20
     = Ok "[m1] (chat, important) likes ETFs".
Proof.
  cbv zeta. split; [apply format_memories_empty|].
  split; [|split; reflexivity].
  intros Hne Hwf.
  exists (map (rendered_line py_repr)
            (slice_to (_normalize_mem_items memories) limit)).
  split; [now apply format_memories_ok|]. split; [reflexivity|].
  intros Hlimit. rewrite (slice_to_nonneg _ _ Hlimit).
  split; [reflexivity|].
  rewrite length_map.
  pose proof (firstn_le_length (Z.to_nat limit) (_normalize_mem_items memories)).
  pose proof (length_firstn (Z.to_nat limit) (_normalize_mem_items memories)).
  lia.
Qed.

Lemma format_memories_lines_witness :
  exists lines,
    format_memories repr_type_only
      (VDict [("results",
               VList [ VDict [("_id", VStr "a1"); ("memory", VStr "owns a cat")];
                       VStr "a bare note";
                       example_record ])]) 2
    = Ok (PyStr.join nl lines)
    /\ lines = ["[a1] owns a cat"; "a bare note"].
Proof.
  destruct (proj1 (proj2
    (format_memories_lines repr_type_only
       (VDict [("results",
                VList [ VDict [("_id", VStr "a1"); ("memory", VStr "owns a cat")];
                        VStr "a bare note";
                        example_record ])]) 2)))
    as [lines [Hfmt [Hlines _]]].
  - discriminate.
  - reflexivity.
  - exists lines. split; [exact Hfmt | exact Hlines].
Defined.

(** C5 as it is stated fails on three counts: an input that is not
    empty can come out as "No memories found."; a negative limit
    renders more lines than the limit; an item that is no record is
    not rendered as "[<id>] <text>". *)
Lemma format_memories_lines_counterexample :
  (_normalize_mem_items (VStr "No memories found.") <> []
   /\ format_memories repr_type_only (VStr "No memories found.") 20
      = Ok "No memories found.")
  /\ format_memories repr_type_only
       (VList [VStr "a"; VStr "b"; VStr "c"]) (-1)
     = Ok ("a" ++ nl ++ "b")
  /\ format_memories repr_type_only (VList [VStr "likes ETFs"]) 20
     = Ok "likes ETFs".
Proof.
  split; [split; [discriminate | reflexivity]|].
  split; reflexivity.
Qed.

(** C6, as the code has it. [format_memories] returns a string, for
    every limit, whenever the items it renders are of the documented
    shape: the metadata falsy or a mapping, its source falsy or a
    string, and [data], when the text is looked up in it, absent or a
    mapping. A record without identifier and metadata renders as
    "[?] <text>", the text being the string form of the record when no
    text field is there either. *)
Theorem format_memories_total (py_repr : value -> string)
    (memories : value) (limit : Z) :
  (forallb well_formed_item (slice_to (_normalize_mem_items memories) limit)
   = true ->
   exists text, format_memories py_repr memories limit = Ok text)
  /\ (forall d,
        dict_lookup d "id" = None -> dict_lookup d "_id" = None ->
        dict_lookup d "metadata" = None -> dict_lookup d "meta" = None ->
        dict_lookup d "data" = None ->
        format_memories py_repr (VList [VDict d]) 20
        = Ok ("[?] " ++ py_str py_repr (record_text py_repr d))
        /\ (dict_lookup d "text" = None -> dict_lookup d "memory" = None ->
            record_text py_repr d = VStr (py_str py_repr (VDict d)))).
Proof.
  split.
  - intros Hwf.
    destruct (_normalize_mem_items memories) as [|m items] eqn:E.
    + exists "No memories found.". now apply format_memories_empty.
    + eexists. apply format_memories_ok; rewrite E; [discriminate | exact Hwf].
  - intros d Hid Hid' Hmd Hmeta Hdata.
    assert (Hwf : well_formed_record d = true).
    { unfold well_formed_record, record_metadata, first_truthy,
        dict_get, dict_get_default.
      rewrite Hmd, Hmeta, Hdata. simpl. now rewrite !orb_true_r. }
    split.
    + rewrite format_memories_ok; [|discriminate | simpl; now rewrite Hwf].
      simpl. unfold record_flags, record_id, record_metadata, first_truthy,
        dict_get, dict_get_default.
      rewrite Hid, Hid', Hmd, Hmeta. reflexivity.
    + intros Ht Hm. unfold record_text, first_truthy, dict_get, dict_get_default.
      rewrite Ht, Hm, Hdata. reflexivity.
Qed.

Lemma format_memories_total_witness :
  (exists text,
     format_memories repr_type_only
       (VDict [("results",
                VList [ VDict [("memory", VStr "likes ETFs")]; VInt 3 ])]) 30
     = Ok text)
  /\ format_memories repr_type_only
       (VList [VDict [("text", VStr "likes ETFs")]]) 20
     = Ok "[?] likes ETFs".
Proof.
  split.
  - apply (proj1 (format_memories_total repr_type_only
                    (VDict [("results",
                             VList [ VDict [("memory", VStr "likes ETFs")];
                                     VInt 3 ])]) 30)).
    reflexivity.
  - apply (proj2 (format_memories_total repr_type_only VNone 0)
             [("text", VStr "likes ETFs")]); reflexivity.
Defined.

(** C6 as it is stated fails: a metadata or a [data] field that is no
    mapping, and a source that is no string, make [format_memories]
    raise. *)
Lemma format_memories_total_counterexample :
  format_memories repr_type_only
    (VList [VDict [ ("id", VStr "m1"); ("text", VStr "likes ETFs");
                    ("metadata", VStr "chat") ]]) 20
  = Raise (Exn "AttributeError" "'str' object has no attribute 'get'")
  /\ format_memories repr_type_only
       (VList [VDict [ ("id", VStr "m1"); ("data", VStr "likes ETFs") ]]) 20
     = Raise (Exn "AttributeError" "'str' object has no attribute 'get'")
  /\ format_memories repr_type_only
       (VList [VDict [ ("id", VStr "m1"); ("text", VStr "likes ETFs");
                       ("metadata", VDict [("source", VInt 7)]) ]]) 20
     = Raise (Exn "TypeError"
                "sequence item 0: expected str instance, int found").
Proof. repeat split. Qed.

(** ** Splitting a command line *)

Section SplitFacts.

Import PyStr.

Lemma word_end_rstrip (s : string) : word_end s -> word_end (rstrip s).
Proof.
  intros [-> | [c [r [-> Hc]]]]; [now left|].
  simpl. rewrite Hc, andb_true_r.
  destruct (is_empty (rstrip r)); [now left|].
  right. now exists c, (rstrip r).
Qed.

Lemma word_end_all_space (w s : string) :
  all_space w = true -> w <> "" -> word_end (w ++ s).
Proof.
  destruct w as [|c w]; [congruence|]. simpl. intros H _.
  apply andb_true_iff in H as [Hc _]. right. now exists c, (w ++ s).
Qed.

Lemma no_space_head (s : string) :
  no_space s = true -> s <> "" ->
  exists c r, s = String c r /\ isspace c = false.
Proof.
  destruct s as [|c s]; [congruence|]. simpl. intros H _.
  apply andb_true_iff in H as [Hc _]. apply negb_true_iff in Hc.
  now exists c, s.
Qed.

Lemma no_space_lower (s : string) : no_space (lower s) = no_space s.
Proof.
  induction s as [|c s IH]; simpl; [reflexivity|].
  now rewrite isspace_lower_char, IH.
Qed.

Lemma strip_all_space_prefix (w s : string) :
  all_space w = true -> strip (w ++ s) = strip s.
Proof. intros H. unfold strip. now rewrite lstrip_all_space. Qed.

Lemma strip_all_space (w : string) : all_space w = true -> strip w = "".
Proof.
  intros H. unfold strip. rewrite <- lstrip_rstrip.
  now rewrite rstrip_all_space.
Qed.

Lemma strip_word_append (head rest : string) :
  no_space head = true -> head <> "" ->
  strip (head ++ rest) = head ++ rstrip rest.
Proof.
  intros Hns Hne. unfold strip.
  destruct (no_space_head _ Hns Hne) as [c [r [-> Hc]]].
  change (String c r ++ rest) with (String c (r ++ rest)).
  rewrite (lstrip_head _ _ Hc).
  change (String c (r ++ rest)) with (String c r ++ rest).
  rewrite rstrip_append, (rstrip_no_space _ Hns).
  destruct (is_empty (rstrip rest)) eqn:E; [|reflexivity].
  apply is_empty_true in E. now rewrite E, append_nil_r.
Qed.

Lemma split_lstrip (s : string) (k : nat) : split (lstrip s) k = split s k.
Proof. destruct k; simpl; now rewrite lstrip_idem. Qed.

(** The first word of a stripped line, and the split of what follows. *)
Lemma split_strip_word (head rest : string) (k : nat) :
  no_space head = true -> head <> "" -> word_end rest ->
  split (strip (head ++ rest)) (S k) = head :: split (strip rest) k.
Proof.
  intros Hns Hne Hend.
  rewrite (strip_word_append _ _ Hns Hne).
  destruct (no_space_head _ Hns Hne) as [c [r [Eh Hc]]].
  cbn [split].
  assert (Hl : lstrip (head ++ rstrip rest) = head ++ rstrip rest).
  { rewrite Eh. now apply lstrip_head. }
  rewrite Hl.
  assert (He : is_empty (head ++ rstrip rest) = false).
  { rewrite Eh. reflexivity. }
  rewrite He.
  rewrite (span_word_append _ _ Hns (word_end_rstrip _ Hend)).
  f_equal. rewrite <- (split_lstrip (rstrip rest)).
  now rewrite lstrip_rstrip.
Qed.

Lemma split_strip_0 (s : string) :
  split (strip s) 0 = if is_empty (strip s) then [] else [strip s].
Proof.
  cbn [split]. unfold strip.
  now rewrite lstrip_rstrip, lstrip_idem.
Qed.

(** What [split] with [maxsplit=1] leaves as the second item is never
    blank. *)
Lemma split_1_second_item (s p0 p1 : string) (more : list string) :
  split s 1 = p0 :: p1 :: more -> strip p1 <> "".
Proof.
  cbn [split]. destruct (is_empty (lstrip s)); [discriminate|].
  destruct (span_word (lstrip s)) as [w rest].
  destruct (is_empty (lstrip rest)) eqn:E; [discriminate|].
  intros H. injection H as _ <- _.
  apply is_empty_false in E.
  destruct (lstrip_nonempty_head _ E) as [c [r [Hr Hc]]].
  unfold strip. rewrite lstrip_idem, Hr, (rstrip_head _ _ Hc). discriminate.
Qed.

Lemma split_1_length (s : string) : List.length (split s 1) <= 2.
Proof.
  cbn [split]. destruct (is_empty (lstrip s)); [simpl; lia|].
  destruct (span_word (lstrip s)) as [w rest].
  destruct (is_empty (lstrip rest)); simpl; lia.
Qed.

End SplitFacts.

(** ** The agent identifier is preserved *)

Section AgentInvariant.

Lemma keeps_agent_ret {A} (a : A) : keeps_agent (ret a).
Proof. intros st. reflexivity. Qed.

Lemma keeps_agent_lift {A} (r : result A) : keeps_agent (lift r).
Proof. intros st. reflexivity. Qed.

Lemma keeps_agent_print (line : string) : keeps_agent (print line).
Proof. intros st. reflexivity. Qed.

Lemma keeps_agent_get : keeps_agent get_CURRENT_AGENT_ID.
Proof. intros st. reflexivity. Qed.

Lemma keeps_agent_call_mem mem_client (c : Mem0Client.call) :
  keeps_agent (call_mem mem_client c).
Proof. intros st. reflexivity. Qed.

Lemma keeps_agent_call_chat oa_client (r : chat_request) :
  keeps_agent (call_chat oa_client r).
Proof. intros st. reflexivity. Qed.

Lemma keeps_agent_bind {A B} (m : M A) (k : A -> M B) :
  keeps_agent m -> (forall a, keeps_agent (k a)) -> keeps_agent (bind m k).
Proof.
  intros Hm Hk st. unfold bind. specialize (Hm st).
  destruct (m st) as [[a|e] st']; simpl in *.
  - now rewrite Hk.
  - exact Hm.
Qed.

Lemma keeps_agent_try_except {A} (body : M A) (handler : exn -> M A) :
  keeps_agent body -> (forall e, keeps_agent (handler e)) ->
  keeps_agent (try_except body handler).
Proof.
  intros Hm Hk st. unfold try_except. specialize (Hm st).
  destruct (body st) as [[a|e] st']; simpl in *.
  - exact Hm.
  - now rewrite Hk.
Qed.

Lemma keeps_agent_attempt {A} (body : M A) :
  keeps_agent body -> keeps_agent (attempt body).
Proof.
  intros Hm st. unfold attempt. specialize (Hm st).
  now destruct (body st) as [r st'].
Qed.

End AgentInvariant.

Create HintDb agent_inv.
#[export] Hint Resolve keeps_agent_ret keeps_agent_lift keeps_agent_print
  keeps_agent_get keeps_agent_call_mem keeps_agent_call_chat : agent_inv.

(** Walks down a computation built from the combinators of [M]. *)
Ltac keeps_agent_step :=
  match goal with
  | |- keeps_agent (match ?a with Some _ => _ | None => _ end) => destruct a
  | |- keeps_agent (bind _ _) => apply keeps_agent_bind; [|intro]
  | |- keeps_agent (try_except _ _) => apply keeps_agent_try_except; [|intro]
  | |- keeps_agent (attempt _) => apply keeps_agent_attempt
  | |- keeps_agent (if ?b then _ else _) => destruct b
  | |- keeps_agent (match ?r with Ok _ => _ | Raise _ => _ end) => destruct r
  | |- keeps_agent (let (_, _) := ?p in _) => destruct p
  | |- keeps_agent _ => solve [auto with agent_inv]
  end.

Section AssistantFacts.

Variable py_repr : value -> string.
Variable mem_client : list event -> Mem0Client.call -> result value.
Variable oa_client : list event -> chat_request -> result (list (option string)).

Lemma chat_once_keeps_agent (user_input : string) :
  keeps_agent (chat_once py_repr mem_client oa_client user_input).
Proof.
  unfold chat_once, search_memories, store_turn. repeat keeps_agent_step.
Qed.

Lemma handle_mem_command_keeps_agent (cmd : string) :
  keeps_agent (handle_mem_command py_repr mem_client cmd).
Proof.
  unfold handle_mem_command. cbv zeta. repeat keeps_agent_step.
Qed.

(** Step 1 never raises: it returns what the search gave, or the empty
    list after printing the error. *)
Lemma search_memories_run (user_input : string) (st : state) :
  let agent := CURRENT_AGENT_ID st in
  let search := Mem0Client.search user_input agent in
  search_memories mem_client user_input st
  = match mem_client (calls st) search with
    | Ok res =>
        (Ok (py_or res (VList [])),
         State agent (stdout st) (calls st ++ [EMem search])%list)
    | Raise e =>
        (Ok (VList []),
         State agent
           (stdout st ++ [("[mem0 search error] " ++ exn_str e)%string])%list
           (calls st ++ [EMem search])%list)
    end.
Proof.
  cbv zeta. unfold search_memories, try_except, bind, call_mem,
    get_CURRENT_AGENT_ID, print, ret.
  destruct (mem_client (calls st) _); reflexivity.
Qed.

Lemma search_memories_returns (user_input : string) (st : state) :
  exists results st1,
    search_memories mem_client user_input st = (Ok results, st1)
    /\ CURRENT_AGENT_ID st1 = CURRENT_AGENT_ID st.
Proof.
  rewrite search_memories_run. cbv zeta.
  destruct (mem_client (calls st) _); eexists; eexists; split; reflexivity.
Qed.

(** The turn from the completion call on, once step 1 and the
    formatter have returned. *)
Lemma chat_once_after_search (user_input : string) (st st1 : state)
    (results : value) (block : string) :
  search_memories mem_client user_input st = (Ok results, st1) ->
  format_memories py_repr results 8 = Ok block ->
  chat_once py_repr mem_client oa_client user_input st
  = (choices <- call_chat oa_client
                  (completion_request (CURRENT_AGENT_ID st1) block user_input) ;;
     answer <- lift (list_index choices 0) ;;
     store_turn mem_client user_input answer ;;;
     ret answer)%M st1.
Proof.
  intros Hs Hf. unfold chat_once.
  unfold bind at 1. rewrite Hs.
  unfold bind at 1. unfold lift at 1. rewrite Hf.
  unfold bind at 1. unfold get_CURRENT_AGENT_ID at 1. reflexivity.
Qed.

(** Step 4 never raises: whatever happens in it is printed. *)
Lemma store_turn_run (user_input : string) (answer : option string)
    (st : state) :
  store_turn mem_client user_input answer st
  = match answer with
    | None =>
        (Ok tt,
         State (CURRENT_AGENT_ID st)
           (stdout st
            ++ [("[mem0 add error] " ++ exn_str concat_none_error)%string])%list
           (calls st))
    | Some a =>
        let add :=
          stored_turn user_input a (CURRENT_AGENT_ID st)
            (should_store_memory user_input a) in
        match mem_client (calls st) add with
        | Ok _ =>
            (Ok tt,
             State (CURRENT_AGENT_ID st) (stdout st)
               (calls st ++ [EMem add])%list)
        | Raise e =>
            (Ok tt,
             State (CURRENT_AGENT_ID st)
               (stdout st ++ [("[mem0 add error] " ++ exn_str e)%string])%list
               (calls st ++ [EMem add])%list)
        end
    end.
Proof.
  unfold store_turn, try_except, bind, lift, ret, print, call_mem,
    get_CURRENT_AGENT_ID, stored_turn.
  destruct answer as [a|]; [|reflexivity].
  cbv zeta.
  destruct (mem_client (calls st) _) as [v|e]; reflexivity.
Qed.

Lemma store_turn_extends (user_input : string) (answer : option string)
    (st : state) :
  exists out cs,
    store_turn mem_client user_input answer st
    = (Ok tt,
       State (CURRENT_AGENT_ID st) (stdout st ++ out)%list
         (calls st ++ cs)%list).
Proof.
  rewrite store_turn_run. destruct answer as [a|].
  - cbv zeta. destruct (mem_client (calls st) _) as [v|e].
    + exists [], [EMem (stored_turn user_input a (CURRENT_AGENT_ID st)
                          (should_store_memory user_input a))].
      now rewrite app_nil_r.
    + eexists [_], [_]. reflexivity.
  - eexists [_], []. now rewrite app_nil_r.
Qed.

(** Steps 3 and 4 by the outcome of the completion call. *)
Lemma completion_run (user_input : string) (request : chat_request)
    (st1 : state) :
  (choices <- call_chat oa_client request ;;
   answer <- lift (list_index choices 0) ;;
   store_turn mem_client user_input answer ;;;
   ret answer)%M st1
  = match oa_client (calls st1) request with
    | Raise e => (Raise e, chat_event st1 request)
    | Ok [] =>
        (Raise (Exn "IndexError" "list index out of range"),
         chat_event st1 request)
    | Ok (answer :: _) =>
        (Ok answer,
         snd (store_turn mem_client user_input answer (chat_event st1 request)))
    end.
Proof.
  unfold bind at 1. unfold call_chat at 1. fold (chat_event st1 request).
  destruct (oa_client (calls st1) request) as [[|answer others]|e];
    try reflexivity.
  unfold bind at 1. unfold lift at 1. cbn [list_index nth_error].
  unfold bind at 1.
  destruct (store_turn_extends user_input answer (chat_event st1 request))
    as [out [cs ->]].
  reflexivity.
Qed.

(** C1. In [chat_once]: an error raised by the search call is
    swallowed and printed, the search results are then empty and the
    turn goes on to the completion call; an error raised by the
    completion call leaves [chat_once] as that error, with nothing
    stored; an error raised by the add call is swallowed and printed,
    and the answer already computed is returned. *)
Theorem chat_once_error_handling (user_input : string) (st : state) :
  let agent := CURRENT_AGENT_ID st in
  let search := Mem0Client.search user_input agent in
  (forall e,
     mem_client (calls st) search = Raise e ->
     let request := completion_request agent "No memories found." user_input in
     let st1 :=
       State agent (stdout st ++ [("[mem0 search error] " ++ exn_str e)%string])%list
         (calls st ++ [EMem search])%list in
     search_memories mem_client user_input st = (Ok (VList []), st1)
     /\ (exists more_out more_calls,
           stdout (snd (chat_once py_repr mem_client oa_client user_input st))
           = (stdout st1 ++ more_out)%list
           /\ calls (snd (chat_once py_repr mem_client oa_client user_input st))
              = (calls st1 ++ EChat request :: more_calls)%list)
     /\ (forall answer others,
           oa_client (calls st1) request = Ok (answer :: others) ->
           fst (chat_once py_repr mem_client oa_client user_input st)
           = Ok answer))
  /\ (forall results st1 block e,
        search_memories mem_client user_input st = (Ok results, st1) ->
        format_memories py_repr results 8 = Ok block ->
        oa_client (calls st1) (completion_request agent block user_input)
        = Raise e ->
        chat_once py_repr mem_client oa_client user_input st
        = (Raise e,
           State agent (stdout st1)
             (calls st1
              ++ [EChat (completion_request agent block user_input)])%list))
  /\ (forall results st1 block answer others e,
        search_memories mem_client user_input st = (Ok results, st1) ->
        format_memories py_repr results 8 = Ok block ->
        oa_client (calls st1) (completion_request agent block user_input)
        = Ok (Some answer :: others) ->
        mem_client
          (calls st1 ++ [EChat (completion_request agent block user_input)])%list
          (stored_turn user_input answer agent
             (should_store_memory user_input answer))
        = Raise e ->
        chat_once py_repr mem_client oa_client user_input st
        = (Ok (Some answer),
           State agent (stdout st1 ++ [("[mem0 add error] " ++ exn_str e)%string])%list
             (calls st1
              ++ [EChat (completion_request agent block user_input);
                  EMem (stored_turn user_input answer agent
                          (should_store_memory user_input answer))])%list)).
Proof.
  cbv zeta. split; [|split].
  - intros e He.
    set (st1 := State _ _ _).
    assert (Hs : search_memories mem_client user_input st = (Ok (VList []), st1)).
    { rewrite search_memories_run. cbv zeta. now rewrite He. }
    split; [exact Hs|].
    rewrite (chat_once_after_search _ _ _ _ "No memories found." Hs eq_refl).
    rewrite completion_run.
    change (CURRENT_AGENT_ID st1) with (CURRENT_AGENT_ID st).
    set (request := completion_request (CURRENT_AGENT_ID st)
                      "No memories found." user_input).
    destruct (oa_client (calls st1) request) as [[|answer others]|e'].
    + split; [|discriminate].
      exists [], []. cbn [snd chat_event stdout calls].
      now rewrite app_nil_r.
    + split.
      * destruct (store_turn_extends user_input answer (chat_event st1 request))
          as [out [cs ->]].
        exists out, cs. cbn [snd chat_event stdout calls].
        split; [reflexivity|]. now rewrite <- app_assoc.
      * intros answer' others' H. now injection H as ->.
    + split; [|discriminate].
      exists [], []. cbn [snd chat_event stdout calls].
      now rewrite app_nil_r.
  - intros results st1 block e Hs Hf Hoa.
    destruct (search_memories_returns user_input st) as [r' [st' [Hs' Ha]]].
    rewrite Hs in Hs'. injection Hs' as _ <-.
    rewrite (chat_once_after_search _ _ _ _ _ Hs Hf), completion_run, Ha, Hoa.
    unfold chat_event. now rewrite Ha.
  - intros results st1 block answer others e Hs Hf Hoa Hadd.
    destruct (search_memories_returns user_input st) as [r' [st' [Hs' Ha]]].
    rewrite Hs in Hs'. injection Hs' as _ <-.
    rewrite (chat_once_after_search _ _ _ _ _ Hs Hf), completion_run, Ha, Hoa.
    rewrite store_turn_run. cbv zeta.
    cbn [chat_event CURRENT_AGENT_ID calls stdout]. rewrite Ha, Hadd.
    cbn [snd]. now rewrite <- app_assoc.
Qed.

(** C2. When the completion call answers with the text [answer],
    [chat_once] then calls [add_memories] with the two messages of the
    turn, the current agent and the metadata
    [{"source": "local_assistant", "important": b}], [b] being
    [should_store_memory user_input answer]; for the input
    "My favorite color is blue, remember that", [b] is true. *)
Theorem chat_once_stores_turn (user_input : string) (st st1 : state)
    (results : value) (block answer : string) (others : list (option string)) :
  let agent := CURRENT_AGENT_ID st in
  let request := completion_request agent block user_input in
  search_memories mem_client user_input st = (Ok results, st1) ->
  format_memories py_repr results 8 = Ok block ->
  oa_client (calls st1) request = Ok (Some answer :: others) ->
  exists important,
    calls (snd (chat_once py_repr mem_client oa_client user_input st))
    = (calls st1
       ++ [EChat request;
           EMem (Mem0Client.add_memories
                   [ Message "user" user_input; Message "assistant" answer ]
                   agent
                   [ ("source", VStr "local_assistant");
                     ("important", VBool important) ])])%list
    /\ important = should_store_memory user_input answer
    /\ (user_input = "My favorite color is blue, remember that" ->
        important = true).
Proof.
  cbv zeta. intros Hs Hf Hoa.
  exists (should_store_memory user_input answer).
  split; [|split; [reflexivity|]].
  - destruct (search_memories_returns user_input st) as [r' [st' [Hs' Ha]]].
    rewrite Hs in Hs'. injection Hs' as _ <-.
    rewrite (chat_once_after_search _ _ _ _ _ Hs Hf), completion_run, Ha, Hoa.
    rewrite store_turn_run. cbv zeta.
    cbn [chat_event CURRENT_AGENT_ID calls stdout]. rewrite Ha.
    fold (stored_turn user_input answer (CURRENT_AGENT_ID st)
            (should_store_memory user_input answer)).
    destruct (mem_client _ _); cbn [snd calls]; now rewrite <- app_assoc.
  - intros ->. unfold should_store_memory.
    assert (Hk :
      PyStr.contains
        (PyStr.lower ("My favorite color is blue, remember that" ++ " " ++ answer))
        "remember" = true).
    { apply contains_spec.
      exists "my favorite color is blue, ", (" that" ++ PyStr.lower (" " ++ answer)).
      rewrite lower_append. reflexivity. }
    cbn [keywords existsb]. now rewrite Hk.
Qed.

(** C8. [chat_once] and [handle_mem_command] leave [CURRENT_AGENT_ID]
    as it was, whether they return or raise; the formatter, the
    normalizer and the heuristic have no access to it; and
    [handle_agent_command] changes it only when the line has a second
    item, to that item stripped, which is not empty. *)
Theorem agent_id_invariant (user_input cmd : string) (st : state) :
  CURRENT_AGENT_ID (snd (chat_once py_repr mem_client oa_client user_input st))
  = CURRENT_AGENT_ID st
  /\ CURRENT_AGENT_ID (snd (handle_mem_command py_repr mem_client cmd st))
     = CURRENT_AGENT_ID st
  /\ (forall memories limit answer,
        keeps_agent (lift (format_memories py_repr memories limit))
        /\ keeps_agent (ret (_normalize_mem_items memories))
        /\ keeps_agent (ret (should_store_memory user_input answer)))
  /\ (CURRENT_AGENT_ID (snd (handle_agent_command cmd st))
      <> CURRENT_AGENT_ID st ->
      exists head name,
        PyStr.split (PyStr.strip cmd) 1 = [head; name]
        /\ PyStr.strip name <> ""
        /\ handle_agent_command cmd st
           = (Ok ("Switched agent to: " ++ PyStr.strip name),
              State (PyStr.strip name) (stdout st) (calls st))).
Proof.
  split; [apply chat_once_keeps_agent|].
  split; [apply handle_mem_command_keeps_agent|].
  split; [intros; repeat split; auto with agent_inv|].
  unfold handle_agent_command. cbv zeta.
  pose proof (split_1_length (PyStr.strip cmd)) as Hlen.
  destruct (PyStr.split (PyStr.strip cmd) 1) as [|p0 [|p1 [|p2 more]]] eqn:E;
    cbn in Hlen; try lia.
  - intros H. now destruct H.
  - intros H. now destruct H.
  - intros _. exists p0, p1.
    pose proof (split_1_second_item _ _ _ _ E) as Hne.
    split; [reflexivity|]. split; [exact Hne|].
    cbn [List.length Nat.eqb]. unfold bind at 1. unfold lift at 1.
    cbn [list_index nth_error].
    apply is_empty_false in Hne. rewrite Hne. reflexivity.
Qed.

End AssistantFacts.

(** ** The command handlers *)

Section CommandFacts.

Import PyStr.

Variable py_repr : value -> string.
Variable mem_client : list event -> Mem0Client.call -> result value.

Lemma all_space_word_end (w : string) : all_space w = true -> word_end w.
Proof.
  destruct w as [|c w]; [now left|]. simpl. intros H.
  apply andb_true_iff in H as [Hc _]. right. now exists c, w.
Qed.

(** The items of a line made of a first word, white space, a second
    word and a rest. *)
Lemma split_two_words (head w sub rest : string) :
  no_space head = true -> head <> "" ->
  all_space w = true -> w <> "" ->
  no_space sub = true -> sub <> "" -> word_end rest ->
  split (strip (head ++ w ++ sub ++ rest)) 2
  = head :: sub :: (if is_empty (strip rest) then [] else [strip rest]).
Proof.
  intros Hh Hhne Hw Hwne Hs Hsne Hrest.
  rewrite (split_strip_word head (w ++ sub ++ rest) 1 Hh Hhne
             (word_end_all_space _ _ Hw Hwne)).
  rewrite (strip_all_space_prefix _ _ Hw).
  rewrite (split_strip_word sub rest 0 Hs Hsne Hrest).
  now rewrite split_strip_0.
Qed.

Lemma handle_agent_command_never_usage (cmd : string) (st : state) :
  fst (handle_agent_command cmd st) <> Ok "Usage: /agent <name>".
Proof.
  unfold handle_agent_command. cbv zeta.
  destruct (split (strip cmd) 1) as [|p0 [|p1 more]] eqn:E.
  - cbn. discriminate.
  - cbn. discriminate.
  - pose proof (split_1_second_item _ _ _ _ E) as Hne.
    apply is_empty_false in Hne.
    cbn [List.length Nat.eqb]. unfold bind at 1. unfold lift at 1.
    cbn [list_index nth_error]. rewrite Hne.
    destruct more; cbn; discriminate.
Qed.

(** C7, as the code has it. "/agent" alone, or followed by white
    space only, returns the report of the current agent and leaves the
    state as it was; "/agent <name>" with a name that is not blank
    sets the agent to the name stripped and confirms the switch. *)
Theorem handle_agent_command_cases (st : state) :
  (forall w,
     all_space w = true ->
     handle_agent_command ("/agent" ++ w) st
     = (Ok ("Current agent: " ++ CURRENT_AGENT_ID st), st))
  /\ (forall w name,
        all_space w = true -> w <> "" -> strip name <> "" ->
        handle_agent_command ("/agent" ++ w ++ name) st
        = (Ok ("Switched agent to: " ++ strip name),
           State (strip name) (stdout st) (calls st))).
Proof.
  split.
  - intros w Hw. unfold handle_agent_command. cbv zeta.
    rewrite (split_strip_word "/agent" w 0 eq_refl ltac:(discriminate)
               (all_space_word_end _ Hw)).
    rewrite split_strip_0, (strip_all_space _ Hw). reflexivity.
  - intros w name Hw Hwne Hname. unfold handle_agent_command. cbv zeta.
    rewrite (split_strip_word "/agent" (w ++ name) 0 eq_refl
               ltac:(discriminate) (word_end_all_space _ _ Hw Hwne)).
    rewrite split_strip_0, (strip_all_space_prefix _ _ Hw).
    apply is_empty_false in Hname. rewrite Hname.
    cbn [List.length Nat.eqb]. unfold bind at 1. unfold lift at 1.
    cbn [list_index nth_error]. rewrite strip_idem, Hname. reflexivity.
Qed.

(** The parts of a "/mem" line and the dispatch on the second. *)
Lemma handle_mem_command_search (st : state) (w1 w2 q : string) :
  all_space w1 = true -> w1 <> "" -> all_space w2 = true -> w2 <> "" ->
  strip q = q -> q <> "" ->
  split (strip ("/mem" ++ w1 ++ "search" ++ w2 ++ q)) 2 = ["/mem"; "search"; q]
  /\ handle_mem_command py_repr mem_client
       ("/mem" ++ w1 ++ "search" ++ w2 ++ q) st
     = (match mem_client (calls st)
                (Mem0Client.search q (CURRENT_AGENT_ID st)) with
        | Ok res => format_memories py_repr res 30
        | Raise e => Ok ("[mem0 search error] " ++ exn_str e)
        end,
        State (CURRENT_AGENT_ID st) (stdout st)
          (calls st
           ++ [EMem (Mem0Client.search q (CURRENT_AGENT_ID st))])%list).
Proof.
  intros Hw1 Hw1ne Hw2 Hw2ne Hq Hqne.
  assert (Hparts :
    split (strip ("/mem" ++ w1 ++ "search" ++ w2 ++ q)) 2
    = ["/mem"; "search"; q]).
  { rewrite (split_two_words "/mem" w1 "search" (w2 ++ q) eq_refl
               ltac:(discriminate) Hw1 Hw1ne eq_refl ltac:(discriminate)
               (word_end_all_space _ _ Hw2 Hw2ne)).
    rewrite (strip_all_space_prefix _ _ Hw2), Hq.
    apply is_empty_false in Hqne. now rewrite Hqne. }
  split; [exact Hparts|].
  unfold handle_mem_command. cbv zeta. rewrite Hparts.
  cbn [List.length Nat.eqb Nat.leb].
  unfold bind at 1. unfold bind at 1. unfold lift at 1.
  cbn [list_index nth_error]. unfold ret at 1.
  change (lower "search" =? "search") with true. cbv iota.
  unfold bind at 1. unfold lift at 1. cbn [list_index nth_error].
  unfold bind, attempt, get_CURRENT_AGENT_ID, call_mem.
  destruct (mem_client (calls st) _); reflexivity.
Qed.

Lemma handle_mem_command_search_usage (st : state) (w1 w2 : string) :
  all_space w1 = true -> w1 <> "" -> all_space w2 = true ->
  handle_mem_command py_repr mem_client ("/mem" ++ w1 ++ "search" ++ w2) st
  = (Ok "Usage: /mem search <query>", st).
Proof.
  intros Hw1 Hw1ne Hw2.
  unfold handle_mem_command. cbv zeta.
  rewrite (split_two_words "/mem" w1 "search" w2 eq_refl
             ltac:(discriminate) Hw1 Hw1ne eq_refl ltac:(discriminate)
             (all_space_word_end _ Hw2)).
  rewrite (strip_all_space _ Hw2). reflexivity.
Qed.

(** C9. "/mem search" without a query returns the usage string and
    makes no call on the memory store. With a query, the line is cut
    into at most three items, and the query searched for is what
    follows the subcommand, white space inside it kept as typed. *)
Theorem mem_search_command (st : state) :
  handle_mem_command py_repr mem_client "/mem search" st
  = (Ok "Usage: /mem search <query>", st)
  /\ (forall w1 w2,
        all_space w1 = true -> w1 <> "" -> all_space w2 = true ->
        handle_mem_command py_repr mem_client
          ("/mem" ++ w1 ++ "search" ++ w2) st
        = (Ok "Usage: /mem search <query>", st))
  /\ (forall cmd, List.length (split (strip cmd) 2) <= 3)
  /\ (forall w1 w2 q,
        all_space w1 = true -> w1 <> "" -> all_space w2 = true -> w2 <> "" ->
        strip q = q -> q <> "" ->
        split (strip ("/mem" ++ w1 ++ "search" ++ w2 ++ q)) 2
        = ["/mem"; "search"; q]
        /\ handle_mem_command py_repr mem_client
             ("/mem" ++ w1 ++ "search" ++ w2 ++ q) st
           = (match mem_client (calls st)
                      (Mem0Client.search q (CURRENT_AGENT_ID st)) with
              | Ok res => format_memories py_repr res 30
              | Raise e => Ok ("[mem0 search error] " ++ exn_str e)
              end,
              State (CURRENT_AGENT_ID st) (stdout st)
                (calls st
                 ++ [EMem (Mem0Client.search q (CURRENT_AGENT_ID st))])%list)).
Proof.
  split; [reflexivity|].
  split; [intros; now apply handle_mem_command_search_usage|].
  split; [|intros; now apply handle_mem_command_search].
  intros cmd. cbn [split].
  destruct (is_empty (lstrip (strip cmd))); [simpl; lia|].
  destruct (span_word (lstrip (strip cmd))) as [w0 r0].
  destruct (is_empty (lstrip r0)); [simpl; lia|].
  destruct (span_word (lstrip r0)) as [w1 r1].
  destruct (is_empty (lstrip r1)); simpl; lia.
Qed.

(** C10. The subcommand of a "/mem" line is lower-cased before it is
    matched: a line and the same line with its subcommand in lower
    case are handled alike, result and state. So are "/mem SEARCH q"
    and "/mem search q" for every q. *)
Theorem mem_subcommand_case_insensitive (st : state) :
  (forall w sub rest,
     all_space w = true -> w <> "" ->
     no_space sub = true -> sub <> "" -> word_end rest ->
     handle_mem_command py_repr mem_client ("/mem" ++ w ++ sub ++ rest) st
     = handle_mem_command py_repr mem_client
         ("/mem" ++ w ++ lower sub ++ rest) st)
  /\ (forall q,
        handle_mem_command py_repr mem_client ("/mem SEARCH " ++ q) st
        = handle_mem_command py_repr mem_client ("/mem search " ++ q) st).
Proof.
  assert (Hgen : forall w sub rest,
     all_space w = true -> w <> "" ->
     no_space sub = true -> sub <> "" -> word_end rest ->
     handle_mem_command py_repr mem_client ("/mem" ++ w ++ sub ++ rest) st
     = handle_mem_command py_repr mem_client
         ("/mem" ++ w ++ lower sub ++ rest) st).
  { intros w sub rest Hw Hwne Hs Hsne Hrest.
    assert (Hls : no_space (lower sub) = true) by now rewrite no_space_lower.
    assert (Hlne : lower sub <> "") by (destruct sub; [congruence | discriminate]).
    unfold handle_mem_command. cbv zeta.
    rewrite (split_two_words "/mem" w sub rest eq_refl ltac:(discriminate)
               Hw Hwne Hs Hsne Hrest).
    rewrite (split_two_words "/mem" w (lower sub) rest eq_refl
               ltac:(discriminate) Hw Hwne Hls Hlne Hrest).
    destruct (is_empty (strip rest));
      cbn [List.length Nat.eqb Nat.leb];
      unfold bind at 1; unfold bind at 1; unfold lift at 1;
      cbn [list_index nth_error]; unfold ret at 1;
      symmetry;
      unfold bind at 1; unfold bind at 1; unfold lift at 1;
      cbn [list_index nth_error]; unfold ret at 1;
      rewrite lower_idem; reflexivity. }
  split; [exact Hgen|].
  intros q.
  exact (Hgen " " "SEARCH" (" " ++ q) eq_refl ltac:(discriminate) eq_refl
           ltac:(discriminate)
           (word_end_all_space " " q eq_refl ltac:(discriminate))).
Qed.

End CommandFacts.

(** ** The theorems at concrete inputs *)

Lemma chat_once_error_handling_witness :
  fst (chat_once repr_type_only mem_down (oa_says "Hello Jose.") "hello"
         initial_state)
  = Ok (Some "Hello Jose.")
  /\ (exists st',
        chat_once repr_type_only mem_empty oa_down "hello" initial_state
        = (Raise (Exn "APIConnectionError" "Connection error."), st'))
  /\ (exists st',
        chat_once repr_type_only mem_read_only (oa_says "Hello Jose.") "hello"
          initial_state
        = (Ok (Some "Hello Jose."), st')
        /\ stdout st' = ["[mem0 add error] connection refused"]).
Proof.
  split; [|split].
  - apply (proj2 (proj2 (proj1
      (chat_once_error_handling repr_type_only mem_down
         (oa_says "Hello Jose.") "hello" initial_state)
      connection_error eq_refl)) (Some "Hello Jose.") []).
    reflexivity.
  - eexists.
    apply (proj1 (proj2
      (chat_once_error_handling repr_type_only mem_empty oa_down "hello"
         initial_state))
      (VDict [("results", VList [])])
      (State "vera" [] [EMem (Mem0Client.search "hello" "vera")])
      "No memories found.");
      reflexivity.
  - eexists. split.
    + apply (proj2 (proj2
        (chat_once_error_handling repr_type_only mem_read_only
           (oa_says "Hello Jose.") "hello" initial_state))
        (VDict [("results", VList [])])
        (State "vera" [] [EMem (Mem0Client.search "hello" "vera")])
        "No memories found." "Hello Jose." [] connection_error);
        reflexivity.
    + reflexivity.
Defined.

Lemma chat_once_stores_turn_witness :
  calls (snd (chat_once repr_type_only mem_empty (oa_says "Noted.")
                "My favorite color is blue, remember that" initial_state))
  = [ EMem (Mem0Client.search "My favorite color is blue, remember that" "vera");
      EChat (completion_request "vera" "No memories found."
               "My favorite color is blue, remember that");
      EMem (Mem0Client.add_memories
              [ Message "user" "My favorite color is blue, remember that";
                Message "assistant" "Noted." ]
              "vera"
              [ ("source", VStr "local_assistant");
                ("important", VBool true) ]) ].
Proof.
  destruct (chat_once_stores_turn repr_type_only mem_empty (oa_says "Noted.")
              "My favorite color is blue, remember that" initial_state
              (State "vera" []
                 [EMem (Mem0Client.search
                          "My favorite color is blue, remember that" "vera")])
              (VDict [("results", VList [])]) "No memories found." "Noted." []
              eq_refl eq_refl eq_refl)
    as [important [Hcalls [_ Htrue]]].
  rewrite Hcalls, (Htrue eq_refl). reflexivity.
Defined.

Lemma handle_agent_command_cases_witness :
  handle_agent_command "/agent  " initial_state
  = (Ok "Current agent: vera", initial_state)
  /\ handle_agent_command "/agent   nova " initial_state
     = (Ok "Switched agent to: nova", State "nova" [] []).
Proof.
  split.
  - exact (proj1 (handle_agent_command_cases initial_state) "  " eq_refl).
  - apply (proj2 (handle_agent_command_cases initial_state) "  " " nova " eq_refl);
      discriminate.
Defined.

(** C7 as it is stated fails: after "/agent" a name that is blank is
    answered with the report of the current agent, not with the usage
    message. *)
Lemma handle_agent_command_cases_counterexample :
  handle_agent_command "/agent   " initial_state
  = (Ok "Current agent: vera", initial_state)
  /\ fst (handle_agent_command "/agent   " initial_state)
     <> Ok "Usage: /agent <name>".
Proof. split; [reflexivity | discriminate]. Qed.

Lemma agent_id_invariant_witness :
  exists head name,
    PyStr.split (PyStr.strip "/agent nova") 1 = [head; name]
    /\ PyStr.strip name <> ""
    /\ handle_agent_command "/agent nova" initial_state
       = (Ok ("Switched agent to: " ++ PyStr.strip name),
          State (PyStr.strip name) [] []).
Proof.
  apply (proj2 (proj2 (proj2
    (agent_id_invariant repr_type_only mem_empty (oa_says "Noted.")
       "hello" "/agent nova" initial_state)))).
  discriminate.
Defined.

Lemma mem_search_command_witness :
  handle_mem_command repr_type_only mem_empty "/mem search  " initial_state
  = (Ok "Usage: /mem search <query>", initial_state)
  /\ handle_mem_command repr_type_only mem_empty
       "/mem search   favorite  color" initial_state
     = (Ok "No memories found.",
        State "vera" []
          [EMem (Mem0Client.search "favorite  color" "vera")]).
Proof.
  split.
  - apply (proj1 (proj2 (mem_search_command repr_type_only mem_empty
                           initial_state)) " " "  ");
      [reflexivity | discriminate | reflexivity].
  - apply (proj2 (proj2 (proj2 (proj2
      (mem_search_command repr_type_only mem_empty initial_state)))
      " " "   " "favorite  color" eq_refl ltac:(discriminate) eq_refl
      ltac:(discriminate) eq_refl ltac:(discriminate))).
Defined.

Lemma mem_subcommand_case_insensitive_witness :
  handle_mem_command repr_type_only mem_empty "/mem  ShOw m1" initial_state
  = handle_mem_command repr_type_only mem_empty "/mem  show m1" initial_state.
Proof.
  apply (proj1 (mem_subcommand_case_insensitive repr_type_only mem_empty
                  initial_state) "  " "ShOw" " m1");
    [reflexivity | discriminate | reflexivity | discriminate |].
  right. now exists " "%char, "m1".
Defined.

(** ** Runs of the model *)

Example str_methods_examples :
  PyStr.split (PyStr.strip "  /mem  search  foo  bar baz  ") 2
  = ["/mem"; "search"; "foo  bar baz"]
  /\ PyStr.split (PyStr.strip "/agent   ") 1 = ["/agent"]
  /\ PyStr.split "a b  " 1 = ["a"; "b  "]
  /\ PyStr.split "   " 1 = []
  /\ PyStr.strip (nl ++ " x y " ++ nl) = "x y"
  /\ PyStr.lower "/Mem SEARCH Q" = "/mem search q"
  /\ PyStr.lower_char (ascii_of_nat 192) = ascii_of_nat 224
  /\ PyStr.lower_char (ascii_of_nat 215) = ascii_of_nat 215
  /\ PyStr.isspace (ascii_of_nat 160) = true
  /\ PyStr.join ", " ["chat"; "important"] = "chat, important"
  /\ PyStr.contains "please remember that" "remember" = true
  /\ PyStr.contains "rememb" "remember" = false
  /\ str_of_nat 0 = "0" /\ str_of_nat 120 = "120".
Proof. repeat split. Qed.

Example truthy_examples :
  truthy (VFloat 0%float) = false
  /\ truthy (VFloat (-0)%float) = false
  /\ truthy (VFloat nan) = true
  /\ truthy (VInt 0) = false
  /\ truthy (VStr "") = false
  /\ truthy (VDict []) = false
  /\ truthy (VList [VNone]) = true
  /\ slice_to [1; 2; 3] (-1) = [1; 2]
  /\ slice_to [1; 2; 3] (-5) = []
  /\ slice_to [1; 2; 3] 8 = [1; 2; 3].
Proof. repeat split. Qed.

Example format_memories_examples :
  format_memories repr_type_only (VList []) 20 = Ok "No memories found."
  /\ format_memories repr_type_only VNone 20 = Ok "No memories found."
  /\ format_memories repr_type_only
       (VList [ VDict [("_id", VInt 7); ("memory", VStr "owns a cat");
                       ("meta", VDict [("important", VInt 1)])];
                VDict [("id", VStr "m2");
                       ("data", VDict [("memory", VStr "likes tea")]);
                       ("metadata", VDict [("source", VStr "chat")])] ]) 20
     = Ok ("[<int>] (important) owns a cat" ++ nl ++ "[m2] (chat) likes tea")
  /\ format_memories repr_type_only
       (VList [VDict [("id", VStr "m1"); ("data", VNone)]]) 20
     = Raise (Exn "AttributeError" "'NoneType' object has no attribute 'get'").
Proof. repeat split. Qed.

(** "/agent" before any switch reports the default; after "/agent foo"
    it reports "foo". *)
Example agent_switching_example :
  fst (handle_agent_command "/agent" initial_state) = Ok "Current agent: vera"
  /\ fst (handle_agent_command "/agent"
            (snd (handle_agent_command "/agent foo" initial_state)))
     = Ok "Current agent: foo"
  /\ fst (handle_agent_command "" initial_state)
     = Raise (Exn "IndexError" "list index out of range").
Proof. repeat split. Qed.

Example handle_mem_command_examples :
  handle_mem_command repr_type_only mem_down "/mem" initial_state
  = (Ok "[mem0 list error] connection refused",
     State "vera" [] [EMem (Mem0Client.list_memories "vera")])
  /\ handle_mem_command repr_type_only mem_down "/mem show" initial_state
     = (Ok "Usage: /mem show <memory_id>", initial_state)
  /\ handle_mem_command repr_type_only mem_down "/mem DELETE m1" initial_state
     = (Ok "[mem0 delete error] connection refused",
        State "vera" [] [EMem (Mem0Client.delete_memory "m1")])
  /\ handle_mem_command repr_type_only mem_empty "/mem clear now" initial_state
     = (Ok "Cleared all memories for agent 'vera': <dict>",
        State "vera" [] [EMem (Mem0Client.delete_all "vera")])
  /\ handle_mem_command repr_type_only mem_empty "/mem purge" initial_state
     = (Ok mem_usage, initial_state)
  /\ handle_mem_command repr_type_only mem_empty "/memory" initial_state
     = (Ok "No memories found.",
        State "vera" [] [EMem (Mem0Client.list_memories "vera")]).
Proof. repeat split. Qed.

(** * Further properties *)

(** ** The client: URLs, responses and request fields *)

Lemma append_cancel_r (a b p : string) : a ++ p = b ++ p -> a = b.
Proof.
  revert b; induction a as [|x a IH]; intros b H.
  - destruct b as [|y b]; [reflexivity|].
    apply (f_equal String.length) in H. simpl in H.
    rewrite length_append in H. lia.
  - destruct b as [|y b].
    + apply (f_equal String.length) in H. simpl in H.
      rewrite length_append in H. lia.
    + simpl in H. injection H as -> H. f_equal. now apply IH.
Qed.

Lemma rstrip_chars_slash (b : string) :
  rstrip_chars (b ++ "/") "/" = rstrip_chars b "/".
Proof.
  induction b as [|c b IH]; simpl; [reflexivity | now rewrite IH].
Qed.

Lemma rstrip_chars_no_slash (b stem : string) :
  rstrip_chars b "/" <> stem ++ "/".
Proof.
  revert stem; induction b as [|c b IH]; intros stem; cbn [rstrip_chars].
  - destruct stem; simpl; discriminate.
  - destruct (PyStr.is_empty (rstrip_chars b "/") && char_in c "/") eqn:E.
    + destruct stem; simpl; discriminate.
    + destruct stem as [|x stem]; simpl; intros H.
      * injection H as -> Hr. rewrite Hr in E. discriminate E.
      * injection H as _ Hr. exact (IH _ Hr).
Qed.

(** X1. [_url]: trailing slashes of the base URL do not count. A base
    URL with one more slash at its end gives the same URL, and the part
    of the URL before the path never ends with a slash. *)
Theorem url_ignores_trailing_slashes (b path : string)
    (u a : option string) :
  _url (Client (b ++ "/") u a) path = _url (Client b u a) path
  /\ (forall stem, _url (Client b u a) path <> (stem ++ "/") ++ path)
  /\ _url (Client "http://127.0.0.1:8000//" u a) "/search"
     = "http://127.0.0.1:8000/search".
Proof.
  unfold _url. cbn [base_url]. split; [|split; [|reflexivity]].
  - now rewrite rstrip_chars_slash.
  - intros stem H. apply append_cancel_r in H.
    exact (rstrip_chars_no_slash _ _ H).
Qed.

Lemma raise_for_status_error (resp : http_response) :
  400 <= status_code resp < 600 ->
  exists message, raise_for_status resp = Raise (Exn "HTTPError" message).
Proof.
  intros [Hlo Hhi]. unfold raise_for_status. cbv zeta.
  apply Nat.leb_le in Hlo. rewrite Hlo. cbn [andb].
  destruct (Nat.ltb (status_code resp) 500) eqn:E5; [eexists; reflexivity|].
  apply Nat.ltb_ge in E5. apply Nat.leb_le in E5. rewrite E5.
  apply Nat.ltb_lt in Hhi. rewrite Hhi. eexists; reflexivity.
Qed.

Lemma raise_for_status_ok (resp : http_response) :
  status_code resp < 400 \/ 600 <= status_code resp ->
  raise_for_status resp = Ok tt.
Proof.
  intros H. unfold raise_for_status. cbv zeta.
  destruct (Nat.leb 400 (status_code resp)) eqn:E4; cbn [andb].
  - apply Nat.leb_le in E4.
    assert (Hge : 600 <= status_code resp) by lia.
    assert (E5 : Nat.ltb (status_code resp) 500 = false)
      by (apply Nat.ltb_ge; lia).
    assert (E6 : Nat.ltb (status_code resp) 600 = false)
      by (apply Nat.ltb_ge; lia).
    rewrite E5, E6, andb_false_r. reflexivity.
  - assert (E5 : Nat.leb 500 (status_code resp) = false).
    { apply Nat.leb_gt. apply Nat.leb_gt in E4. lia. }
    now rewrite E5.
Qed.

(** X2. [_handle]: a response with a status from 400 to 599 raises an
    [HTTPError] whatever its body, which is not decoded. Any other
    status, 1xx and 3xx too, is a success: the body is decoded as JSON
    when the content type, looked up whatever the case of the header
    name, starts with "application/json", and returned as text
    otherwise. *)
Theorem handle_by_status (json_loads : string -> result value)
    (resp : http_response) :
  (400 <= status_code resp < 600 ->
   exists message,
     _handle json_loads resp = Raise (Exn "HTTPError" message))
  /\ (status_code resp < 400 \/ 600 <= status_code resp ->
      (PyStr.startswith "application/json"
         (header_get (headers resp) "content-type" "") = true ->
       _handle json_loads resp = json_loads (text resp))
      /\ (PyStr.startswith "application/json"
            (header_get (headers resp) "content-type" "") = false ->
          _handle json_loads resp = Ok (VStr (text resp))))
  /\ (forall name v rest,
        PyStr.lower name = "content-type" ->
        header_get ((name, v) :: rest) "content-type" "" = v).
Proof.
  split; [|split].
  - intros H. destruct (raise_for_status_error resp H) as [message Hm].
    exists message. unfold _handle. now rewrite Hm.
  - intros H. unfold _handle. rewrite (raise_for_status_ok resp H).
    cbn [rbind]. split; intros ->; reflexivity.
  - intros name v rest Hn. cbn [header_get]. rewrite Hn. reflexivity.
Qed.

Lemma handle_by_status_witness :
  (exists message,
     _handle json_loads_stub
       (HttpResponse 404 "Not Found" "http://127.0.0.1:8000/memories/m1"
          [("content-type", "application/json")] "{}")
     = Raise (Exn "HTTPError" message))
  /\ _handle json_loads_stub
       (HttpResponse 301 "Moved Permanently" "http://127.0.0.1:8000/memories"
          [("Content-Type", "application/json; charset=utf-8")] "{}")
     = Ok (VDict [])
  /\ _handle json_loads_stub
       (HttpResponse 200 "OK" "http://127.0.0.1:8000/memories"
          [("Content-Type", "text/plain")] "{}")
     = Ok (VStr "{}")
  /\ header_get [("CONTENT-TYPE", "text/html")] "content-type" "" = "text/html".
Proof.
  split; [|split; [|split]].
  - apply (proj1 (handle_by_status json_loads_stub _)). simpl. lia.
  - apply (proj1 (proj1 (proj2 (handle_by_status json_loads_stub
      (HttpResponse 301 "Moved Permanently" "http://127.0.0.1:8000/memories"
         [("Content-Type", "application/json; charset=utf-8")] "{}")))
      ltac:(left; simpl; lia))).
    reflexivity.
  - apply (proj2 (proj1 (proj2 (handle_by_status json_loads_stub
      (HttpResponse 200 "OK" "http://127.0.0.1:8000/memories"
         [("Content-Type", "text/plain")] "{}")))
      ltac:(left; simpl; lia))).
    reflexivity.
  - apply (proj2 (proj2 (handle_by_status json_loads_stub
      (HttpResponse 200 "OK" "" [] "")))).
    reflexivity.
Defined.

Ltac case_optional o :=
  destruct o as [[|? ?]|].

Lemma add_memories_identifiers self messages user_id agent_id run_id metadata :
  identifiers_resolved self user_id agent_id run_id
    (add_memories_request self messages user_id agent_id run_id metadata).
Proof.
  destruct self as [b du da]. unfold identifiers_resolved.
  destruct metadata as [[|md0 md]|];
    case_optional user_id; case_optional agent_id; case_optional run_id;
    case_optional du; case_optional da; repeat split.
Qed.

Lemma search_identifiers self query user_id agent_id run_id filters :
  identifiers_resolved self user_id agent_id run_id
    (search_request self query user_id agent_id run_id filters).
Proof.
  destruct self as [b du da]. unfold identifiers_resolved.
  destruct filters as [[|f0 f]|];
    case_optional user_id; case_optional agent_id; case_optional run_id;
    case_optional du; case_optional da; repeat split.
Qed.

Lemma list_memories_identifiers self user_id agent_id run_id :
  identifiers_resolved self user_id agent_id run_id
    (list_memories_request self user_id agent_id run_id).
Proof.
  destruct self as [b du da]. unfold identifiers_resolved.
  case_optional user_id; case_optional agent_id; case_optional run_id;
    case_optional du; case_optional da; repeat split.
Qed.

Lemma delete_all_identifiers self user_id agent_id run_id :
  identifiers_resolved self user_id agent_id run_id
    (delete_all_request self user_id agent_id run_id).
Proof.
  destruct self as [b du da]. unfold identifiers_resolved.
  case_optional user_id; case_optional agent_id; case_optional run_id;
    case_optional du; case_optional da; repeat split.
Qed.

(** X3. In the requests of [add_memories], [list_memories],
    [delete_all] and [search], the field [user_id] holds the argument
    when it is a string that is not empty, else the default of the
    client when that is one, and is absent otherwise; the same goes for
    [agent_id]; [run_id] has no default. So an identifier is never sent
    as None or as the empty string. *)
Theorem identifiers_explicit_else_default (self : client)
    (messages : list message) (query : string)
    (user_id agent_id run_id : option string)
    (metadata filters : option (list (string * value))) :
  identifiers_resolved self user_id agent_id run_id
    (add_memories_request self messages user_id agent_id run_id metadata)
  /\ identifiers_resolved self user_id agent_id run_id
       (list_memories_request self user_id agent_id run_id)
  /\ identifiers_resolved self user_id agent_id run_id
       (delete_all_request self user_id agent_id run_id)
  /\ identifiers_resolved self user_id agent_id run_id
       (search_request self query user_id agent_id run_id filters)
  /\ (forall a b, first_nonempty a b <> Some "").
Proof.
  split; [apply add_memories_identifiers|].
  split; [apply list_memories_identifiers|].
  split; [apply delete_all_identifiers|].
  split; [apply search_identifiers|].
  intros a b. unfold first_nonempty.
  destruct a as [[|? ?]|]; destruct b as [[|? ?]|]; discriminate.
Qed.

(** X4. An empty [metadata] or [filters] dict is not sent: the request
    is the one built with None. A dict that is not empty is sent as it
    is, and the messages and the query are always there. *)
Theorem empty_dict_not_sent (self : client) (messages : list message)
    (query : string) (user_id agent_id run_id : option string)
    (d : list (string * value)) :
  add_memories_request self messages user_id agent_id run_id (Some [])
  = add_memories_request self messages user_id agent_id run_id None
  /\ search_request self query user_id agent_id run_id (Some [])
     = search_request self query user_id agent_id run_id None
  /\ (d <> [] ->
      dict_lookup
        (request_fields
           (add_memories_request self messages user_id agent_id run_id (Some d)))
        "metadata" = Some (VDict d)
      /\ dict_lookup
           (request_fields
              (search_request self query user_id agent_id run_id (Some d)))
           "filters" = Some (VDict d))
  /\ dict_lookup
       (request_fields
          (add_memories_request self messages user_id agent_id run_id (Some d)))
       "messages" = Some (VList (map message_value messages))
  /\ dict_lookup
       (request_fields
          (search_request self query user_id agent_id run_id (Some d)))
       "query" = Some (VStr query).
Proof.
  destruct self as [b du da].
  split; [reflexivity|]. split; [reflexivity|]. split; [|split].
  - intros Hd. destruct d as [|d0 d]; [congruence|].
    case_optional user_id; case_optional agent_id; case_optional run_id;
      case_optional du; case_optional da; split; reflexivity.
  - destruct d as [|d0 d];
      case_optional user_id; case_optional agent_id; case_optional run_id;
      case_optional du; case_optional da; reflexivity.
  - destruct d as [|d0 d];
      case_optional user_id; case_optional agent_id; case_optional run_id;
      case_optional du; case_optional da; reflexivity.
Qed.

Lemma empty_dict_not_sent_witness :
  dict_lookup
    (request_fields
       (add_memories_request (Client "http://127.0.0.1:8000" (Some "jose") None)
          test_messages None (Some "vera") None
          (Some [("source", VStr "local_assistant")])))
    "metadata" = Some (VDict [("source", VStr "local_assistant")]).
Proof.
  apply (proj1 (proj2 (proj2
    (empty_dict_not_sent (Client "http://127.0.0.1:8000" (Some "jose") None)
       test_messages "" None (Some "vera") None
       [("source", VStr "local_assistant")]))) ltac:(discriminate)).
Defined.

(** ** The assistant over HTTP *)

Section OverHttp.

Variable py_repr : value -> string.
Variable environ : string -> option string.
Variable transport : list http_request -> http_request -> result http_response.
Variable json_loads : string -> result value.
Variable oa_client : list event -> chat_request -> result (list (option string)).

(** A call sends one request and returns what [_handle] makes of the
    response; when the transport raises, so does the call. *)
Lemma call_method_run (self : client) (c : Mem0Client.call) (w : io) :
  call_method transport json_loads self c w
  = (rbind (transport (sent w) (call_request self c)) (_handle json_loads),
     IO (sent w ++ [call_request self c])%list (printed w)).
Proof.
  destruct c; cbn [call_method call_request];
    unfold search, add_memories, list_memories, get_memory, delete_memory,
      delete_all, hbind, send, hlift;
    match goal with |- context [transport ?h ?r] =>
      destruct (transport h r) end; reflexivity.
Qed.

Lemma mem_client_over_http_run (events : list event) (c : Mem0Client.call) :
  mem_client_over_http environ transport json_loads events c
  = rbind (transport (requests_of (mem_client_object environ) events)
             (call_request (mem_client_object environ) c))
      (_handle json_loads).
Proof. unfold mem_client_over_http. now rewrite call_method_run. Qed.

Lemma store_fails_raises (events : list event) (c : Mem0Client.call) :
  store_fails transport ->
  exists e, mem_client_over_http environ transport json_loads events c = Raise e.
Proof.
  intros Hf. rewrite mem_client_over_http_run.
  destruct (Hf (requests_of (mem_client_object environ) events)
              (call_request (mem_client_object environ) c))
    as [[e ->] | [resp [-> Hs]]].
  - now exists e.
  - destruct (raise_for_status_error resp Hs) as [message Hm].
    exists (Exn "HTTPError" message). cbn [rbind]. unfold _handle.
    now rewrite Hm.
Qed.

End OverHttp.

(** ** More on the chat turn *)

Section ChatTurnFacts.

Variable py_repr : value -> string.
Variable mem_client : list event -> Mem0Client.call -> result value.
Variable oa_client : list event -> chat_request -> result (list (option string)).

(** When the formatter raises on what the search returned, the turn
    ends there. *)
Lemma chat_once_format_raises (user_input : string) (st st1 : state)
    (results : value) (e : exn) :
  search_memories mem_client user_input st = (Ok results, st1) ->
  format_memories py_repr results 8 = Raise e ->
  chat_once py_repr mem_client oa_client user_input st = (Raise e, st1).
Proof.
  intros Hs Hf. unfold chat_once.
  unfold bind at 1. rewrite Hs.
  unfold bind at 1. unfold lift at 1. rewrite Hf. reflexivity.
Qed.

Lemma search_memories_state (user_input : string) (st st1 : state)
    (results : value) :
  search_memories mem_client user_input st = (Ok results, st1) ->
  CURRENT_AGENT_ID st1 = CURRENT_AGENT_ID st
  /\ calls st1
     = (calls st
        ++ [EMem (Mem0Client.search user_input (CURRENT_AGENT_ID st))])%list
  /\ exists out, stdout st1 = (stdout st ++ out)%list.
Proof.
  rewrite search_memories_run. cbv zeta.
  destruct (mem_client (calls st) _); intros H; injection H as _ <-;
    cbn [CURRENT_AGENT_ID calls stdout]; repeat split.
  - exists []. now rewrite app_nil_r.
  - eexists. reflexivity.
Qed.

(** Every turn starts with the search. *)
Lemma chat_once_calls_prefix (user_input : string) (st : state) :
  exists tail,
    calls (snd (chat_once py_repr mem_client oa_client user_input st))
    = (calls st
       ++ EMem (Mem0Client.search user_input (CURRENT_AGENT_ID st)) :: tail)%list.
Proof.
  destruct (search_memories_returns mem_client user_input st)
    as [results [st1 [Hs Ha]]].
  destruct (search_memories_state _ _ _ _ Hs) as [_ [Hc _]].
  destruct (format_memories py_repr results 8) as [block|e] eqn:Hf.
  - rewrite (chat_once_after_search py_repr mem_client oa_client _ _ _ _ _ Hs Hf),
      completion_run.
    destruct (oa_client (calls st1) _) as [[|answer others]|e].
    + exists [EChat (completion_request (CURRENT_AGENT_ID st1) block user_input)].
      cbn [snd chat_event calls]. now rewrite Hc, <- app_assoc.
    + destruct (store_turn_extends mem_client user_input answer
                  (chat_event st1 (completion_request (CURRENT_AGENT_ID st1)
                                     block user_input)))
        as [out [cs ->]].
      exists (EChat (completion_request (CURRENT_AGENT_ID st1) block user_input)
              :: cs).
      cbn [snd chat_event calls]. now rewrite Hc, <- !app_assoc.
    + exists [EChat (completion_request (CURRENT_AGENT_ID st1) block user_input)].
      cbn [snd chat_event calls]. now rewrite Hc, <- app_assoc.
  - rewrite (chat_once_format_raises _ _ _ _ _ Hs Hf). cbn [snd].
    exists []. exact Hc.
Qed.

(** X8. Whatever the collaborators do, [chat_once] calls them in one
    of three patterns: the search alone, when formatting its result
    raises; the search and one completion, when the completion raises
    or gives no text; the search, one completion and one add, in which
    case the answer is returned. It never stores a turn without a
    completion, and the turn is stored under the agent that was
    searched. *)
Theorem chat_once_call_pattern (user_input : string) (st : state) :
  let agent := CURRENT_AGENT_ID st in
  let final := chat_once py_repr mem_client oa_client user_input st in
  exists tail,
    calls (snd final)
    = (calls st ++ EMem (Mem0Client.search user_input agent) :: tail)%list
    /\ ((tail = [] /\ exists e, fst final = Raise e)
        \/ (exists block,
              tail = [EChat (completion_request agent block user_input)]
              /\ ((exists e, fst final = Raise e) \/ fst final = Ok None))
        \/ (exists block answer,
              tail = [EChat (completion_request agent block user_input);
                      EMem (stored_turn user_input answer agent
                              (should_store_memory user_input answer))]
              /\ fst final = Ok (Some answer))).
Proof.
  cbv zeta.
  destruct (search_memories_returns mem_client user_input st)
    as [results [st1 [Hs Ha]]].
  destruct (search_memories_state _ _ _ _ Hs) as [_ [Hc _]].
  destruct (format_memories py_repr results 8) as [block|e] eqn:Hf.
  - rewrite (chat_once_after_search py_repr mem_client oa_client _ _ _ _ _ Hs Hf), completion_run, Ha.
    set (request := completion_request (CURRENT_AGENT_ID st) block user_input).
    destruct (oa_client (calls st1) request) as [[|[a|] others]|e].
    + exists [EChat request]. cbn [snd fst chat_event calls].
      rewrite Hc, <- app_assoc. split; [reflexivity|].
      right; left. exists block. split; [reflexivity|]. left. eexists; reflexivity.
    + exists [EChat request;
              EMem (stored_turn user_input a (CURRENT_AGENT_ID st)
                      (should_store_memory user_input a))].
      rewrite store_turn_run. cbv zeta.
      cbn [chat_event CURRENT_AGENT_ID calls stdout]. rewrite Ha.
      split.
      * destruct (mem_client _ _); cbn [snd calls];
          now rewrite Hc, <- !app_assoc.
      * right; right. exists block, a. split; reflexivity.
    + exists [EChat request]. rewrite store_turn_run.
      cbn [snd fst chat_event calls].
      rewrite Hc, <- app_assoc. split; [reflexivity|].
      right; left. exists block. split; [reflexivity|]. now right.
    + exists [EChat request]. cbn [snd fst chat_event calls].
      rewrite Hc, <- app_assoc. split; [reflexivity|].
      right; left. exists block. split; [reflexivity|]. left. now exists e.
  - rewrite (chat_once_format_raises _ _ _ _ _ Hs Hf). cbn [snd fst].
    exists []. split; [exact Hc|]. left. split; [reflexivity | now exists e].
Qed.

(** X9. When the search returns a response that [format_memories]
    cannot render, [chat_once] raises the formatter's error: the turn
    is lost, and neither the completion nor the add is called. *)
Theorem chat_once_aborts_on_malformed_memories (user_input : string)
    (st : state) (res : value) (e : exn) :
  mem_client (calls st)
    (Mem0Client.search user_input (CURRENT_AGENT_ID st)) = Ok res ->
  format_memories py_repr (py_or res (VList [])) 8 = Raise e ->
  chat_once py_repr mem_client oa_client user_input st
  = (Raise e,
     State (CURRENT_AGENT_ID st) (stdout st)
       (calls st
        ++ [EMem (Mem0Client.search user_input (CURRENT_AGENT_ID st))])%list).
Proof.
  intros Hm Hf.
  apply (chat_once_format_raises _ _ _ (py_or res (VList []))); [|exact Hf].
  rewrite search_memories_run. cbv zeta. now rewrite Hm.
Qed.

(** X10. When the completion returns no choice, [chat_once] raises an
    [IndexError] and stores nothing. When the content of the first
    choice is None, [chat_once] returns None: the error raised on the
    way to the add call is printed and nothing is stored. *)
Theorem chat_once_without_answer_text (user_input : string)
    (st st1 : state) (results : value) (block : string) :
  let request := completion_request (CURRENT_AGENT_ID st) block user_input in
  search_memories mem_client user_input st = (Ok results, st1) ->
  format_memories py_repr results 8 = Ok block ->
  (oa_client (calls st1) request = Ok [] ->
   chat_once py_repr mem_client oa_client user_input st
   = (Raise (Exn "IndexError" "list index out of range"),
      chat_event st1 request))
  /\ (forall others,
        oa_client (calls st1) request = Ok (None :: others) ->
        chat_once py_repr mem_client oa_client user_input st
        = (Ok None,
           State (CURRENT_AGENT_ID st)
             (stdout st1
              ++ [("[mem0 add error] " ++ exn_str concat_none_error)%string])%list
             (calls st1 ++ [EChat request])%list)).
Proof.
  cbv zeta. intros Hs Hf.
  destruct (search_memories_state _ _ _ _ Hs) as [Ha _].
  rewrite (chat_once_after_search py_repr mem_client oa_client _ _ _ _ _ Hs Hf), completion_run, Ha.
  split.
  - intros ->. reflexivity.
  - intros others ->. rewrite store_turn_run.
    cbn [snd chat_event CURRENT_AGENT_ID stdout calls]. now rewrite Ha.
Qed.

(** The turn when the search raises: an empty memory block. *)
Lemma chat_once_search_raises (user_input : string) (st : state) (e : exn)
    (answer : option string) (others : list (option string)) :
  let agent := CURRENT_AGENT_ID st in
  let search := Mem0Client.search user_input agent in
  mem_client (calls st) search = Raise e ->
  oa_client (calls st ++ [EMem search])%list
    (completion_request agent "No memories found." user_input)
  = Ok (answer :: others) ->
  fst (chat_once py_repr mem_client oa_client user_input st) = Ok answer.
Proof.
  cbv zeta. intros He Hoa.
  assert (Hs :
    search_memories mem_client user_input st
    = (Ok (VList []),
       State (CURRENT_AGENT_ID st)
         (stdout st ++ [("[mem0 search error] " ++ exn_str e)%string])%list
         (calls st
          ++ [EMem (Mem0Client.search user_input (CURRENT_AGENT_ID st))])%list)).
  { rewrite search_memories_run. cbv zeta. now rewrite He. }
  rewrite (chat_once_after_search py_repr mem_client oa_client _ _ _ _
             "No memories found." Hs eq_refl).
  rewrite completion_run. cbn [CURRENT_AGENT_ID calls]. now rewrite Hoa.
Qed.

End ChatTurnFacts.

Lemma chat_once_aborts_on_malformed_memories_witness :
  chat_once repr_type_only mem_malformed (oa_says "Hello Jose.") "hello"
    initial_state
  = (Raise (Exn "AttributeError" "'str' object has no attribute 'get'"),
     State "vera" [] [EMem (Mem0Client.search "hello" "vera")]).
Proof.
  apply (chat_once_aborts_on_malformed_memories repr_type_only mem_malformed
           (oa_says "Hello Jose.") "hello" initial_state
           (VList [VDict [("id", VStr "m1"); ("metadata", VStr "chat")]]));
    reflexivity.
Defined.

Lemma chat_once_without_answer_text_witness :
  fst (chat_once repr_type_only mem_empty oa_no_choice "hello" initial_state)
  = Raise (Exn "IndexError" "list index out of range")
  /\ chat_once repr_type_only mem_empty oa_no_text "hello" initial_state
     = (Ok None,
        State "vera"
          [("[mem0 add error] " ++ exn_str concat_none_error)%string]
          [EMem (Mem0Client.search "hello" "vera");
           EChat (completion_request "vera" "No memories found." "hello")]).
Proof.
  split.
  - rewrite (proj1 (chat_once_without_answer_text repr_type_only mem_empty
                      oa_no_choice "hello" initial_state
                      (State "vera" [] [EMem (Mem0Client.search "hello" "vera")])
                      (VDict [("results", VList [])]) "No memories found."
                      eq_refl eq_refl) eq_refl).
    reflexivity.
  - apply (proj2 (chat_once_without_answer_text repr_type_only mem_empty
                    oa_no_text "hello" initial_state
                    (State "vera" [] [EMem (Mem0Client.search "hello" "vera")])
                    (VDict [("results", VList [])]) "No memories found."
                    eq_refl eq_refl) []).
    reflexivity.
Defined.

(** ** More on the formatter *)

Section MoreFormatterFacts.

Variable py_repr : value -> string.

Lemma rbind_raise {A B} (r : result A) (k : A -> result B) (e : exn) :
  rbind r k = Raise e ->
  r = Raise e \/ exists a, r = Ok a /\ k a = Raise e.
Proof.
  destruct r as [a|e']; cbn [rbind]; intros H.
  - right. now exists a.
  - left. now injection H as ->.
Qed.

Lemma value_get_raise (v : value) (k : string) (e : exn) :
  value_get v k = Raise e -> exn_class e = "AttributeError".
Proof. destruct v; cbn; intros H; try discriminate; now injection H as <-. Qed.

Lemma join_values_from_raise (i : nat) (l : list value) (e : exn) :
  join_values_from i l = Raise e -> exn_class e = "TypeError".
Proof.
  revert i; induction l as [|v l IH]; intros i; cbn [join_values_from];
    [discriminate|].
  destruct v; try (intros H; now injection H as <-).
  intros H. apply rbind_raise in H as [H | [ss [_ H]]]; [|discriminate].
  exact (IH _ H).
Qed.

Lemma join_values_raise (sep : string) (l : list value) (e : exn) :
  join_values sep l = Raise e -> exn_class e = "TypeError".
Proof.
  unfold join_values. intros H.
  apply rbind_raise in H as [H | [ss [_ H]]]; [|discriminate].
  exact (join_values_from_raise _ _ _ H).
Qed.

(** What the loop body can raise. *)
Lemma format_record_raise (d : list (string * value)) (e : exn) :
  format_record py_repr d = Raise e ->
  exn_class e = "AttributeError" \/ exn_class e = "TypeError".
Proof.
  unfold format_record. cbv zeta. intros H.
  apply rbind_raise in H as [H | [text [_ H]]].
  { destruct (truthy (dict_get d "text")); [discriminate|].
    destruct (truthy (dict_get d "memory")); [discriminate|].
    apply rbind_raise in H as [H | [nested [_ H]]]; [|discriminate].
    left. exact (value_get_raise _ _ _ H). }
  apply rbind_raise in H as [H | [src [_ H]]];
    [left; exact (value_get_raise _ _ _ H)|].
  apply rbind_raise in H as [H | [important [_ H]]];
    [left; exact (value_get_raise _ _ _ H)|].
  apply rbind_raise in H as [H | [prefix [_ H]]]; [|discriminate].
  match type of H with
  | (if ?b then _ else _) = _ => destruct b; [|discriminate]
  end.
  apply rbind_raise in H as [H | [joined [_ H]]]; [|discriminate].
  right. exact (join_values_raise _ _ _ H).
Qed.

Lemma format_loop_raise (items : list value) (lines : list string) (e : exn) :
  format_loop py_repr items lines = Raise e ->
  exn_class e = "AttributeError" \/ exn_class e = "TypeError".
Proof.
  revert lines; induction items as [|m items IH]; intros lines;
    cbn [format_loop]; [discriminate|].
  destruct m; try apply IH.
  intros H. apply rbind_raise in H as [H | [line [_ H]]].
  - exact (format_record_raise _ _ H).
  - exact (IH _ H).
Qed.

Lemma format_memories_raise (memories : value) (limit : Z) (e : exn) :
  format_memories py_repr memories limit = Raise e ->
  exn_class e = "AttributeError" \/ exn_class e = "TypeError".
Proof.
  unfold format_memories. cbv zeta.
  destruct (negb (truthy (VList (_normalize_mem_items memories))));
    [discriminate|].
  intros H. apply rbind_raise in H as [H | [lines [_ H]]]; [|discriminate].
  exact (format_loop_raise _ _ _ H).
Qed.

(** The loop over items of the documented shape, then over more. *)
Lemma format_loop_app (front rest : list value) (lines : list string) :
  forallb well_formed_item front = true ->
  format_loop py_repr (front ++ rest) lines
  = format_loop py_repr rest
      (lines ++ map (rendered_line py_repr) front)%list.
Proof.
  revert lines; induction front as [|m front IH]; intros lines H.
  - cbn [app map]. now rewrite app_nil_r.
  - cbn [forallb] in H. apply andb_true_iff in H as [Hm Hfront].
    cbn [app map].
    assert (Hgo :
      format_loop py_repr (front ++ rest)
        (lines ++ [rendered_line py_repr m])%list
      = format_loop py_repr rest
          (lines ++ rendered_line py_repr m
                    :: map (rendered_line py_repr) front)%list).
    { rewrite (IH _ Hfront). now rewrite <- app_assoc. }
    cbn [format_loop]. destruct m; try exact Hgo.
    cbn [well_formed_item] in Hm.
    rewrite (format_record_ok py_repr _ Hm). exact Hgo.
Qed.

(** X19. The records after the first [limit] ones are not looked at:
    what follows them, well formed or not, changes nothing. *)
Theorem format_memories_ignores_beyond_limit (front back : list value) :
  front <> [] ->
  format_memories py_repr (VList (front ++ back)) (Z.of_nat (List.length front))
  = format_memories py_repr (VList front) (Z.of_nat (List.length front)).
Proof.
  intros Hne. unfold format_memories. cbn [_normalize_mem_items].
  destruct front as [|m front]; [congruence|].
  cbn [app truthy negb].
  rewrite !slice_to_nonneg by lia. rewrite Nat2Z.id.
  change (m :: (front ++ back)%list) with ((m :: front) ++ back)%list.
  rewrite firstn_app, Nat.sub_diag, firstn_all. cbn [firstn].
  now rewrite app_nil_r.
Qed.

(** X20. A limit that selects no item of a result that is not empty,
    zero or a negative one that reaches the start of the list, gives
    the empty string, not the text "No memories found.". *)
Theorem format_memories_limit_selects_none (memories : value) (limit : Z) :
  _normalize_mem_items memories <> [] ->
  (limit = 0 \/ limit + Z.of_nat (List.length (_normalize_mem_items memories)) <= 0)%Z ->
  format_memories py_repr memories limit = Ok "".
Proof.
  intros Hne Hl. unfold format_memories. cbv zeta.
  destruct (_normalize_mem_items memories) as [|m items] eqn:E; [congruence|].
  cbn [truthy negb].
  assert (Hs : slice_to (m :: items) limit = []).
  { unfold slice_to. destruct (Z.ltb_spec limit 0).
    - destruct Hl as [-> | Hl]; [lia|].
      replace (Z.to_nat (Z.max 0 (Z.of_nat (List.length (m :: items)) + limit)))
        with 0%nat by lia.
      reflexivity.
    - destruct Hl as [-> | Hl]; [reflexivity|].
      cbn [List.length] in Hl. lia. }
  rewrite Hs. reflexivity.
Qed.

(** X21. One record that the loop body cannot render fails the whole
    listing: when it is among the items rendered and the ones before
    it are well formed, [format_memories] raises its error, and the
    lines of the records before it are lost. *)
Theorem format_memories_fails_on_first_bad_record
    (front back : list value) (d : list (string * value)) (e : exn)
    (limit : Z) :
  forallb well_formed_item front = true ->
  format_record py_repr d = Raise e ->
  (Z.of_nat (List.length front) < limit)%Z ->
  format_memories py_repr (VList (front ++ VDict d :: back)) limit = Raise e
  /\ (exn_class e = "AttributeError" \/ exn_class e = "TypeError").
Proof.
  intros Hwf Hd Hl. split; [|exact (format_record_raise _ _ Hd)].
  unfold format_memories. cbn [_normalize_mem_items].
  assert (Hne : negb (truthy (VList (front ++ VDict d :: back))) = false)
    by (destruct front; reflexivity).
  rewrite Hne. rewrite slice_to_nonneg by lia.
  rewrite firstn_app.
  replace (Z.to_nat limit - List.length front)
    with (S (Z.to_nat limit - List.length front - 1)) by lia.
  rewrite firstn_all2 by lia. cbn [firstn].
  rewrite (format_loop_app _ _ _ Hwf). cbn [format_loop]. now rewrite Hd.
Qed.

End MoreFormatterFacts.

Lemma format_memories_ignores_beyond_limit_witness :
  format_memories repr_type_only
    (VList ([VStr "a note"]
            ++ [VDict [("id", VStr "m1"); ("metadata", VStr "chat")]])) 1
  = Ok "a note".
Proof.
  transitivity (format_memories repr_type_only (VList [VStr "a note"]) 1);
    [|reflexivity].
  exact (format_memories_ignores_beyond_limit repr_type_only [VStr "a note"]
           [VDict [("id", VStr "m1"); ("metadata", VStr "chat")]]
           ltac:(discriminate)).
Defined.

Lemma format_memories_limit_selects_none_witness :
  format_memories repr_type_only (VList [VStr "a"; VStr "b"]) 0 = Ok ""
  /\ format_memories repr_type_only (VList [VStr "a"; VStr "b"]) (-2) = Ok "".
Proof.
  split.
  - apply format_memories_limit_selects_none; [discriminate | now left].
  - apply format_memories_limit_selects_none; [discriminate | right; simpl; lia].
Defined.

Lemma format_memories_fails_on_first_bad_record_witness :
  format_memories repr_type_only
    (VList ([example_record]
            ++ VDict [("id", VStr "m2"); ("metadata", VStr "chat")]
               :: [VStr "a note"])) 30
  = Raise (Exn "AttributeError" "'str' object has no attribute 'get'").
Proof.
  apply (proj1 (format_memories_fails_on_first_bad_record repr_type_only
                  [example_record] [VStr "a note"]
                  [("id", VStr "m2"); ("metadata", VStr "chat")] _ 30
                  eq_refl eq_refl ltac:(simpl; lia))).
Defined.

(** ** More on the command handlers *)

Section MoreCommandFacts.

Import PyStr.

Variable py_repr : value -> string.
Variable mem_client : list event -> Mem0Client.call -> result value.

(** What a "/mem" line comes to: no call at all; or one call, whose
    result or error is reported in a message; or one call that returns
    and whose result goes through the formatter. *)
Lemma handle_mem_command_outcome (cmd : string) (st : state) :
  let after c :=
    State (CURRENT_AGENT_ID st) (stdout st) (calls st ++ [EMem c])%list in
  (exists s, handle_mem_command py_repr mem_client cmd st = (Ok s, st))
  \/ (exists c s,
        handle_mem_command py_repr mem_client cmd st = (Ok s, after c))
  \/ (exists c res limit,
        mem_client (calls st) c = Ok res
        /\ handle_mem_command py_repr mem_client cmd st
           = (format_memories py_repr res limit, after c)).
Proof.
  cbv zeta. unfold handle_mem_command. cbv zeta.
  destruct (split (strip cmd) 2) as [|p0 [|p1 [|p2 more]]];
    cbn [List.length Nat.eqb Nat.leb];
    unfold bind, lift, ret, attempt, call_mem, get_CURRENT_AGENT_ID;
    cbn [list_index nth_error];
    repeat match goal with
           | |- context [String.eqb (lower ?a) ?b] =>
               destruct (String.eqb (lower a) b)
           end;
    try match goal with
        | |- context [mem_client ?h ?c] => destruct (mem_client h c) eqn:?
        end;
    first [ left; eexists; reflexivity
          | right; left; do 2 eexists; reflexivity
          | right; right; do 3 eexists; split; [eassumption | reflexivity] ].
Qed.

(** X11. [handle_mem_command] never lets an error of the memory store
    out: whatever the store does, the only exceptions it can raise are
    the [AttributeError] and the [TypeError] of [format_memories] on a
    response that was received. No line makes it raise an
    [IndexError]. *)
Theorem handle_mem_command_raises_only_from_formatter (cmd : string)
    (st : state) (e : exn) :
  fst (handle_mem_command py_repr mem_client cmd st) = Raise e ->
  (exn_class e = "AttributeError" \/ exn_class e = "TypeError")
  /\ exists c res limit,
       mem_client (calls st) c = Ok res
       /\ format_memories py_repr res limit = Raise e.
Proof.
  destruct (handle_mem_command_outcome cmd st)
    as [[s ->] | [[c [s ->]] | [c [res [limit [Hm ->]]]]]];
    cbn [fst]; try discriminate.
  intros H. split; [exact (format_memories_raise _ _ _ _ H)|].
  now exists c, res, limit.
Qed.

(** X12. [handle_mem_command] prints nothing, leaves the agent as it
    is and makes at most one call, on the memory store: never one on
    the completion service. *)
Theorem handle_mem_command_at_most_one_call (cmd : string) (st : state) :
  exists cs,
    snd (handle_mem_command py_repr mem_client cmd st)
    = State (CURRENT_AGENT_ID st) (stdout st) (calls st ++ cs)%list
    /\ (cs = [] \/ exists c, cs = [EMem c]).
Proof.
  destruct (handle_mem_command_outcome cmd st)
    as [[s ->] | [[c [s ->]] | [c [res [limit [Hm ->]]]]]]; cbn [snd].
  - exists []. rewrite app_nil_r. split; [now destruct st | now left].
  - exists [EMem c]. split; [reflexivity | right; now exists c].
  - exists [EMem c]. split; [reflexivity | right; now exists c].
Qed.

Lemma split_one_word (w0 head w1 : string) :
  all_space w0 = true -> no_space head = true -> head <> "" ->
  all_space w1 = true ->
  forall k, split (strip (w0 ++ head ++ w1)) (S k) = [head].
Proof.
  intros Hw0 Hh Hne Hw1 k.
  rewrite (strip_all_space_prefix _ _ Hw0).
  rewrite (split_strip_word head w1 k Hh Hne (all_space_word_end _ Hw1)).
  rewrite (strip_all_space _ Hw1). now destruct k.
Qed.

(** X15. A line of one word, whatever the word, lists the memories of
    the current agent, formatted with limit 30; an error of the store
    comes back as the message "[mem0 list error] ...". *)
Theorem mem_one_word_lists (st : state) (w0 head w1 : string) :
  all_space w0 = true -> no_space head = true -> head <> "" ->
  all_space w1 = true ->
  handle_mem_command py_repr mem_client (w0 ++ head ++ w1) st
  = (match mem_client (calls st)
             (Mem0Client.list_memories (CURRENT_AGENT_ID st)) with
     | Ok res => format_memories py_repr res 30
     | Raise e => Ok ("[mem0 list error] " ++ exn_str e)
     end,
     State (CURRENT_AGENT_ID st) (stdout st)
       (calls st ++ [EMem (Mem0Client.list_memories (CURRENT_AGENT_ID st))])%list).
Proof.
  intros Hw0 Hh Hne Hw1. unfold handle_mem_command. cbv zeta.
  rewrite (split_one_word _ _ _ Hw0 Hh Hne Hw1 1).
  cbn [List.length Nat.eqb].
  unfold bind, attempt, get_CURRENT_AGENT_ID, call_mem, ret, lift.
  destruct (mem_client (calls st) _); reflexivity.
Qed.

(** X13. "clear" as second word deletes all the memories of the current
    agent whatever the first word is and whatever follows: what comes
    after "clear" is not looked at. *)
Theorem mem_clear_ignores_the_rest (st : state) (head w sub rest : string) :
  no_space head = true -> head <> "" ->
  all_space w = true -> w <> "" ->
  no_space sub = true -> lower sub = "clear" -> word_end rest ->
  handle_mem_command py_repr mem_client (head ++ w ++ sub ++ rest) st
  = (match mem_client (calls st)
             (Mem0Client.delete_all (CURRENT_AGENT_ID st)) with
     | Ok res =>
         Ok ("Cleared all memories for agent '" ++ CURRENT_AGENT_ID st
             ++ "': " ++ py_str py_repr res)
     | Raise e => Ok ("[mem0 clear error] " ++ exn_str e)
     end,
     State (CURRENT_AGENT_ID st) (stdout st)
       (calls st ++ [EMem (Mem0Client.delete_all (CURRENT_AGENT_ID st))])%list).
Proof.
  intros Hh Hhne Hw Hwne Hs Hsub Hrest.
  assert (Hsne : sub <> "") by (intros ->; discriminate Hsub).
  unfold handle_mem_command. cbv zeta.
  rewrite (split_two_words head w sub rest Hh Hhne Hw Hwne Hs Hsne Hrest).
  destruct (is_empty (strip rest));
    cbn [List.length Nat.eqb Nat.leb];
    unfold bind, lift, ret, attempt, call_mem, get_CURRENT_AGENT_ID;
    cbn [list_index nth_error]; rewrite Hsub;
    change ("clear" =? "search") with false;
    change ("clear" =? "show") with false;
    change ("clear" =? "delete") with false;
    change ("clear" =? "clear") with true; cbv beta iota;
    cbn [CURRENT_AGENT_ID stdout calls];
    destruct (mem_client (calls st) _); reflexivity.
Qed.

(** X14. "show" and "delete" take as identifier what follows the
    subcommand, white space inside it kept; without one they return
    their usage line and make no call. *)
Theorem mem_show_and_delete (st : state) (head w1 w2 id : string) :
  no_space head = true -> head <> "" ->
  all_space w1 = true -> w1 <> "" -> all_space w2 = true ->
  (w2 <> "" -> strip id = id -> id <> "" ->
   handle_mem_command py_repr mem_client (head ++ w1 ++ "show" ++ w2 ++ id) st
   = (match mem_client (calls st) (Mem0Client.get_memory id) with
      | Ok m => format_memories py_repr m 1
      | Raise e => Ok ("[mem0 get error] " ++ exn_str e)
      end,
      State (CURRENT_AGENT_ID st) (stdout st)
        (calls st ++ [EMem (Mem0Client.get_memory id)])%list)
   /\ handle_mem_command py_repr mem_client
        (head ++ w1 ++ "delete" ++ w2 ++ id) st
      = (match mem_client (calls st) (Mem0Client.delete_memory id) with
         | Ok res =>
             Ok ("Deleted memory " ++ id ++ ": " ++ py_str py_repr res)
         | Raise e => Ok ("[mem0 delete error] " ++ exn_str e)
         end,
         State (CURRENT_AGENT_ID st) (stdout st)
           (calls st ++ [EMem (Mem0Client.delete_memory id)])%list))
  /\ handle_mem_command py_repr mem_client (head ++ w1 ++ "show" ++ w2) st
     = (Ok "Usage: /mem show <memory_id>", st)
  /\ handle_mem_command py_repr mem_client (head ++ w1 ++ "delete" ++ w2) st
     = (Ok "Usage: /mem delete <memory_id>", st).
Proof.
  intros Hh Hhne Hw1 Hw1ne Hw2.
  split; [|split].
  - intros Hw2ne Hid Hidne.
    assert (Hparts : forall sub,
      no_space sub = true -> sub <> "" ->
      split (strip (head ++ w1 ++ sub ++ w2 ++ id)) 2 = [head; sub; id]).
    { intros sub Hs Hsne.
      rewrite (split_two_words head w1 sub (w2 ++ id) Hh Hhne Hw1 Hw1ne Hs Hsne
                 (word_end_all_space _ _ Hw2 Hw2ne)).
      rewrite (strip_all_space_prefix _ _ Hw2), Hid.
      apply is_empty_false in Hidne. now rewrite Hidne. }
    split; unfold handle_mem_command; cbv zeta;
      rewrite Hparts by (reflexivity || discriminate);
      cbn [List.length Nat.eqb Nat.leb];
      unfold bind, lift, ret, attempt, call_mem, get_CURRENT_AGENT_ID;
      cbn [list_index nth_error];
      [ change (lower "show" =? "search") with false;
        change (lower "show" =? "show") with true
      | change (lower "delete" =? "search") with false;
        change (lower "delete" =? "show") with false;
        change (lower "delete" =? "delete") with true ];
      cbv beta iota; cbn [CURRENT_AGENT_ID stdout calls];
      destruct (mem_client (calls st) _); reflexivity.
  - unfold handle_mem_command. cbv zeta.
    rewrite (split_two_words head w1 "show" w2 Hh Hhne Hw1 Hw1ne eq_refl
               ltac:(discriminate) (all_space_word_end _ Hw2)).
    rewrite (strip_all_space _ Hw2). reflexivity.
  - unfold handle_mem_command. cbv zeta.
    rewrite (split_two_words head w1 "delete" w2 Hh Hhne Hw1 Hw1ne eq_refl
               ltac:(discriminate) (all_space_word_end _ Hw2)).
    rewrite (strip_all_space _ Hw2). reflexivity.
Qed.

(** X17. On a line that is empty or blank the two handlers part ways:
    [handle_mem_command] returns the list of the "/mem" forms and makes
    no call, [handle_agent_command] raises an [IndexError]. Both leave
    the state as it was. *)
Theorem handlers_on_blank_line (st : state) (w : string) :
  all_space w = true ->
  handle_mem_command py_repr mem_client w st = (Ok mem_usage, st)
  /\ handle_agent_command w st
     = (Raise (Exn "IndexError" "list index out of range"), st).
Proof.
  intros Hw. unfold handle_mem_command, handle_agent_command. cbv zeta.
  rewrite (strip_all_space _ Hw). split; reflexivity.
Qed.

Lemma handle_agent_command_two_items (st : state) (head w name : string) :
  no_space head = true -> head <> "" ->
  all_space w = true -> w <> "" -> strip name <> "" ->
  handle_agent_command (head ++ w ++ name) st
  = (Ok ("Switched agent to: " ++ strip name),
     State (strip name) (stdout st) (calls st)).
Proof.
  intros Hh Hhne Hw Hwne Hname. unfold handle_agent_command. cbv zeta.
  rewrite (split_strip_word head (w ++ name) 0 Hh Hhne
             (word_end_all_space _ _ Hw Hwne)).
  rewrite split_strip_0, (strip_all_space_prefix _ _ Hw).
  apply is_empty_false in Hname. rewrite Hname.
  cbn [List.length Nat.eqb]. unfold bind at 1. unfold lift at 1.
  cbn [list_index nth_error]. rewrite strip_idem, Hname. reflexivity.
Qed.

(** X16. Switching and asking round-trip: after a line of a first
    word, whatever it is, and a name that is not blank, "/agent"
    reports that name stripped; the same line again changes nothing;
    and the switch neither prints nor calls a collaborator. *)
Theorem agent_switch_round_trip (st : state) (head w name : string) :
  no_space head = true -> head <> "" ->
  all_space w = true -> w <> "" -> strip name <> "" ->
  let st' := snd (handle_agent_command (head ++ w ++ name) st) in
  handle_agent_command "/agent" st'
  = (Ok ("Current agent: " ++ strip name), st')
  /\ handle_agent_command (head ++ w ++ name) st'
     = (Ok ("Switched agent to: " ++ strip name), st')
  /\ stdout st' = stdout st /\ calls st' = calls st.
Proof.
  intros Hh Hhne Hw Hwne Hname. cbv zeta.
  rewrite (handle_agent_command_two_items st _ _ _ Hh Hhne Hw Hwne Hname).
  cbn [snd]. split; [reflexivity|]. split; [|split; reflexivity].
  now rewrite (handle_agent_command_two_items _ _ _ _ Hh Hhne Hw Hwne Hname).
Qed.

End MoreCommandFacts.

Lemma handle_mem_command_raises_only_from_formatter_witness :
  exn_class (Exn "AttributeError" "'str' object has no attribute 'get'")
  = "AttributeError"
  \/ exn_class (Exn "AttributeError" "'str' object has no attribute 'get'")
     = "TypeError".
Proof.
  apply (proj1 (handle_mem_command_raises_only_from_formatter repr_type_only
                  mem_malformed "/mem search cats" initial_state _ eq_refl)).
Defined.

Lemma mem_one_word_lists_witness :
  handle_mem_command repr_type_only mem_down " /memories " initial_state
  = (Ok "[mem0 list error] connection refused",
     State "vera" [] [EMem (Mem0Client.list_memories "vera")]).
Proof.
  apply (mem_one_word_lists repr_type_only mem_down initial_state
           " " "/memories" " "); [reflexivity | reflexivity | discriminate
                                 | reflexivity].
Defined.

Lemma mem_clear_ignores_the_rest_witness :
  handle_mem_command repr_type_only mem_empty "/memo CLEAR nothing please"
    initial_state
  = (Ok "Cleared all memories for agent 'vera': <dict>",
     State "vera" [] [EMem (Mem0Client.delete_all "vera")]).
Proof.
  apply (mem_clear_ignores_the_rest repr_type_only mem_empty initial_state
           "/memo" " " "CLEAR" " nothing please");
    [reflexivity | discriminate | reflexivity | discriminate | reflexivity
    | reflexivity |].
  right. now exists " "%char, "nothing please".
Defined.

Lemma mem_show_and_delete_witness :
  handle_mem_command repr_type_only mem_down "/mem delete my  id" initial_state
  = (Ok "[mem0 delete error] connection refused",
     State "vera" [] [EMem (Mem0Client.delete_memory "my  id")])
  /\ handle_mem_command repr_type_only mem_down "/mem show " initial_state
     = (Ok "Usage: /mem show <memory_id>", initial_state).
Proof.
  split.
  - apply (proj2 (proj1 (mem_show_and_delete repr_type_only mem_down
                           initial_state "/mem" " " " " "my  id" eq_refl
                           ltac:(discriminate) eq_refl ltac:(discriminate)
                           eq_refl)
                    ltac:(discriminate) eq_refl ltac:(discriminate))).
  - apply (proj1 (proj2 (mem_show_and_delete repr_type_only mem_down
                           initial_state "/mem" " " " " "" eq_refl
                           ltac:(discriminate) eq_refl ltac:(discriminate)
                           eq_refl))).
Defined.

Lemma handlers_on_blank_line_witness :
  handle_mem_command repr_type_only mem_down "  " initial_state
  = (Ok mem_usage, initial_state)
  /\ handle_agent_command "  " initial_state
     = (Raise (Exn "IndexError" "list index out of range"), initial_state).
Proof.
  apply (handlers_on_blank_line repr_type_only mem_down initial_state "  ").
  reflexivity.
Defined.

Lemma agent_switch_round_trip_witness :
  handle_agent_command "/agent"
    (snd (handle_agent_command "/agents nova prime " initial_state))
  = (Ok "Current agent: nova prime", State "nova prime" [] []).
Proof.
  apply (proj1 (agent_switch_round_trip initial_state "/agents" " "
                  "nova prime " eq_refl ltac:(discriminate) eq_refl
                  ltac:(discriminate) ltac:(discriminate))).
Defined.

(** ** More on the heuristic *)

Lemma should_store_memory_keyword (k user_input answer : string) :
  In k keywords ->
  PyStr.contains (PyStr.lower (user_input ++ " " ++ answer)) k = true ->
  should_store_memory user_input answer = true.
Proof.
  intros Hin Hk. unfold should_store_memory.
  assert (Hex :
    existsb
      (fun k => PyStr.contains (PyStr.lower (user_input ++ " " ++ answer)) k)
      keywords = true).
  { apply existsb_exists. now exists k. }
  now rewrite Hex.
Qed.

(** X22. A keyword in the answer alone marks the turn important, as
    does one inside a longer word, in any case; and the keyword
    "note this" is also found across the seam, when the input ends with
    "note" and the answer starts with "this". *)
Theorem should_store_memory_false_positives (k user_input answer : string) :
  (In k keywords ->
   occurs_in k (PyStr.lower user_input) \/ occurs_in k (PyStr.lower answer) ->
   should_store_memory user_input answer = true)
  /\ should_store_memory (user_input ++ "Note") ("THIS" ++ answer) = true.
Proof.
  split.
  - intros Hin H. apply (should_store_memory_keyword k); [exact Hin|].
    rewrite !lower_append. apply contains_spec.
    destruct H as [[a [b ->]] | [a [b ->]]].
    + exists a, (b ++ PyStr.lower " " ++ PyStr.lower answer).
      now rewrite !append_assoc.
    + exists (PyStr.lower user_input ++ PyStr.lower " " ++ a), b.
      now rewrite !append_assoc.
  - apply (should_store_memory_keyword "note this");
      [cbn; tauto|].
    rewrite !lower_append. apply contains_spec.
    exists (PyStr.lower user_input), (PyStr.lower answer).
    rewrite !append_assoc. reflexivity.
Qed.

Lemma should_store_memory_false_positives_witness :
  should_store_memory "Who won?" "The goalkeeper saved it." = true.
Proof.
  apply (proj1 (should_store_memory_false_positives "goal" "Who won?"
                  "The goalkeeper saved it."));
    [cbn; tauto|].
  right. now exists "the ", "keeper saved it.".
Defined.

(** ** The assistant and the store on the wire *)

Section OnTheWire.

Variable py_repr : value -> string.
Variable environ : string -> option string.
Variable transport : list http_request -> http_request -> result http_response.
Variable json_loads : string -> result value.
Variable oa_client : list event -> chat_request -> result (list (option string)).

(** X5. A store that fails on every request, unreachable or answering
    with a status from 400 to 599, never fails the assistant: the chat
    turn goes to the completion with the block "No memories found."
    and returns its answer, and every "/mem" line returns a string. *)
Theorem store_failure_is_tolerated (user_input cmd : string) (st : state)
    (answer : option string) (others : list (option string)) :
  let mem_client := mem_client_over_http environ transport json_loads in
  let agent := CURRENT_AGENT_ID st in
  store_fails transport ->
  (oa_client (calls st ++ [EMem (Mem0Client.search user_input agent)])%list
     (completion_request agent "No memories found." user_input)
   = Ok (answer :: others) ->
   fst (chat_once py_repr mem_client oa_client user_input st) = Ok answer)
  /\ exists s,
       fst (handle_mem_command py_repr mem_client cmd st) = Ok s.
Proof.
  cbv zeta. intros Hf. split.
  - intros Hoa.
    destruct (store_fails_raises environ transport json_loads (calls st)
                (Mem0Client.search user_input (CURRENT_AGENT_ID st)) Hf)
      as [e He].
    exact (chat_once_search_raises py_repr _ oa_client user_input st e
             answer others He Hoa).
  - destruct (handle_mem_command_outcome py_repr
                (mem_client_over_http environ transport json_loads) cmd st)
      as [[s ->] | [[c [s ->]] | [c [res [limit [Hm _]]]]]].
    + now exists s.
    + now exists s.
    + destruct (store_fails_raises environ transport json_loads (calls st) c Hf)
        as [e He].
      rewrite He in Hm. discriminate.
Qed.

(** X6. With the client of the assistant and an agent that is named,
    the requests of search, add, list and delete-all carry the user
    "jose" and the active agent, and nothing else but their own
    arguments; the requests of show and delete carry no identifier at
    all, so a memory is fetched or deleted by its id whatever the
    agent. *)
Theorem assistant_requests_scope (agent query memory_id : string)
    (messages : list message) (metadata : list (string * value)) :
  let self := mem_client_object environ in
  agent <> "" ->
  request_fields (call_request self (Mem0Client.search query agent))
  = [("query", VStr query); ("user_id", VStr "jose"); ("agent_id", VStr agent)]
  /\ (metadata <> [] ->
      request_fields
        (call_request self (Mem0Client.add_memories messages agent metadata))
      = [("messages", VList (map message_value messages));
         ("user_id", VStr "jose"); ("agent_id", VStr agent);
         ("metadata", VDict metadata)])
  /\ request_fields (call_request self (Mem0Client.list_memories agent))
     = [("user_id", VStr "jose"); ("agent_id", VStr agent)]
  /\ request_fields (call_request self (Mem0Client.delete_all agent))
     = [("user_id", VStr "jose"); ("agent_id", VStr agent)]
  /\ request_fields (call_request self (Mem0Client.get_memory memory_id)) = []
  /\ request_fields (call_request self (Mem0Client.delete_memory memory_id))
     = [].
Proof.
  cbv zeta. intros Hne.
  destruct agent as [|c agent]; [congruence|].
  split; [reflexivity|]. split; [|repeat split].
  intros Hmd. destruct metadata as [|m0 metadata]; [congruence|]. reflexivity.
Qed.

End OnTheWire.

Lemma store_fails_500 : store_fails transport_500.
Proof.
  intros h req. right. eexists. split; [reflexivity|]. simpl. lia.
Qed.

Lemma store_failure_is_tolerated_witness :
  fst (chat_once repr_type_only
         (mem_client_over_http environ_empty transport_500 json_loads_stub)
         (oa_says "Hello Jose.") "hello" initial_state)
  = Ok (Some "Hello Jose.")
  /\ exists s,
       fst (handle_mem_command repr_type_only
              (mem_client_over_http environ_empty transport_500 json_loads_stub)
              "/mem show m1" initial_state)
       = Ok s.
Proof.
  destruct (store_failure_is_tolerated repr_type_only environ_empty
              transport_500 json_loads_stub (oa_says "Hello Jose.")
              "hello" "/mem show m1" initial_state (Some "Hello Jose.") []
              store_fails_500) as [Hchat Hmem].
  split; [exact (Hchat eq_refl) | exact Hmem].
Defined.

Lemma assistant_requests_scope_witness :
  request_fields
    (call_request (mem_client_object environ_empty)
       (stored_turn "hello" "Hello Jose." "vera" false))
  = [("messages",
      VList [VDict [("role", VStr "user"); ("content", VStr "hello")];
             VDict [("role", VStr "assistant");
                    ("content", VStr "Hello Jose.")]]);
     ("user_id", VStr "jose"); ("agent_id", VStr "vera");
     ("metadata",
      VDict [("source", VStr "local_assistant"); ("important", VBool false)])].
Proof.
  apply (proj1 (proj2 (assistant_requests_scope environ_empty "vera" "" ""
                         [Message "user" "hello";
                          Message "assistant" "Hello Jose."]
                         [("source", VStr "local_assistant");
                          ("important", VBool false)]
                         ltac:(discriminate))) ltac:(discriminate)).
Defined.

(** ** Relations the computations preserve *)

Section Preserves.

Variable R : state -> state -> Prop.
Hypothesis R_refl : forall st, R st st.
Hypothesis R_trans : forall a b c, R a b -> R b c -> R a c.

Lemma preserves_ret {A} (a : A) : preserves R (ret a).
Proof. intros st. apply R_refl. Qed.

Lemma preserves_lift {A} (r : result A) : preserves R (lift r).
Proof. intros st. apply R_refl. Qed.

Lemma preserves_get : preserves R get_CURRENT_AGENT_ID.
Proof. intros st. apply R_refl. Qed.

Lemma preserves_bind {A B} (m : M A) (k : A -> M B) :
  preserves R m -> (forall a, preserves R (k a)) -> preserves R (bind m k).
Proof.
  intros Hm Hk st. unfold bind. specialize (Hm st).
  destruct (m st) as [[a|e] st1]; cbn [snd] in *.
  - exact (R_trans _ _ _ Hm (Hk a st1)).
  - exact Hm.
Qed.

Lemma preserves_try_except {A} (body : M A) (handler : exn -> M A) :
  preserves R body -> (forall e, preserves R (handler e)) ->
  preserves R (try_except body handler).
Proof.
  intros Hm Hk st. unfold try_except. specialize (Hm st).
  destruct (body st) as [[a|e] st1]; cbn [snd] in *.
  - exact Hm.
  - exact (R_trans _ _ _ Hm (Hk e st1)).
Qed.

Lemma preserves_attempt {A} (body : M A) :
  preserves R body -> preserves R (attempt body).
Proof.
  intros Hm st. unfold attempt. specialize (Hm st).
  now destruct (body st) as [r st1].
Qed.

End Preserves.

Lemma extends_refl (st : state) : extends st st.
Proof. exists [], []. now rewrite !app_nil_r. Qed.

Lemma extends_trans (a b c : state) : extends a b -> extends b c -> extends a c.
Proof.
  intros [o1 [c1 [Ho1 Hc1]]] [o2 [c2 [Ho2 Hc2]]].
  exists (o1 ++ o2)%list, (c1 ++ c2)%list.
  rewrite Ho2, Hc2, Ho1, Hc1, !app_assoc. split; reflexivity.
Qed.

Lemma stays_named_refl (st : state) : stays_named st st.
Proof. intros H. exact H. Qed.

Lemma stays_named_trans (a b c : state) :
  stays_named a b -> stays_named b c -> stays_named a c.
Proof. unfold stays_named. auto. Qed.

Lemma same_chats_refl (st : state) : same_chats st st.
Proof. reflexivity. Qed.

Lemma same_chats_trans (a b c : state) :
  same_chats a b -> same_chats b c -> same_chats a c.
Proof. unfold same_chats. congruence. Qed.

Lemma extends_print (line : string) : preserves extends (print line).
Proof. intros st. exists [line], []. cbn. now rewrite app_nil_r. Qed.

Lemma extends_set (a : string) : preserves extends (set_CURRENT_AGENT_ID a).
Proof. intros st. exists [], []. cbn. now rewrite !app_nil_r. Qed.

Lemma extends_call_mem mem_client (c : Mem0Client.call) :
  preserves extends (call_mem mem_client c).
Proof. intros st. exists [], [EMem c]. cbn. now rewrite app_nil_r. Qed.

Lemma extends_call_chat oa_client (r : chat_request) :
  preserves extends (call_chat oa_client r).
Proof. intros st. exists [], [EChat r]. cbn. now rewrite app_nil_r. Qed.

Lemma same_chats_print (line : string) : preserves same_chats (print line).
Proof. intros st. reflexivity. Qed.

Lemma same_chats_set (a : string) :
  preserves same_chats (set_CURRENT_AGENT_ID a).
Proof. intros st. reflexivity. Qed.

Lemma same_chats_call_mem mem_client (c : Mem0Client.call) :
  preserves same_chats (call_mem mem_client c).
Proof.
  intros st. unfold same_chats. cbn [snd call_mem calls].
  rewrite filter_app. cbn. now rewrite app_nil_r.
Qed.

Lemma keeps_agent_stays_named {A} (m : M A) :
  keeps_agent m -> preserves stays_named m.
Proof. intros H st Hn. unfold agent_named in *. now rewrite H. Qed.

Create HintDb extends_db.
#[export] Hint Resolve extends_print extends_set extends_call_mem
  extends_call_chat : extends_db.
#[export] Hint Extern 1 (preserves extends (ret _)) =>
  apply (preserves_ret extends extends_refl) : extends_db.
#[export] Hint Extern 1 (preserves extends (lift _)) =>
  apply (preserves_lift extends extends_refl) : extends_db.
#[export] Hint Extern 1 (preserves extends get_CURRENT_AGENT_ID) =>
  apply (preserves_get extends extends_refl) : extends_db.

Create HintDb chats_db.
#[export] Hint Resolve same_chats_print same_chats_set same_chats_call_mem
  : chats_db.
#[export] Hint Extern 1 (preserves same_chats (ret _)) =>
  apply (preserves_ret same_chats same_chats_refl) : chats_db.
#[export] Hint Extern 1 (preserves same_chats (lift _)) =>
  apply (preserves_lift same_chats same_chats_refl) : chats_db.
#[export] Hint Extern 1 (preserves same_chats get_CURRENT_AGENT_ID) =>
  apply (preserves_get same_chats same_chats_refl) : chats_db.

(** Walks down a computation for a relation that is a preorder. *)
Ltac preserves_step Htrans leaf :=
  match goal with
  | |- preserves _ (bind _ _) =>
      apply (preserves_bind _ Htrans); [|intro]
  | |- preserves _ (try_except _ _) =>
      apply (preserves_try_except _ Htrans); [|intro]
  | |- preserves _ (attempt _) => apply (preserves_attempt _)
  | |- preserves _ (match ?a with Some _ => _ | None => _ end) => destruct a
  | |- preserves _ (if ?b then _ else _) => destruct b
  | |- preserves _ (match ?r with Ok _ => _ | Raise _ => _ end) => destruct r
  | |- preserves _ _ => solve [leaf]
  | |- preserves _ _ => progress cbv zeta
  end.

Section HandlersPreserve.

Variable py_repr : value -> string.
Variable mem_client : list event -> Mem0Client.call -> result value.
Variable oa_client : list event -> chat_request -> result (list (option string)).

Lemma chat_once_extends (user_input : string) :
  preserves extends (chat_once py_repr mem_client oa_client user_input).
Proof.
  unfold chat_once, search_memories, store_turn.
  repeat preserves_step extends_trans
    ltac:(auto with extends_db).
Qed.

Lemma handle_mem_command_extends (cmd : string) :
  preserves extends (handle_mem_command py_repr mem_client cmd).
Proof.
  unfold handle_mem_command. cbv zeta.
  repeat preserves_step extends_trans
    ltac:(auto with extends_db).
Qed.

Lemma handle_mem_command_same_chats (cmd : string) :
  preserves same_chats (handle_mem_command py_repr mem_client cmd).
Proof.
  unfold handle_mem_command. cbv zeta.
  repeat preserves_step same_chats_trans
    ltac:(auto with chats_db).
Qed.

Lemma handle_agent_command_outcome (cmd : string) (st : state) :
  snd (handle_agent_command cmd st) = st
  \/ exists name,
       name <> ""
       /\ snd (handle_agent_command cmd st)
          = State name (stdout st) (calls st).
Proof.
  unfold handle_agent_command. cbv zeta.
  destruct (PyStr.split (PyStr.strip cmd) 1) as [|p0 [|p1 more]];
    [left; reflexivity | left; reflexivity |].
  cbn [List.length Nat.eqb].
  unfold bind, lift, ret, set_CURRENT_AGENT_ID, get_CURRENT_AGENT_ID.
  cbn [list_index nth_error].
  destruct (PyStr.is_empty (PyStr.strip p1)) eqn:E; [left; reflexivity|].
  right. exists (PyStr.strip p1).
  split; [now apply is_empty_false | reflexivity].
Qed.

Lemma handle_agent_command_extends (cmd : string) :
  preserves extends (handle_agent_command cmd).
Proof.
  intros st. destruct (handle_agent_command_outcome cmd st)
    as [-> | [name [_ ->]]]; [apply extends_refl|].
  exists [], []. cbn. now rewrite !app_nil_r.
Qed.

Lemma handle_agent_command_same_chats (cmd : string) :
  preserves same_chats (handle_agent_command cmd).
Proof.
  intros st. destruct (handle_agent_command_outcome cmd st)
    as [-> | [name [_ ->]]]; reflexivity.
Qed.

Lemma handle_agent_command_stays_named (cmd : string) :
  preserves stays_named (handle_agent_command cmd).
Proof.
  intros st Hn. destruct (handle_agent_command_outcome cmd st)
    as [-> | [name [Hne ->]]]; [exact Hn | exact Hne].
Qed.

End HandlersPreserve.

(** ** The main loop *)

Section MainFacts.

Variable py_repr : value -> string.
Variable mem_client : list event -> Mem0Client.call -> result value.
Variable oa_client : list event -> chat_request -> result (list (option string)).
Variable textwrap_fill : option string -> nat -> result string.

Let main_loop' := main_loop py_repr mem_client oa_client textwrap_fill.
Let main' := main py_repr mem_client oa_client textwrap_fill.

Lemma main_loop_extends (inputs : list string) :
  preserves extends (main_loop' inputs).
Proof.
  unfold main_loop'.
  induction inputs as [|line rest IH]; cbn [main_loop]; unfold write_prompt;
    repeat preserves_step extends_trans
      ltac:(auto using chat_once_extends, handle_mem_command_extends,
              handle_agent_command_extends with extends_db).
Qed.

Ltac named_leaf :=
  first [ assumption
        | apply handle_agent_command_stays_named
        | apply keeps_agent_stays_named;
          first [ apply chat_once_keeps_agent
                | apply handle_mem_command_keeps_agent
                | auto with agent_inv ] ].

Lemma main_loop_stays_named (inputs : list string) :
  preserves stays_named (main_loop' inputs).
Proof.
  unfold main_loop'.
  induction inputs as [|line rest IH]; cbn [main_loop]; unfold write_prompt;
    repeat preserves_step stays_named_trans ltac:(named_leaf).
Qed.

(** X7. The active agent is always named: it is at the start, and the
    chat turn, the two command handlers and the whole loop of [main],
    on any input, whether they return or raise, leave it named. *)
Theorem agent_always_named (inputs : list string) (user_input cmd : string) :
  agent_named initial_state
  /\ preserves stays_named (chat_once py_repr mem_client oa_client user_input)
  /\ preserves stays_named (handle_mem_command py_repr mem_client cmd)
  /\ preserves stays_named (handle_agent_command cmd)
  /\ preserves stays_named (main' inputs)
  /\ agent_named (snd (main' inputs initial_state)).
Proof.
  assert (Hmain : preserves stays_named (main' inputs)).
  { unfold main', main.
    repeat preserves_step stays_named_trans
      ltac:(first [apply main_loop_stays_named | named_leaf]). }
  split; [discriminate|].
  split; [apply keeps_agent_stays_named, chat_once_keeps_agent|].
  split; [apply keeps_agent_stays_named, handle_mem_command_keeps_agent|].
  split; [apply handle_agent_command_stays_named|].
  split; [exact Hmain|].
  apply Hmain. discriminate.
Qed.

(** X23. "exit" and "quit", in any case and with white space around,
    end the loop at once: "Bye." is printed, no collaborator is called
    and the lines that follow are not read. *)
Theorem main_loop_exit (line : string) (rest : list string) (st : state) :
  PyStr.lower (PyStr.strip line) = "exit"
  \/ PyStr.lower (PyStr.strip line) = "quit" ->
  main_loop' (line :: rest) st
  = (Ok tt,
     State (CURRENT_AGENT_ID st)
       (stdout st ++ [(nl ++ "You: ")%string; "Bye."])%list (calls st)).
Proof.
  intros H. unfold main_loop'. cbn [main_loop]. cbv zeta.
  assert (He : is_exit_word (PyStr.lower (PyStr.strip line)) = true)
    by (destruct H as [-> | ->]; reflexivity).
  rewrite He. unfold bind, write_prompt, print.
  cbn [CURRENT_AGENT_ID stdout calls]. now rewrite <- app_assoc.
Qed.

(** X24. A session made of command lines only, "/mem" lines, "/agent"
    lines and the exit words, never calls the completion service. *)
Theorem commands_never_call_completion (inputs : list string) (st : state) :
  forallb is_command_line inputs = true ->
  filter is_chat_event (calls (snd (main_loop' inputs st)))
  = filter is_chat_event (calls st).
Proof.
  unfold main_loop'. intros H.
  revert st. induction inputs as [|line rest IH].
  - intros st. reflexivity.
  - cbn [forallb] in H. apply andb_true_iff in H as [Hline Hrest].
    specialize (IH Hrest).
    assert (Hloop : preserves same_chats
                      (main_loop py_repr mem_client oa_client textwrap_fill
                         (line :: rest))).
    { cbn [main_loop]. unfold write_prompt.
      apply (preserves_bind _ same_chats_trans); [apply same_chats_print|].
      intros _. cbv zeta. unfold is_command_line in Hline. cbv zeta in Hline.
      destruct (is_exit_word (PyStr.lower (PyStr.strip line)));
        [apply same_chats_print|].
      destruct (PyStr.startswith "/mem" (PyStr.strip line)).
      { repeat preserves_step same_chats_trans
          ltac:(first [exact IH | apply handle_mem_command_same_chats
                      | auto with chats_db]). }
      destruct (PyStr.startswith "/agent" (PyStr.strip line));
        [|discriminate Hline].
      repeat preserves_step same_chats_trans
        ltac:(first [exact IH | apply handle_agent_command_same_chats
                    | auto with chats_db]). }
    exact Hloop.
Qed.

Lemma blank_line_is_chat (w : string) :
  all_space w = true -> is_command_line w = false.
Proof.
  intros Hw. unfold is_command_line. cbv zeta.
  now rewrite (strip_all_space _ Hw).
Qed.

(** The state at the end of a bind has what the state after its first
    part had, and more. *)
Lemma bind_extends_first {A B} (m : M A) (k : A -> M B) (st : state) :
  (forall a, preserves extends (k a)) ->
  extends (snd (m st)) (snd (bind m k st)).
Proof.
  intros Hk. unfold bind. destruct (m st) as [[a|e] st1]; cbn [snd].
  - apply Hk.
  - apply extends_refl.
Qed.

(** X25. A line that is no command goes to [chat_once], the empty
    line too: a turn is made on the empty input, starting with a
    search for the empty query. And when a turn raises, the loop ends
    with that error: the lines that follow are not read. *)
Theorem main_loop_chat_lines (line : string) (rest : list string)
    (st : state) :
  let st1 := snd (write_prompt st) in
  (forall e st2,
     is_command_line line = false ->
     chat_once py_repr mem_client oa_client (PyStr.strip line) st1
     = (Raise e, st2) ->
     main_loop' (line :: rest) st = (Raise e, st2))
  /\ (all_space line = true ->
      exists tail,
        calls (snd (main_loop' (line :: rest) st))
        = (calls st
           ++ EMem (Mem0Client.search "" (CURRENT_AGENT_ID st)) :: tail)%list).
Proof.
  cbv zeta. unfold main_loop'. split.
  - intros e st2 Hline Hchat. cbn [main_loop]. cbv zeta.
    unfold is_command_line in Hline. cbv zeta in Hline.
    apply orb_false_iff in Hline as [Hline Ha].
    apply orb_false_iff in Hline as [He Hm].
    rewrite He, Hm, Ha. unfold bind at 1.
    destruct (write_prompt st) as [[[]|e0] st1] eqn:Hp;
      [|discriminate Hp].
    cbn [snd] in Hchat. unfold bind at 1. now rewrite Hchat.
  - intros Hw. cbn [main_loop]. cbv zeta.
    pose proof (blank_line_is_chat _ Hw) as Hline.
    unfold is_command_line in Hline. cbv zeta in Hline.
    apply orb_false_iff in Hline as [Hline Ha].
    apply orb_false_iff in Hline as [He Hm].
    rewrite He, Hm, Ha, (strip_all_space _ Hw).
    unfold bind at 1. unfold write_prompt, print at 1.
    set (st1 := State _ _ _).
    destruct (chat_once_calls_prefix py_repr mem_client oa_client "" st1)
      as [tail Hc].
    assert (Hext :
      extends (snd (chat_once py_repr mem_client oa_client "" st1))
        (snd (bind (chat_once py_repr mem_client oa_client "")
                (fun reply =>
                   bind (print (nl ++ "Assistant:"))
                     (fun _ =>
                        bind (lift (textwrap_fill reply 100))
                          (fun filled =>
                             bind (print filled)
                               (fun _ =>
                                  main_loop py_repr mem_client oa_client
                                    textwrap_fill rest)))) st1))).
    { apply bind_extends_first. intros reply.
      repeat preserves_step extends_trans
        ltac:(first [apply main_loop_extends | auto with extends_db]). }
    destruct Hext as [out [cs [_ Hcs]]].
    exists (tail ++ cs)%list. rewrite Hcs, Hc.
    cbn [calls CURRENT_AGENT_ID st1]. now rewrite <- app_assoc.
Qed.

Lemma farewell_print (line : string) :
  is_farewell line -> ends_with_farewell (print line).
Proof.
  intros Hf st _. exists [], line. cbn. split; [reflexivity | exact Hf].
Qed.

Lemma farewell_bind {A} (m : M A) (k : A -> M unit) :
  preserves extends m -> (forall a, ends_with_farewell (k a)) ->
  ends_with_farewell (bind m k).
Proof.
  intros Hm Hk st. unfold bind. specialize (Hm st).
  destruct (m st) as [[a|e] st1]; cbn [snd fst] in *; [|discriminate].
  intros Hok. destruct (Hk a st1 Hok) as [out [bye [Hout Hbye]]].
  destruct Hm as [o1 [c1 [Ho1 _]]].
  exists (o1 ++ out)%list, bye. split; [|exact Hbye].
  now rewrite Hout, Ho1, <- !app_assoc.
Qed.

Lemma main_loop_farewell (inputs : list string) :
  ends_with_farewell (main_loop' inputs).
Proof.
  unfold main_loop'.
  induction inputs as [|line rest IH]; cbn [main_loop]; unfold write_prompt.
  - apply farewell_bind; [apply extends_print|]. intros _.
    apply farewell_print. now right.
  - apply farewell_bind; [apply extends_print|]. intros _. cbv zeta.
    destruct (is_exit_word _); [apply farewell_print; now left|].
    destruct (PyStr.startswith "/mem" _).
    { apply farewell_bind; [apply handle_mem_command_extends|]. intros out.
      apply farewell_bind; [apply extends_print|]. intros _.
      apply farewell_bind; [apply extends_print|]. intros _. exact IH. }
    destruct (PyStr.startswith "/agent" _).
    { apply farewell_bind; [apply handle_agent_command_extends|]. intros out.
      apply farewell_bind; [apply extends_print|]. intros _.
      apply farewell_bind; [apply extends_print|]. intros _. exact IH. }
    apply farewell_bind; [apply chat_once_extends|]. intros reply.
    apply farewell_bind; [apply extends_print|]. intros _.
    apply farewell_bind;
      [apply (preserves_lift extends extends_refl)|]. intros filled.
    apply farewell_bind; [apply extends_print|]. intros _. exact IH.
Qed.

(** X26. Whenever [main] returns, on the exit word or at the end of
    the input, the last line it has printed is a farewell, "Bye." or
    "\nBye.", after everything that was printed before. *)
Theorem main_ends_with_farewell (inputs : list string) (st : state) :
  fst (main' inputs st) = Ok tt ->
  exists out bye,
    stdout (snd (main' inputs st)) = (stdout st ++ out ++ [bye])%list
    /\ (bye = "Bye." \/ bye = nl ++ "Bye.").
Proof.
  revert st. change (ends_with_farewell (main' inputs)).
  unfold main', main.
  repeat (apply farewell_bind; [apply extends_print | intros _]).
  apply main_loop_farewell.
Qed.

End MainFacts.

Lemma agent_always_named_witness :
  agent_named (snd (handle_agent_command "/agent nova" initial_state))
  /\ agent_named
       (snd (main repr_type_only mem_down oa_down fill_short
               ["/agent   "; "/agent x y"; "hello"] initial_state)).
Proof.
  split.
  - apply (proj1 (proj2 (proj2 (proj2
      (agent_always_named repr_type_only mem_down oa_down fill_short []
         "" "/agent nova"))))).
    discriminate.
  - apply (proj2 (proj2 (proj2 (proj2 (proj2
      (agent_always_named repr_type_only mem_down oa_down fill_short
         ["/agent   "; "/agent x y"; "hello"] "" "")))))).
Defined.

Lemma main_loop_exit_witness :
  main_loop repr_type_only mem_down oa_down fill_short
    ["  QuIt "; "hello"] initial_state
  = (Ok tt, State "vera" [(nl ++ "You: ")%string; "Bye."] []).
Proof.
  apply (main_loop_exit repr_type_only mem_down oa_down fill_short
           "  QuIt " ["hello"] initial_state).
  now right.
Defined.

Lemma commands_never_call_completion_witness :
  filter is_chat_event
    (calls (snd (main_loop repr_type_only mem_empty (oa_says "Hello Jose.")
                   fill_short
                   ["/mem"; "/agent nova"; "/mem search cats"; "EXIT"]
                   initial_state)))
  = [].
Proof.
  apply (commands_never_call_completion repr_type_only mem_empty
           (oa_says "Hello Jose.") fill_short
           ["/mem"; "/agent nova"; "/mem search cats"; "EXIT"]
           initial_state).
  reflexivity.
Defined.

Lemma main_loop_chat_lines_witness :
  fst (main_loop repr_type_only mem_down oa_down fill_short
         ["hello"; "/agent nova"] initial_state)
  = Raise (Exn "APIConnectionError" "Connection error.")
  /\ exists tail,
       calls (snd (main_loop repr_type_only mem_empty (oa_says "Hello Jose.")
                     fill_short [" "] initial_state))
       = EMem (Mem0Client.search "" "vera") :: tail.
Proof.
  split.
  - rewrite (proj1 (main_loop_chat_lines repr_type_only mem_down oa_down
                      fill_short "hello" ["/agent nova"] initial_state)
               (Exn "APIConnectionError" "Connection error.")
               (snd (chat_once repr_type_only mem_down oa_down "hello"
                       (snd (write_prompt initial_state))))
               eq_refl eq_refl).
    reflexivity.
  - apply (proj2 (main_loop_chat_lines repr_type_only mem_empty
                    (oa_says "Hello Jose.") fill_short " " [] initial_state)).
    reflexivity.
Defined.

Lemma main_ends_with_farewell_witness :
  exists out bye,
    stdout (snd (main repr_type_only mem_empty (oa_says "Hello Jose.")
                   fill_short ["hello"; "/agent nova"] initial_state))
    = (out ++ [bye])%list
    /\ (bye = "Bye." \/ bye = nl ++ "Bye.").
Proof.
  apply (main_ends_with_farewell repr_type_only mem_empty
           (oa_says "Hello Jose.") fill_short ["hello"; "/agent nova"]
           initial_state).
  reflexivity.
Defined.

(** ** The smoke test *)

Section SmokeTestFacts.

Variable py_repr : value -> string.
Variable environ : string -> option string.
Variable transport : list http_request -> http_request -> result http_response.
Variable json_loads : string -> result value.

(** X27. The smoke test sends its add and then its search, both with
    the user "jose" and the agent "vera" that the client has as
    defaults. When the add fails, on the transport or on the status of
    the response, the script ends with that error: nothing is printed
    and the search is not sent. *)
Theorem smoke_test_requests (w : io) :
  let client := __init__ environ None (Some "jose") (Some "vera") in
  let add := add_memories_request client test_messages None None None None in
  let find := search_request client test_query None None None None in
  request_fields add
  = [("messages", VList (map message_value test_messages));
     ("user_id", VStr "jose"); ("agent_id", VStr "vera")]
  /\ request_fields find
     = [("query", VStr test_query);
        ("user_id", VStr "jose"); ("agent_id", VStr "vera")]
  /\ (forall e,
        rbind (transport (sent w) add) (_handle json_loads) = Raise e ->
        test_main py_repr environ transport json_loads w
        = (Raise e, IO (sent w ++ [add])%list (printed w)))
  /\ (forall added,
        rbind (transport (sent w) add) (_handle json_loads) = Ok added ->
        sent (snd (test_main py_repr environ transport json_loads w))
        = (sent w ++ [add; find])%list).
Proof.
  cbv zeta. split; [reflexivity|]. split; [reflexivity|].
  unfold test_main. cbv zeta.
  unfold add_memories, search, hbind, send, hlift, hprint.
  set (client := __init__ environ None (Some "jose") (Some "vera")).
  set (add := add_memories_request client test_messages None None None None).
  set (find := search_request client test_query None None None None).
  split.
  - intros e He. destruct (transport (sent w) add) as [resp|e0];
      cbn [rbind] in He.
    + now rewrite He.
    + now injection He as ->.
  - intros added Ha. destruct (transport (sent w) add) as [resp|e0];
      cbn [rbind] in Ha; [|discriminate].
    rewrite Ha. cbn [sent printed].
    destruct (transport _ find) as [resp2|e2]; cbn [snd sent].
    + destruct (_handle json_loads resp2); cbn [snd sent];
        now rewrite <- app_assoc.
    + now rewrite <- app_assoc.
Qed.

End SmokeTestFacts.

Lemma smoke_test_requests_witness :
  test_main repr_type_only environ_empty transport_500 json_loads_stub
    (IO [] [])
  = (Raise (Exn "HTTPError"
              "500 Server Error: Internal Server Error for url: http://127.0.0.1:8000/memories"),
     IO [add_memories_request
           (Client "http://127.0.0.1:8000" (Some "jose") (Some "vera"))
           test_messages None None None None] [])
  /\ sent (snd (test_main repr_type_only environ_empty transport_pong
                  json_loads_stub (IO [] [])))
     = [add_memories_request
          (Client "http://127.0.0.1:8000" (Some "jose") (Some "vera"))
          test_messages None None None None;
        search_request
          (Client "http://127.0.0.1:8000" (Some "jose") (Some "vera"))
          test_query None None None None].
Proof.
  split.
  - apply (proj1 (proj2 (proj2
      (smoke_test_requests repr_type_only environ_empty transport_500
         json_loads_stub (IO [] []))))).
    reflexivity.
  - apply (proj2 (proj2 (proj2
      (smoke_test_requests repr_type_only environ_empty transport_pong
         json_loads_stub (IO [] []))))
      (VStr "pong")).
    reflexivity.
Defined.

(** X18. [handle_agent_command] is quiet: on any line it prints
    nothing and calls no collaborator. And its usage message is never
    returned: the branch that returns it cannot be reached, a second
    item of the split line being never blank. *)
Theorem handle_agent_command_is_quiet (cmd : string) (st : state) :
  stdout (snd (handle_agent_command cmd st)) = stdout st
  /\ calls (snd (handle_agent_command cmd st)) = calls st
  /\ fst (handle_agent_command cmd st) <> Ok "Usage: /agent <name>"
  /\ (forall p0 p1 more,
        PyStr.split (PyStr.strip cmd) 1 = p0 :: p1 :: more ->
        PyStr.strip p1 <> "").
Proof.
  split; [|split; [|split]].
  - destruct (handle_agent_command_outcome cmd st) as [-> | [name [_ ->]]];
      reflexivity.
  - destruct (handle_agent_command_outcome cmd st) as [-> | [name [_ ->]]];
      reflexivity.
  - apply handle_agent_command_never_usage.
  - intros p0 p1 more. apply split_1_second_item.
Qed.

Lemma handle_agent_command_is_quiet_witness :
  PyStr.strip "nova prime" <> ""
  /\ calls (snd (handle_agent_command "/agent nova prime" initial_state)) = [].
Proof.
  split.
  - apply (proj2 (proj2 (proj2
      (handle_agent_command_is_quiet "/agent nova prime" initial_state)))
      "/agent" "nova prime" []).
    reflexivity.
  - apply (proj1 (proj2
      (handle_agent_command_is_quiet "/agent nova prime" initial_state))).
Defined.
